(** * Accounts, authorisation and audit layer of the county recruitment system

    A shallow embedding of [accounts/models.py], [accounts/forms.py],
    [accounts/views.py], [core/decorators.py] and the activity page of
    [core/views.py], followed by the properties established about them.

    Conventions.
    - A Python [str] is a Rocq [string] read as a sequence of code points;
      the model covers the code points below 256.  [Py.isdigit_char],
      [Py.isdecimal_char] and [Py.isspace_char] are [str.isdigit], the class
      [\d] of [re] and [str.isspace] on those code points.
    - The database is an explicit value ([World]) threaded through the views
      by a small state-and-exception monad; an uncaught Python exception is
      the outcome [Raised].
    - What Django itself supplies (credential checking, password hashing
      and checking, the e-mail validators and the normal form of an
      address, [settings.LOGIN_URL]) is a parameter, the class [Django].
    - A save raises [IntegrityError] when the row clashes with another row
      on a column declared unique, and then writes nothing.
    - File uploads are left out: the requests of the model carry no
      profile picture. *)

From Stdlib Require Import String Ascii List ZArith Bool Arith Lia.
From Stdlib Require Import DecimalString Sorted Permutation.
Import ListNotations.
Local Open Scope string_scope.

(* ------------------------------------------------------------------ *)
(** ** Python strings *)

Module Py.

Definition code_in (c : ascii) (lo hi : nat) : bool :=
  (lo <=? nat_of_ascii c)%nat && (nat_of_ascii c <=? hi)%nat.

(** [c.isdigit()]: the ten decimal digits, and the superscripts two,
    three and one (code points 178, 179 and 185). *)
Definition isdigit_char (c : ascii) : bool :=
  code_in c 48 57 || code_in c 178 179 || code_in c 185 185.

(** what [\d] matches in a pattern over [str]: the decimal digits *)
Definition isdecimal_char (c : ascii) : bool := code_in c 48 57.

(** [c.isspace()] *)
Definition isspace_char (c : ascii) : bool :=
  code_in c 9 13 || code_in c 28 32 || code_in c 133 133 || code_in c 160 160.

(** Case folding of the ASCII letters: what [upper] does to the two ASCII
    words the toggle applies it to, and what the comparison of
    [__icontains] ignores. *)
Definition lower_char (c : ascii) : ascii :=
  let n := nat_of_ascii c in
  if (65 <=? n)%nat && (n <=? 90)%nat then ascii_of_nat (n + 32) else c.

Definition upper_char (c : ascii) : ascii :=
  let n := nat_of_ascii c in
  if (97 <=? n)%nat && (n <=? 122)%nat then ascii_of_nat (n - 32) else c.

Fixpoint all_chars (p : ascii -> bool) (s : string) : bool :=
  match s with
  | EmptyString => true
  | String c t => p c && all_chars p t
  end.

Fixpoint filter_chars (p : ascii -> bool) (s : string) : string :=
  match s with
  | EmptyString => EmptyString
  | String c t => if p c then String c (filter_chars p t) else filter_chars p t
  end.

Fixpoint map_chars (f : ascii -> ascii) (s : string) : string :=
  match s with
  | EmptyString => EmptyString
  | String c t => String (f c) (map_chars f t)
  end.

(** [bool(s)] *)
Definition truthy (s : string) : bool := negb (s =? "").

(** [s.isdigit()]: false on the empty string *)
Definition isdigit (s : string) : bool := truthy s && all_chars isdigit_char s.

(** [s.replace(c, '')] for a one-character [c] *)
Definition remove_char (c : ascii) (s : string) : string :=
  filter_chars (fun x => negb (Ascii.eqb x c)) s.

(** [s.startswith(p)] *)
Definition startswith (s p : string) : bool := String.prefix p s.

Definition lower (s : string) : string := map_chars lower_char s.
Definition upper (s : string) : string := map_chars upper_char s.

(** [needle in hay] *)
Fixpoint contains (needle hay : string) : bool :=
  String.prefix needle hay ||
  match hay with
  | EmptyString => false
  | String _ t => contains needle t
  end.

(** the [__icontains] lookup of the ORM *)
Definition icontains (field needle : string) : bool :=
  contains (lower needle) (lower field).

(** [str(n)] for an integer *)
Definition str_of_Z (n : Z) : string := NilZero.string_of_int (Z.to_int n).

(** [d.get(k)] on a query dictionary *)
Fixpoint dict_get (d : list (string * string)) (k : string) : option string :=
  match d with
  | [] => None
  | (k', v) :: d' => if k' =? k then Some v else dict_get d' k
  end.

(** [s.lstrip()] *)
Fixpoint lstrip (s : string) : string :=
  match s with
  | EmptyString => EmptyString
  | String c t => if isspace_char c then lstrip t else s
  end.

(** [s.rstrip()] *)
Fixpoint rstrip (s : string) : string :=
  match s with
  | EmptyString => EmptyString
  | String c t =>
      match rstrip t with
      | EmptyString => if isspace_char c then EmptyString else String c EmptyString
      | t' => String c t'
      end
  end.

(** [s.strip()] *)
Definition strip (s : string) : string := rstrip (lstrip s).

(** [s] without its last character, when that is a line feed *)
Fixpoint chomp (s : string) : option string :=
  match s with
  | EmptyString => None
  | String c EmptyString => if Ascii.eqb c "010" then Some EmptyString else None
  | String c t => match chomp t with
                  | Some t' => Some (String c t')
                  | None => None
                  end
  end.

(** A pattern [^body$] searched in [s]: [$] matches at the end of the
    string and also just before a line feed that ends it. *)
Definition at_dollar (body : string -> bool) (s : string) : bool :=
  body s || match chomp s with
            | Some t => body t
            | None => false
            end.

End Py.

(* ------------------------------------------------------------------ *)
(** ** accounts/models.py *)

Module Models.

Record User := mkUser {
  id : Z;
  email : string;
  password : string;
  first_name : string;
  last_name : string;
  national_id : string;
  phone_number : string;
  role : string;
  department : string;
  employee_id : option string;
  is_active : bool;
  date_joined : Z;
  last_activity : Z;
  groups : list string;
  last_login : option Z;
  uuid : Z
}.

Record UserActivityLog := mkLog {
  log_user : Z;
  action : string;
  ip_address : option string;
  user_agent : string;
  timestamp : Z;
  data : list (string * string)
}.

(** [User.ROLE_CHOICES], the stored values *)
Definition ROLE_CHOICES : list string :=
  [ "INITIATOR"; "CHIEF_OFFICER"; "COUNTY_SECRETARY"; "CPSB_BOARD";
    "CPSB_SECRETARIAT"; "HR_SECRETARIAT"; "HR_ADMIN"; "PANELIST";
    "PAYROLL_OFFICER" ].

Definition role_to_group : list (string * string) :=
  [ ("INITIATOR", "Initiators");
    ("CHIEF_OFFICER", "Chief Officers");
    ("COUNTY_SECRETARY", "County Secretaries");
    ("CPSB_BOARD", "CPSB Board");
    ("CPSB_SECRETARIAT", "CPSB Secretariat");
    ("HR_SECRETARIAT", "HR Secretariat");
    ("HR_ADMIN", "HR Administrators");
    ("PANELIST", "Panelists");
    ("PAYROLL_OFFICER", "Payroll Officers") ].

(** [User.get_role_group]: [role_to_group.get(self.role, 'Applicants')] *)
Definition get_role_group (u : User) : string :=
  match Py.dict_get role_to_group (role u) with
  | Some g => g
  | None => "Applicants"
  end.

Definition get_full_name (u : User) : string :=
  first_name u ++ " " ++ last_name u.

(** Equality of model instances: same primary key. *)
Definition model_eq (u v : User) : bool := (id u =? id v)%Z.

(** The pattern [\+?1?\d{9,15}] matched against a whole string: after an
    optional [+], either 9 to 15 decimal digits, or a [1] and then 9 to 15
    decimal digits. *)
Definition phone_number_pattern (s : string) : bool :=
  let body := match s with
              | String "+"%char t => t
              | _ => s
              end in
  let n := String.length body in
  Py.all_chars Py.isdecimal_char body &&
  (((9 <=? n)%nat && (n <=? 15)%nat) ||
   (Py.startswith body "1" && (10 <=? n)%nat && (n <=? 16)%nat)).

(** The validators of [phone_number]:
    [RegexValidator(r'^\+?1?\d{9,15}$')] and the [max_length=15] of the
    column. *)
Definition phone_number_validator (s : string) : bool :=
  Py.at_dollar phone_number_pattern s && (String.length s <=? 15)%nat.

(** The pattern [\d{7,8}] matched against a whole string. *)
Definition national_id_pattern (s : string) : bool :=
  Py.all_chars Py.isdecimal_char s &&
  (7 <=? String.length s)%nat && (String.length s <=? 8)%nat.

(** The validator [RegexValidator(r'^\d{7,8}$')] of [national_id]. *)
Definition national_id_validator (s : string) : bool :=
  Py.at_dollar national_id_pattern s.

End Models.

(* ------------------------------------------------------------------ *)
(** ** accounts/forms.py: the field hooks *)

Module Forms.
Import Models.

(** The result of a [clean_<field>] hook: the cleaned value, or the
    [ValidationError] it raised. *)
Inductive cleaned : Type :=
| Clean (value : string)
| ValidationError (message : string).

Definition accepted (r : cleaned) : bool :=
  match r with Clean _ => true | ValidationError _ => false end.

(** [User.objects.filter(national_id=national_id).exists()] *)
Definition national_id_exists (users : list User) (nid : string) : bool :=
  existsb (fun u => national_id u =? nid) users.

(** [User.objects.filter(email=email).exists()] *)
Definition email_exists (users : list User) (e : string) : bool :=
  existsb (fun u => email u =? e) users.

(** [CustomUserCreationForm.clean_email] *)
Definition clean_email (users : list User) (e : string) : cleaned :=
  if Py.truthy e && email_exists users e
  then ValidationError "A user with this email already exists."
  else Clean e.

(** [CustomUserCreationForm.clean_national_id] *)
Definition clean_national_id (users : list User) (national_id : string) : cleaned :=
  if Py.truthy national_id && national_id_exists users national_id
  then ValidationError "A user with this National ID already exists."
  else if Py.truthy national_id && negb (Py.isdigit national_id)
  then ValidationError "National ID must contain only digits."
  else if Py.truthy national_id &&
          ((String.length national_id <? 7)%nat || (8 <? String.length national_id)%nat)
  then ValidationError "National ID must be 7 or 8 digits long."
  else Clean national_id.

Definition kenyan_prefix (phone : string) : bool :=
  Py.startswith phone "+254" || Py.startswith phone "254" ||
  Py.startswith phone "07" || Py.startswith phone "01".

(** [CustomUserCreationForm.clean_phone_number] *)
Definition clean_phone_number (phone : string) : cleaned :=
  if Py.truthy phone then
    let phone := Py.remove_char "-" (Py.remove_char " " phone) in
    if negb (kenyan_prefix phone)
    then ValidationError
           "Phone number must be in Kenyan format (e.g., +254712345678, 0712345678)"
    else
      let digits_only := Py.filter_chars Py.isdigit_char phone in
      if (String.length digits_only <? 9)%nat || (12 <? String.length digits_only)%nat
      then ValidationError "Phone number must have between 9 and 12 digits"
      else Clean phone
  else Clean phone.

(** [UserProfileForm.clean_phone_number] *)
Definition profile_clean_phone_number (phone : string) : cleaned :=
  if Py.truthy phone then
    let phone := Py.remove_char "-" (Py.remove_char " " phone) in
    if negb (kenyan_prefix phone)
    then ValidationError "Phone number must be in Kenyan format"
    else Clean phone
  else Clean phone.

End Forms.

(* ------------------------------------------------------------------ *)
(** ** The database, requests and the monad of view code *)

Module Core.
Import Models.

Inductive Level : Type := SUCCESS | ERROR.

(** The persistent store, with the message queue and the session of the
    client that issues the request. *)
Record World := mkWorld {
  users : list User;
  activity : list UserActivityLog;
  auth_groups : list string;
  flash : list (Level * string);
  session : option Z
}.

(** What a request reads from its surroundings: [timezone.now()], its
    [.year], the draw of [random.randint(1000, 9999)], and the draw of
    [uuid.uuid4()] for a new row. *)
Record Env := mkEnv {
  now : Z;
  year : Z;
  randint : Z;
  uuid4 : Z
}.

(** [request.user] is [None] for the anonymous user; [path] is the path of
    the request as [login_required] writes it into the [next] parameter. *)
Record Request := mkRequest {
  method : string;
  path : string;
  user : option User;
  GET : list (string * string);
  POST : list (string * string);
  REMOTE_ADDR : option string;
  HTTP_USER_AGENT : option string
}.

Inductive Context : Type :=
| FormContext (bound : bool)
| UsersContext (listed : list User) (current_role search_term : option string).

Inductive Response : Type :=
| Redirect (to : string)
| Render (template : string) (context : Context).

Inductive Exn : Type :=
| NameError (name : string)
| DoesNotExist
| ValueError (message : string)
| IntegrityError
| DatabaseError.

Inductive Outcome (A : Type) : Type :=
| Returned (a : A) (w : World)
| Raised (e : Exn) (w : World).
Arguments Returned {A} a w.
Arguments Raised {A} e w.

Definition M (A : Type) : Type := World -> Outcome A.

Definition ret {A} (a : A) : M A := fun w => Returned a w.

Definition bind {A B} (c : M A) (k : A -> M B) : M B :=
  fun w => match c w with
           | Returned a w' => k a w'
           | Raised e w' => Raised e w'
           end.

Definition raise {A} (e : Exn) : M A := fun w => Raised e w.

(** [try: c  except <handled>: h] *)
Definition try_except {A} (c : M A) (handler : Exn -> option (M A)) : M A :=
  fun w => match c w with
           | Returned a w' => Returned a w'
           | Raised e w' => match handler e with
                            | Some h => h w'
                            | None => Raised e w'
                            end
           end.

Definition get_world : M World := fun w => Returned w w.

Definition final_world {A} (o : Outcome A) : World :=
  match o with Returned _ w => w | Raised _ w => w end.

Definition response_of (o : Outcome Response) : option Response :=
  match o with Returned r _ => Some r | Raised _ _ => None end.

Definition is_authenticated (request : Request) : bool :=
  match user request with Some _ => true | None => false end.

Definition truthy_opt (v : option string) : bool :=
  match v with Some s => Py.truthy s | None => false end.

Definition set_users (us : list User) (w : World) : World :=
  mkWorld us (activity w) (auth_groups w) (flash w) (session w).

(** [messages.success] / [messages.error] *)
Definition messages_add (l : Level) (text : string) : M unit :=
  fun w => Returned tt
    (mkWorld (users w) (activity w) (auth_groups w) (flash w ++ [(l, text)]) (session w)).

(** [User.objects.get(id=user_id)] *)
Definition User_objects_get (user_id : Z) : M User :=
  fun w => match find (fun u => (id u =? user_id)%Z) (users w) with
           | Some u => Returned u w
           | None => Raised DoesNotExist w
           end.

Definition set_email (e : string) (u : User) : User :=
  mkUser (id u) e (password u) (first_name u) (last_name u)
    (national_id u) (phone_number u) (role u) (department u) (employee_id u)
    (is_active u) (date_joined u) (last_activity u) (groups u)
    (last_login u) (uuid u).

Definition set_employee_id (e : option string) (u : User) : User :=
  mkUser (id u) (email u) (password u) (first_name u) (last_name u)
    (national_id u) (phone_number u) (role u) (department u) e
    (is_active u) (date_joined u) (last_activity u) (groups u)
    (last_login u) (uuid u).

Definition set_last_activity (t : Z) (u : User) : User :=
  mkUser (id u) (email u) (password u) (first_name u) (last_name u)
    (national_id u) (phone_number u) (role u) (department u) (employee_id u)
    (is_active u) (date_joined u) t (groups u)
    (last_login u) (uuid u).

Definition set_is_active (b : bool) (u : User) : User :=
  mkUser (id u) (email u) (password u) (first_name u) (last_name u)
    (national_id u) (phone_number u) (role u) (department u) (employee_id u)
    b (date_joined u) (last_activity u) (groups u)
    (last_login u) (uuid u).

Definition set_groups (g : list string) (u : User) : User :=
  mkUser (id u) (email u) (password u) (first_name u) (last_name u)
    (national_id u) (phone_number u) (role u) (department u) (employee_id u)
    (is_active u) (date_joined u) (last_activity u) g
    (last_login u) (uuid u).

Definition set_phone_number (p : string) (u : User) : User :=
  mkUser (id u) (email u) (password u) (first_name u) (last_name u)
    (national_id u) p (role u) (department u) (employee_id u)
    (is_active u) (date_joined u) (last_activity u) (groups u)
    (last_login u) (uuid u).

Definition set_names (f l : string) (u : User) : User :=
  mkUser (id u) (email u) (password u) f l
    (national_id u) (phone_number u) (role u) (department u) (employee_id u)
    (is_active u) (date_joined u) (last_activity u) (groups u)
    (last_login u) (uuid u).

Definition set_last_login (t : option Z) (u : User) : User :=
  mkUser (id u) (email u) (password u) (first_name u) (last_name u)
    (national_id u) (phone_number u) (role u) (department u) (employee_id u)
    (is_active u) (date_joined u) (last_activity u) (groups u)
    t (uuid u).

(** Writing a row: an UPDATE when the key is present, an INSERT otherwise. *)
Definition write_row (u : User) (rows : list User) : list User :=
  if existsb (model_eq u) rows
  then map (fun r => if model_eq r u then u else r) rows
  else rows ++ [u].

(** [f"SAV{year}{random_num}"] *)
Definition employee_number (env : Env) : string :=
  "SAV" ++ Py.str_of_Z (year env) ++ Py.str_of_Z (randint env).

(** [bool(self.employee_id)] *)
Definition has_employee_id (u : User) : bool :=
  match employee_id u with
  | Some e => Py.truthy e
  | None => false
  end.

(** Two values of the nullable column [employee_id] clash when both are
    set and equal. *)
Definition same_employee_id (a b : option string) : bool :=
  match a, b with
  | Some x, Some y => x =? y
  | _, _ => false
  end.

(** The columns declared [unique=True]: [email], [national_id],
    [employee_id] and [uuid].  Writing [u] violates a constraint when
    another row holds one of its values. *)
Definition unique_violation (u : User) (rows : list User) : bool :=
  existsb (fun r => negb (model_eq r u) &&
                    ((email r =? email u) || (national_id r =? national_id u) ||
                     same_employee_id (employee_id r) (employee_id u) ||
                     (uuid r =? uuid u)%Z)) rows.

(** The row [User.save] hands to [super().save()]: the employee number is
    drawn, once and without a retry, when the instance has none, and
    [last_activity] is [auto_now]. *)
Definition row_to_save (env : Env) (u : User) : User :=
  set_last_activity (now env)
    (if has_employee_id u then u
     else set_employee_id (Some (employee_number env)) u).

(** [User.save]: the row is written, unless it violates a unique
    constraint, in which case [IntegrityError] is raised and nothing is
    written. *)
Definition User_save (env : Env) (u : User) : M User :=
  let u := row_to_save env u in
  fun w => if unique_violation u (users w) then Raised IntegrityError w
           else Returned u (set_users (write_row u (users w)) w).

(** [UserActivityLog.objects.create(user=..., action=..., ip_address=...,
    user_agent=..., data=...)]; [timestamp] is [auto_now_add]. *)
Definition UserActivityLog_objects_create (env : Env) (request : Request)
    (owner : option User) (act : string) (payload : list (string * string)) : M unit :=
  match owner with
  | None => raise (ValueError "UserActivityLog.user must be a User instance")
  | Some u =>
      fun w => Returned tt
        (mkWorld (users w)
           (activity w ++
              [mkLog (id u) act (REMOTE_ADDR request)
                 (match HTTP_USER_AGENT request with Some a => a | None => "" end)
                 (now env) payload])
           (auth_groups w) (flash w) (session w))
  end.

(** [Group.objects.get_or_create(name=...)] *)
Definition Group_objects_get_or_create (name : string) : M string :=
  fun w => Returned name
    (if existsb (String.eqb name) (auth_groups w) then w
     else mkWorld (users w) (activity w) (auth_groups w ++ [name]) (flash w) (session w)).

(** [user.groups.add(group)] *)
Definition groups_add (u : User) (g : string) : M User :=
  let u' := if existsb (String.eqb g) (groups u) then u
            else set_groups (groups u ++ [g]) u in
  fun w => Returned u'
    (set_users (map (fun r => if model_eq r u then set_groups (groups u') r else r) (users w)) w).

(** [update_last_login], the receiver of [user_logged_in]:
    [user.save(update_fields=['last_login'])] writes that one column of
    the row under the user's key, and raises when there is no such row. *)
Definition update_last_login (env : Env) (u : User) : M unit :=
  fun w => if existsb (model_eq u) (users w)
           then Returned tt
                  (set_users
                     (map (fun r => if model_eq r u
                                    then set_last_login (Some (now env)) r else r)
                        (users w)) w)
           else Raised DatabaseError w.

(** [login(request, user)]: [last_login] is written and the session
    belongs to the user. *)
Definition login (env : Env) (u : User) : M unit :=
  bind (update_last_login env u)
    (fun _ w => Returned tt
       (mkWorld (users w) (activity w) (auth_groups w) (flash w) (Some (id u)))).

(** The next primary key of the user table. *)
Definition next_id (rows : list User) : Z :=
  (fold_right Z.max 0 (map id rows) + 1)%Z.

End Core.

Declare Scope view_scope.
Delimit Scope view_scope with view.
Notation "x <- c ;; k" := (Core.bind c (fun x => k))
  (at level 61, c at next level, right associativity) : view_scope.
Notation "c ;; k" := (Core.bind c (fun _ => k))
  (at level 61, right associativity) : view_scope.

(* ------------------------------------------------------------------ *)
(** ** What the framework supplies *)

Class Django : Type := {
  (** [settings.LOGIN_URL] *)
  LOGIN_URL : string;
  (** [django.contrib.auth.authenticate] over the user table *)
  authenticate : list Models.User -> string -> string -> option Models.User;
  (** the password hasher *)
  make_password : string -> string;
  (** the validators of an e-mail field on a non-empty value *)
  validate_email : string -> bool;
  (** the password checks of [UserCreationForm] *)
  validate_passwords : list (string * string) -> bool;
  (** [BaseUserManager.normalize_email] *)
  normalize_email : string -> string;
  (** the user [authenticate] returns is a row of the table *)
  authenticate_stored :
    forall rows e p u, authenticate rows e p = Some u -> In u rows
}.

(* ------------------------------------------------------------------ *)
(** ** core/decorators.py *)

Module Decorators.
Import Models Core.
Local Open Scope view_scope.

Definition View : Type := Request -> M Response.

(** [django.contrib.auth.decorators.login_required] *)
Definition login_required `{Django} (view_func : View) : View :=
  fun request =>
    if is_authenticated request then view_func request
    else ret (Redirect (LOGIN_URL ++ "?next=" ++ path request)).

Definition role_in (request : Request) (allowed_roles : list string) : bool :=
  match user request with
  | Some u => existsb (String.eqb (role u)) allowed_roles
  | None => false
  end.

(** [role_required(allowed_roles, redirect_url)] *)
Definition role_required (allowed_roles : list string) (redirect_url : string)
    (view_func : View) : View :=
  fun request =>
    if negb (is_authenticated request) then ret (Redirect redirect_url)
    else if role_in request allowed_roles then view_func request
    else messages_add ERROR "You do not have permission to access this page." ;;
         ret (Redirect "core:dashboard").

(** the default of [redirect_url] *)
Definition default_redirect_url : string := "accounts:login".

End Decorators.

(* ------------------------------------------------------------------ *)
(** ** accounts/forms.py: the forms *)

Module BoundForms.
Import Models Core Forms.

Inductive FieldKind : Type :=
| CharField
| EmailField
| ChoiceField (choices : list string)
| BooleanField
| ImageField.

(** A declared form field. *)
Record Field := mkField {
  name : string;
  kind : FieldKind;
  required : bool;
  max_length : option nat
}.

Definition email_field : Field := mkField "email" EmailField true None.
Definition national_id_field : Field := mkField "national_id" CharField true (Some 20).
Definition phone_number_field : Field := mkField "phone_number" CharField true (Some 15).

(** the fields of [CustomUserCreationForm] *)
Definition creation_fields : list Field :=
  [ email_field;
    mkField "first_name" CharField true (Some 30);
    mkField "last_name" CharField true (Some 30);
    national_id_field;
    phone_number_field;
    mkField "role" (ChoiceField ROLE_CHOICES) true None;
    mkField "department" CharField false (Some 100);
    mkField "password1" CharField true None;
    mkField "password2" CharField true None ].

(** the fields of [CustomAuthenticationForm] *)
Definition authentication_fields : list Field :=
  [ mkField "username" EmailField true None;
    mkField "password" CharField true None;
    mkField "remember_me" BooleanField false None ].

(** the fields of [UserProfileForm] *)
Definition profile_fields : list Field :=
  [ mkField "first_name" CharField true (Some 30);
    mkField "last_name" CharField true (Some 30);
    phone_number_field;
    mkField "profile_picture" ImageField false None ].

Definition get_or (d : list (string * string)) (k default : string) : string :=
  match Py.dict_get d k with Some v => v | None => default end.

(** [to_python]: a [CharField] (and so an [EmailField]) strips the
    whitespace around the submitted text; none of the fields above is
    declared with [strip=False]. *)
Definition to_python (f : Field) (v : string) : string :=
  match kind f with
  | CharField | EmailField => Py.strip v
  | _ => v
  end.

(** the value holds the character of code point 0 *)
Definition has_nul (v : string) : bool :=
  negb (Py.all_chars (fun c => negb (Ascii.eqb c "000")) v).

Definition too_long (f : Field) (v : string) : bool :=
  match max_length f with
  | Some n => (n <? String.length v)%nat
  | None => false
  end.

(** [Field.clean] on the text submitted under the field's name ([""]
    when the name is absent): [to_python], then [required], then the
    validators of the field.  The result is the cleaned value, or [None]
    for a [ValidationError].  An [ImageField] takes its value from the
    uploaded files; the model covers requests that upload none. *)
Definition field_clean `{Django} (f : Field) (submitted : string) : option string :=
  match kind f with
  | ImageField => Some ""
  | _ =>
    let v := to_python f submitted in
    if negb (Py.truthy v) then (if required f then None else Some "")
    else match kind f with
         | CharField =>
             if too_long f v || has_nul v then None else Some v
         | EmailField =>
             if too_long f v || has_nul v || negb (validate_email v) then None
             else Some v
         | ChoiceField choices =>
             if existsb (String.eqb v) choices then Some v else None
         | _ => Some v
         end
  end.

(** Cleaning every field of a form with the form's way of cleaning one
    field: the [cleaned_data] dictionary, or [None] when some field has an
    error. *)
Fixpoint clean_fields (clean : Field -> string -> option string)
    (fields : list Field) (post : list (string * string))
    : option (list (string * string)) :=
  match fields with
  | [] => Some []
  | f :: rest =>
      match clean f (get_or post (name f) ""), clean_fields clean rest post with
      | Some v, Some cd => Some ((name f, v) :: cd)
      | _, _ => None
      end
  end.

(** the [clean_<name>] hooks of [CustomUserCreationForm] *)
Definition creation_hook (rows : list User) (name v : string) : cleaned :=
  if name =? "email" then clean_email rows v
  else if name =? "national_id" then clean_national_id rows v
  else if name =? "phone_number" then clean_phone_number v
  else Clean v.

(** What [_post_clean] checks of a cleaned value once it sits on the model
    instance: the validators of the column ([clean_fields]) and, after
    [AbstractUser.clean] has put the e-mail address in its normal form, the
    unique columns among the form's fields ([validate_unique]).  The e-mail
    validator of the column is the one the form field has applied to the
    same text, and the length limits of the remaining columns (150, 150, 30
    and 100 characters) are no tighter than those of the form. *)
Definition creation_model_check `{Django} (rows : list User) (name v : string) : bool :=
  if name =? "email"
  then (String.length v <=? 254)%nat && negb (email_exists rows (normalize_email v))
  else if name =? "national_id"
  then national_id_validator v && (String.length v <=? 20)%nat
       && negb (national_id_exists rows v)
  else if name =? "phone_number" then phone_number_validator v
  else true.

(** One field of [CustomUserCreationForm]: the field's own cleaning, its
    hook, and the checks of the model. *)
Definition creation_clean `{Django} (rows : list User) (f : Field) (submitted : string)
    : option string :=
  match field_clean f submitted with
  | None => None
  | Some v =>
      match creation_hook rows (name f) v with
      | Clean v' => if creation_model_check rows (name f) v' then Some v' else None
      | ValidationError _ => None
      end
  end.

(** [CustomUserCreationForm(request.POST).is_valid()], with the resulting
    [cleaned_data]: every field is clean and the password checks pass. *)
Definition CustomUserCreationForm_is_valid `{Django} (rows : list User)
    (post : list (string * string)) : option (list (string * string)) :=
  match clean_fields (creation_clean rows) creation_fields post with
  | None => None
  | Some cd => if validate_passwords cd then Some cd else None
  end.

(** The instance [CustomUserCreationForm.save()] hands to [User.save]:
    the cleaned values, the e-mail address in its normal form, the hashed
    password, and the defaults of the columns the form does not set.
    [department] keeps its default ['Health'] only when the request does not
    carry the field at all. *)
Definition new_user `{Django} (env : Env) (rows : list User)
    (post cleaned_data : list (string * string)) : User :=
  mkUser (next_id rows)
    (normalize_email (get_or cleaned_data "email" ""))
    (make_password (get_or cleaned_data "password1" ""))
    (get_or cleaned_data "first_name" "")
    (get_or cleaned_data "last_name" "")
    (get_or cleaned_data "national_id" "")
    (get_or cleaned_data "phone_number" "")
    (get_or cleaned_data "role" "INITIATOR")
    (match Py.dict_get post "department" with
     | Some _ => get_or cleaned_data "department" ""
     | None => "Health"
     end)
    None true (now env) (now env) [] None (uuid4 env).

(** [CustomUserCreationForm.save()] *)
Definition CustomUserCreationForm_save `{Django} (env : Env)
    (post cleaned_data : list (string * string)) : M User :=
  fun w => User_save env (new_user env (users w) post cleaned_data) w.

(** [CustomAuthenticationForm(request, data=request.POST).is_valid()]:
    the fields, then [clean], which authenticates and then applies
    [confirm_login_allowed]. *)
Definition CustomAuthenticationForm_is_valid `{Django} (rows : list User)
    (post : list (string * string)) : option (list (string * string)) :=
  match clean_fields field_clean authentication_fields post with
  | None => None
  | Some cd =>
      let email := Py.dict_get cd "username" in
      let password := Py.dict_get cd "password" in
      if truthy_opt email && truthy_opt password then
        match authenticate rows (get_or cd "username" "") (get_or cd "password" "") with
        | None => None
        | Some user_cache => if is_active user_cache then Some cd else None
        end
      else Some cd
  end.

(** One field of [UserProfileForm]: the field's own cleaning, the phone
    hook, and the validators of the phone column. *)
Definition profile_clean `{Django} (f : Field) (submitted : string) : option string :=
  match field_clean f submitted with
  | None => None
  | Some v =>
      if name f =? "phone_number" then
        match profile_clean_phone_number v with
        | Clean v' => if phone_number_validator v' then Some v' else None
        | ValidationError _ => None
        end
      else Some v
  end.

(** [UserProfileForm(request.POST, request.FILES, instance=...).is_valid()] *)
Definition UserProfileForm_is_valid `{Django}
    (post : list (string * string)) : option (list (string * string)) :=
  clean_fields profile_clean profile_fields post.

(** The instance [UserProfileForm.save()] hands to [User.save]: the three
    text fields of the form written onto [request.user], whose e-mail
    address [AbstractUser.clean] has put in its normal form. *)
Definition updated_user `{Django} (instance : User)
    (cleaned_data : list (string * string)) : User :=
  set_phone_number (get_or cleaned_data "phone_number" "")
    (set_names (get_or cleaned_data "first_name" "")
       (get_or cleaned_data "last_name" "")
       (set_email (normalize_email (email instance)) instance)).

End BoundForms.

(* ------------------------------------------------------------------ *)
(** ** accounts/views.py *)

Module Views.
Import Models Core Forms BoundForms Decorators.
Local Open Scope view_scope.

(** The names bound at module level in [accounts/views.py]: its imports
    and its own functions. *)
Definition module_globals : list string :=
  [ "render"; "redirect"; "login"; "logout"; "authenticate";
    "login_required"; "messages"; "Group"; "never_cache";
    "CustomUserCreationForm"; "CustomAuthenticationForm"; "UserProfileForm";
    "User"; "UserActivityLog"; "role_required";
    "register_view"; "login_view"; "logout_view"; "profile_view";
    "user_management_view"; "toggle_user_active" ].

(** Evaluating a global name: a name the module does not bind (and that
    is no builtin) raises [NameError]. *)
Definition global_name (namespace : list string) (name : string) : M unit :=
  if existsb (String.eqb name) namespace then ret tt else raise (NameError name).

Definition register_view `{Django} (env : Env) : View :=
  fun request =>
    if is_authenticated request then ret (Redirect "core:dashboard")
    else if method request =? "POST" then
      w <- get_world ;;
      match CustomUserCreationForm_is_valid (users w) (POST request) with
      | Some cleaned_data =>
          user <- CustomUserCreationForm_save env (POST request) cleaned_data ;;
          let group_name := get_role_group user in
          group <- Group_objects_get_or_create group_name ;;
          user <- groups_add user group ;;
          UserActivityLog_objects_create env request (Some user) "USER_REGISTERED"
            [("role", role user)] ;;
          messages_add SUCCESS "Registration successful! Please login." ;;
          ret (Redirect "accounts:login")
      | None => ret (Render "accounts/register.html" (FormContext true))
      end
    else ret (Render "accounts/register.html" (FormContext false)).

(** the branch on [user.role] after a login *)
Definition login_redirect (u : User) : Response :=
  if role u =? "INITIATOR" then Redirect "requisitions:create"
  else if role u =? "CHIEF_OFFICER" then Redirect "requisitions:pending_approvals"
  else if role u =? "COUNTY_SECRETARY" then Redirect "requisitions:pending_endorsements"
  else if role u =? "CPSB_BOARD" then Redirect "requisitions:board_approvals"
  else if role u =? "HR_SECRETARIAT" then Redirect "candidates:shortlist"
  else Redirect "core:dashboard".

Definition login_view `{Django} (env : Env) : View :=
  fun request =>
    if is_authenticated request then ret (Redirect "core:dashboard")
    else if method request =? "POST" then
      w <- get_world ;;
      match CustomAuthenticationForm_is_valid (users w) (POST request) with
      | Some cleaned_data =>
          match authenticate (users w) (get_or cleaned_data "username" "")
                  (get_or cleaned_data "password" "") with
          | Some user =>
              login env user ;;
              UserActivityLog_objects_create env request (Some user) "USER_LOGIN" [] ;;
              messages_add SUCCESS ("Welcome back, " ++ get_full_name user ++ "!") ;;
              ret (login_redirect user)
          | None => ret (Render "accounts/login.html" (FormContext true))
          end
      | None =>
          messages_add ERROR "Invalid email or password." ;;
          ret (Render "accounts/login.html" (FormContext true))
      end
    else ret (Render "accounts/login.html" (FormContext false)).

(** [.order_by('-date_joined')] *)
Fixpoint insert_newest_first (u : User) (l : list User) : list User :=
  match l with
  | [] => [u]
  | v :: t => if (date_joined v <=? date_joined u)%Z then u :: l
              else v :: insert_newest_first u t
  end.

Definition order_by_date_joined_desc (l : list User) : list User :=
  fold_right insert_newest_first [] l.

(** the four [Q(...__icontains=search)] joined by [|] *)
Definition search_matches (search : string) (u : User) : bool :=
  Py.icontains (first_name u) search || Py.icontains (last_name u) search ||
  Py.icontains (email u) search || Py.icontains (national_id u) search.

(** The body of [user_management_view], run in a module whose global
    names are [namespace]. *)
Definition user_management_body (namespace : list string) : View :=
  fun request =>
    w <- get_world ;;
    let listed := order_by_date_joined_desc (users w) in
    let role_filter := Py.dict_get (GET request) "role" in
    let listed := if truthy_opt role_filter
                  then filter (fun u => role u =? match role_filter with
                                                  | Some r => r | None => "" end) listed
                  else listed in
    let search := Py.dict_get (GET request) "search" in
    listed <- (if truthy_opt search
               then global_name namespace "models" ;;
                    ret (filter (search_matches
                                   (match search with Some s => s | None => "" end)) listed)
               else ret listed) ;;
    ret (Render "accounts/user_management.html"
           (UsersContext listed role_filter search)).

(** [user_management_view], as bound in the module: the body under
    [@login_required] and [@role_required(['HR_ADMIN', 'CPSB_SECRETARIAT'])]. *)
Definition user_management_view `{Django} : View :=
  login_required
    (role_required ["HR_ADMIN"; "CPSB_SECRETARIAT"] default_redirect_url
       (user_management_body module_globals)).

(** The body of [toggle_user_active]. *)
Definition toggle_user_active_body (env : Env) (user_id : Z) : View :=
  fun request =>
    (if method request =? "POST" then
       try_except
         (target <- User_objects_get user_id ;;
          if match user request with
             | Some actor => model_eq target actor
             | None => false
             end
          then messages_add ERROR "You cannot deactivate your own account!"
          else
            target <- User_save env (set_is_active (negb (is_active target)) target) ;;
            let act := if is_active target then "activated" else "deactivated" in
            messages_add SUCCESS
              ("User " ++ get_full_name target ++ " " ++ act ++ " successfully!") ;;
            UserActivityLog_objects_create env request (user request)
              ("USER_" ++ Py.upper act) [("target_user", email target)])
         (fun e => match e with
                   | DoesNotExist => Some (messages_add ERROR "User not found.")
                   | _ => None
                   end)
     else ret tt) ;;
    ret (Redirect "accounts:user_management").

(** [profile_view], under [@login_required]. *)
Definition profile_view `{Django} (env : Env) : View :=
  login_required (fun request =>
    if method request =? "POST" then
      match UserProfileForm_is_valid (POST request), user request with
      | Some cleaned_data, Some instance =>
          User_save env (updated_user instance cleaned_data) ;;
          UserActivityLog_objects_create env request (user request) "PROFILE_UPDATED" [] ;;
          messages_add SUCCESS "Profile updated successfully!" ;;
          ret (Redirect "accounts:profile")
      | _, _ => ret (Render "accounts/profile.html" (FormContext true))
      end
    else ret (Render "accounts/profile.html" (FormContext false))).

(** [toggle_user_active], as bound in the module. *)
Definition toggle_user_active `{Django} (env : Env) (user_id : Z) : View :=
  login_required
    (role_required ["HR_ADMIN"; "CPSB_SECRETARIAT"] default_redirect_url
       (toggle_user_active_body env user_id)).

End Views.

Import Models Core Forms BoundForms Decorators Views.

(* ------------------------------------------------------------------ *)
(** ** The rules as the specification words them *)

Module Spec.

Definition decimal_digits : list ascii :=
  [ "0"; "1"; "2"; "3"; "4"; "5"; "6"; "7"; "8"; "9" ]%char.

(** the string with its spaces and hyphens removed *)
Definition strip_separators (s : string) : string :=
  string_of_list_ascii
    (filter (fun c => negb (Ascii.eqb c " " || Ascii.eqb c "-"))
       (list_ascii_of_string s)).

(** how many decimal digits a string holds *)
Definition digit_count (s : string) : nat :=
  List.length (filter (fun c => if in_dec ascii_dec c decimal_digits then true else false)
                 (list_ascii_of_string s)).

(** [s] begins with [p] *)
Definition begins_with (s p : string) : Prop := exists rest, s = p ++ rest.

Definition kenyan_prefixes : list string := [ "+254"; "254"; "07"; "01" ].

(** a string made only of characters that [\d] matches *)
Definition decimal_only (s : string) : Prop :=
  forall c, In c (list_ascii_of_string s) -> Py.isdecimal_char c = true.

(** some user already has the national ID *)
Definition national_id_taken (rows : list User) (nid : string) : Prop :=
  exists u, In u rows /\ national_id u = nid.

(** how many characters of a string [str.isdigit] holds of *)
Definition isdigit_count (s : string) : nat :=
  String.length (Py.filter_chars Py.isdigit_char s).

(** the phone rule: a Kenyan prefix and 9 to 12 digits, once the
    separators are gone *)
Definition phone_rule (phone : string) : Prop :=
  (exists p, In p kenyan_prefixes /\ begins_with (strip_separators phone) p) /\
  9 <= digit_count (strip_separators phone) <= 12.

End Spec.

(* ------------------------------------------------------------------ *)
(** ** Sample data *)

Module Samples.

(** The text with what follows its last [@] in lower case. *)
Fixpoint lower_domain (s : string) : string :=
  match s with
  | EmptyString => EmptyString
  | String c t =>
      if Ascii.eqb c "@" && negb (Py.contains "@" t)
      then String c (Py.lower t)
      else String c (lower_domain t)
  end.

(** A framework instance for the worked examples: credentials are
    compared with the stored hash, inactive accounts do not authenticate,
    an e-mail address is a string that holds an [@], and its normal form
    has the domain in lower case. *)
Definition plain_django : Django := {|
  LOGIN_URL := "/accounts/login/";
  authenticate := fun rows e p =>
    find (fun u => (email u =? e) && (password u =? "hash$" ++ p) && is_active u) rows;
  make_password := fun p => "hash$" ++ p;
  validate_email := fun e => Py.contains "@" e;
  validate_passwords := fun cd => get_or cd "password1" "" =? get_or cd "password2" "";
  normalize_email := lower_domain;
  authenticate_stored := fun rows e p u found => proj1 (find_some _ rows found)
|}.

Definition admin : User :=
  mkUser 1 "ada@savanna.go.ke" "hash$s3cret" "Ada" "Wanjiru" "1234567" "0712345678"
    "HR_ADMIN" "Health" (Some "SAV20251000") true 100 100 ["HR Administrators"]
    None 101.

Definition amani : User :=
  mkUser 2 "amani@savanna.go.ke" "hash$pa55" "Amani" "Otieno" "7654321" "0112345678"
    "INITIATOR" "Health" (Some "SAV20252000") true 200 200 ["Initiators"]
    (Some 900%Z) 102.

Definition joy : User :=
  mkUser 3 "joy@savanna.go.ke" "hash$j0y" "Joy" "Chebet" "23456789" "+254712345678"
    "CHIEF_OFFICER" "Health" (Some "SAV20253000") true 300 300 ["Chief Officers"]
    None 103.

Definition earlier_login : UserActivityLog :=
  mkLog 2 "USER_LOGIN" (Some "10.0.0.7") "Mozilla/5.0" 900 [].

Definition world0 : World :=
  mkWorld [admin; amani; joy] [earlier_login]
    ["HR Administrators"; "Initiators"; "Chief Officers"] [] None.

Definition env0 : Env := mkEnv 1000 2026 4321 9001.

Definition request_of (p m : string) (who : option User)
    (query form : list (string * string)) : Request :=
  mkRequest m p who query form (Some "10.0.0.7") (Some "Mozilla/5.0").

(** a request to [/accounts/users/3/toggle/] *)
Definition toggle_request (m : string) (who : option User) : Request :=
  mkRequest m "/accounts/users/3/toggle/" who [] [] (Some "10.0.0.7") (Some "Mozilla/5.0").

Definition login_form : list (string * string) :=
  [("username", "amani@savanna.go.ke"); ("password", "pa55")].

End Samples.

(* ------------------------------------------------------------------ *)
(** ** accounts/views.py: logging out *)

Module Logout.
Local Open Scope view_scope.

(** [logout(request)]: the session is flushed. *)
Definition logout : M unit :=
  fun w => Returned tt
    (mkWorld (users w) (activity w) (auth_groups w) (flash w) None).

(** [logout_view], under [@login_required]. *)
Definition logout_view `{Django} (env : Env) : View :=
  login_required (fun request =>
    UserActivityLog_objects_create env request (user request) "USER_LOGOUT" [] ;;
    logout ;;
    messages_add SUCCESS "You have been successfully logged out." ;;
    ret (Redirect "accounts:login")).

End Logout.

(* ------------------------------------------------------------------ *)
(** ** core/decorators.py: the group guard *)

Module GroupGuard.
Local Open Scope view_scope.

(** [request.user.groups]: the memberships stored under the user's key. *)
Definition stored_groups (w : World) (u : User) : list string :=
  match find (fun r => (id r =? id u)%Z) (users w) with
  | Some r => groups r
  | None => []
  end.

(** [request.user.groups.filter(name__in=group_names).exists()] *)
Definition in_some_group (w : World) (request : Request) (group_names : list string)
    : bool :=
  match user request with
  | Some u => existsb (fun g => existsb (String.eqb g) group_names) (stored_groups w u)
  | None => false
  end.

(** [group_required(group_names)] *)
Definition group_required (group_names : list string) (view_func : View) : View :=
  fun request =>
    if negb (is_authenticated request) then ret (Redirect "accounts:login")
    else
      w <- get_world ;;
      if in_some_group w request group_names then view_func request
      else messages_add ERROR "You do not have permission to access this page." ;;
           ret (Redirect "core:dashboard").

(** the group [role_to_group] gives for a role value *)
Definition group_of_role (r : string) : string :=
  match Py.dict_get role_to_group r with
  | Some g => g
  | None => "Applicants"
  end.

End GroupGuard.

(* ------------------------------------------------------------------ *)
(** ** core/views.py: the activity log page *)

Module CoreViews.
Local Open Scope view_scope.

(** What a page of [core] is rendered from. *)
Inductive Page : Type :=
| RedirectTo (to : string)
| RenderActivities (template : string) (activities : list UserActivityLog).

(** [.order_by('-timestamp')] *)
Fixpoint insert_latest_first (e : UserActivityLog) (l : list UserActivityLog)
    : list UserActivityLog :=
  match l with
  | [] => [e]
  | x :: t => if (timestamp x <=? timestamp e)%Z then e :: l
              else x :: insert_latest_first e t
  end.

Definition order_by_timestamp_desc (l : list UserActivityLog) : list UserActivityLog :=
  fold_right insert_latest_first [] l.

(** [UserActivityLog.objects.filter(user=u).order_by('-timestamp')[:50]] *)
Definition recent_activities (log : list UserActivityLog) (u : User)
    : list UserActivityLog :=
  firstn 50 (order_by_timestamp_desc (filter (fun e => (log_user e =? id u)%Z) log)).

(** [activity_log_view], under [@login_required]. *)
Definition activity_log_view `{Django} (request : Request) : M Page :=
  match user request with
  | None => ret (RedirectTo (LOGIN_URL ++ "?next=" ++ path request))
  | Some u =>
      w <- get_world ;;
      ret (RenderActivities "core/activity_log.html" (recent_activities (activity w) u))
  end.

End CoreViews.

Import Logout GroupGuard CoreViews.

(* ------------------------------------------------------------------ *)
(** ** Invariants of the user table and further sample data *)

Module Invariants.

(** The keys the table declares unique: the primary key, [email] and
    [national_id]. *)
Definition unique_keys (rows : list User) : Prop :=
  NoDup (map id rows) /\ NoDup (map email rows) /\ NoDup (map national_id rows).

(** The columns that neither the toggle nor a profile update may touch. *)
Definition identity_columns (u : User)
    : Z * string * string * string * string * string * Z * list string :=
  (id u, email u, password u, national_id u, role u, department u,
   date_joined u, groups u).

(** The identity columns other than the e-mail address. *)
Definition authority_columns (u : User)
    : Z * string * string * string * string * Z * list string :=
  (id u, password u, national_id u, role u, department u, date_joined u, groups u).

(** The unique constraints of the table: two rows with different keys
    differ in [email], [national_id] and [uuid], and in [employee_id]
    when it is set. *)
Definition unique_columns (rows : list User) : Prop :=
  forall r t, In r rows -> In t rows -> id r <> id t ->
    email r <> email t /\ national_id r <> national_id t /\ uuid r <> uuid t /\
    (forall e, employee_id r = Some e -> employee_id t <> Some e).

(** The new row of a registration clashes with a stored row: some user
    holds the employee number or the UUID drawn for it. *)
Definition registration_clash (env : Env) (rows : list User) : Prop :=
  exists r, In r rows /\
            (employee_id r = Some (employee_number env) \/ uuid r = uuid4 env).

(** The columns that decide who a user is and what the user may do. *)
Definition access_columns (u : User)
    : Z * string * string * string * bool * list string :=
  (id u, email u, national_id u, role u, is_active u, groups u).

(** The columns the toggle leaves alone besides. *)
Definition contact_columns (u : User) : string * string * string :=
  (first_name u, last_name u, phone_number u).

End Invariants.

Module MoreSamples.

(** A framework whose credential check does not look at [is_active]. *)
Definition lenient_django : Django := {|
  LOGIN_URL := "/accounts/login/";
  authenticate := fun rows e p =>
    find (fun u => (email u =? e) && (password u =? "hash$" ++ p)) rows;
  make_password := fun p => "hash$" ++ p;
  validate_email := fun e => Py.contains "@" e;
  validate_passwords := fun cd => get_or cd "password1" "" =? get_or cd "password2" "";
  normalize_email := Samples.lower_domain;
  authenticate_stored := fun rows e p u found => proj1 (find_some _ rows found)
|}.

Definition kip : User :=
  mkUser 4 "kip@savanna.go.ke" "hash$k1p" "Kip" "Langat" "4567890" "0722000000"
    "PANELIST" "Health" None false 400 400 ["Panelists"] None 104.

Definition world1 : World :=
  mkWorld [Samples.admin; Samples.amani; Samples.joy; kip]
    [mkLog 2 "USER_LOGIN" None "" 900 []; mkLog 1 "USER_LOGIN" None "" 950 [];
     mkLog 2 "PROFILE_UPDATED" None "" 980 []]
    ["HR Administrators"; "Initiators"; "Chief Officers"; "Panelists"] [] (Some 2%Z).

Definition registration_form : list (string * string) :=
  [("email", "zawadi@savanna.go.ke"); ("first_name", "Zawadi");
   ("last_name", "Mwangi"); ("national_id", "34567890");
   ("phone_number", "0722 000-111"); ("role", "PANELIST");
   ("password1", "t0pS3cret"); ("password2", "t0pS3cret")].

(** A user who holds the employee number that a save under
    [Samples.env0] draws. *)
Definition zuri : User :=
  mkUser 5 "zuri@savanna.go.ke" "hash$zur1" "Zuri" "Achieng" "5678901" "0733000000"
    "PAYROLL_OFFICER" "Finance" (Some "SAV20264321") true 500 500 ["Payroll Officers"]
    None 105.

Definition world2 : World :=
  mkWorld [Samples.admin; Samples.amani; Samples.joy; kip; zuri] []
    ["HR Administrators"; "Initiators"; "Chief Officers"; "Panelists";
     "Payroll Officers"] [] None.

(** A user whose stored e-mail address is not in normal form. *)
Definition shouting : User :=
  mkUser 2 "amani@SAVANNA.GO.KE" "hash$pa55" "Amani" "Otieno" "7654321" "0112345678"
    "INITIATOR" "Health" (Some "SAV20252000") true 200 200 ["Initiators"]
    (Some 900%Z) 102.

Definition world3 : World :=
  mkWorld [Samples.admin; shouting; Samples.joy] []
    ["HR Administrators"; "Initiators"; "Chief Officers"] [] None.

(** A store whose log holds an entry stamped later than the clock of
    [Samples.env0] reads. *)
Definition later_login : UserActivityLog :=
  mkLog 2 "USER_LOGIN" (Some "10.0.0.7") "Mozilla/5.0" 5000 [].

Definition world_ahead : World :=
  mkWorld [Samples.admin; Samples.amani; Samples.joy] [later_login]
    ["HR Administrators"; "Initiators"; "Chief Officers"] [] None.


Definition profile_form : list (string * string) :=
  [("first_name", "Amani"); ("last_name", "Odhiambo");
   ("phone_number", "0733-123 456"); ("role", "HR_ADMIN");
   ("email", "root@savanna.go.ke")].

End MoreSamples.

(* ------------------------------------------------------------------ *)
(** ** Empty and non-empty strings *)

Lemma eqb_empty_false (s : string) : s <> "" -> (s =? "") = false.
Proof. intro H. apply String.eqb_neq. exact H. Qed.

Lemma truthy_nonempty (s : string) : s <> "" -> Py.truthy s = true.
Proof. intro H. unfold Py.truthy. now rewrite eqb_empty_false. Qed.

(* ------------------------------------------------------------------ *)
(** ** The user table *)

Lemma ids_below_next (rows : list User) (r : User) :
  In r rows -> (id r < next_id rows)%Z.
Proof.
  unfold next_id. induction rows as [| a rows IH]; simpl; [intros [] |].
  intros [-> | H]; [lia | specialize (IH H); lia].
Qed.

Lemma no_row_with_next_id (rows : list User) (u : User) :
  id u = next_id rows -> existsb (model_eq u) rows = false.
Proof.
  intro Hu. destruct (existsb (model_eq u) rows) eqn:E; [| reflexivity].
  apply existsb_exists in E. destruct E as [r [Hr He]].
  unfold model_eq in He. apply Z.eqb_eq in He.
  pose proof (ids_below_next rows r Hr). lia.
Qed.

Lemma update_absent_row (rows : list User) (u : User) (f : User -> User) :
  existsb (model_eq u) rows = false ->
  map (fun r => if model_eq r u then f r else r) rows = rows.
Proof.
  induction rows as [| a rows IH]; simpl; [reflexivity |].
  rewrite orb_false_iff. intros [Ha Hr].
  unfold model_eq in *. rewrite Z.eqb_sym, Ha. now rewrite IH.
Qed.

Lemma get_role_group_default (u : User) :
  ~ In (role u) ROLE_CHOICES -> get_role_group u = "Applicants".
Proof.
  intro H. unfold get_role_group, role_to_group. cbn [Py.dict_get].
  repeat match goal with
         | |- context [(?k =? role u)] =>
             destruct (String.eqb_spec k (role u)) as [E | _];
             [exfalso; apply H; rewrite <- E; simpl; tauto |]
         end.
  reflexivity.
Qed.

Lemma find_by_id (rows : list User) (k : Z) (t : User) :
  find (fun u => (id u =? k)%Z) rows = Some t -> In t rows /\ id t = k.
Proof.
  intro H. apply find_some in H. destruct H as [Hin Hid].
  now apply Z.eqb_eq in Hid.
Qed.

Lemma find_after_update (rows : list User) (k : Z) (t saved : User) :
  find (fun u => (id u =? k)%Z) rows = Some t ->
  id saved = k ->
  find (fun u => (id u =? k)%Z)
       (map (fun r => if (id r =? k)%Z then saved else r) rows) = Some saved.
Proof.
  intros Hfind Hid. induction rows as [| a rows IH]; simpl in *; [discriminate |].
  destruct (id a =? k)%Z eqn:E.
  - now rewrite Hid, Z.eqb_refl.
  - rewrite E. now apply IH.
Qed.



Lemma NoDup_snoc {A : Type} (l : list A) (x : A) :
  NoDup l -> ~ In x l -> NoDup (l ++ [x]).
Proof.
  induction 1 as [| a l Ha Hl IH]; simpl; intro Hx.
  - constructor; [intros [] | constructor].
  - constructor.
    + intro Hin. apply in_app_or in Hin. destruct Hin as [Hin | [-> | []]]; tauto.
    + apply IH. tauto.
Qed.

Lemma same_key_same_row (rows : list User) (x y : User) :
  NoDup (map id rows) -> In x rows -> In y rows -> id x = id y -> x = y.
Proof.
  induction rows as [| a rows IH]; simpl; [intros _ [] |].
  intros Hnd Hx Hy E. inversion Hnd as [| ? ? Ha Hrest]; subst.
  destruct Hx as [<- | Hx], Hy as [<- | Hy]; auto.
  - exfalso. apply Ha. rewrite E. now apply in_map.
  - exfalso. apply Ha. rewrite <- E. now apply in_map.
Qed.

Lemma find_appended (rows : list User) (new : User) :
  (forall r, In r rows -> id r <> id new) ->
  find (fun r => (id r =? id new)%Z) (rows ++ [new]) = Some new.
Proof.
  intro Hfresh. induction rows as [| a rows IH]; simpl.
  - now rewrite Z.eqb_refl.
  - destruct (id a =? id new)%Z eqn:E.
    + apply Z.eqb_eq in E. exfalso. apply (Hfresh a); [now left | exact E].
    + apply IH. intros r Hr. apply Hfresh. now right.
Qed.

(* ------------------------------------------------------------------ *)
(** ** The role guard *)

Lemma role_in_iff (request : Request) (u : User) (allowed : list string) :
  user request = Some u ->
  (role_in request allowed = true <-> In (role u) allowed).
Proof.
  intro Hu. unfold role_in. rewrite Hu. rewrite existsb_exists. split.
  - intros [x [Hx E]]. apply String.eqb_eq in E. now subst x.
  - intro H. exists (role u). split; [exact H | apply String.eqb_refl].
Qed.

Lemma role_required_denies (allowed : list string) (url : string) (view : View)
    (request : Request) (w : World) (u : User) :
  user request = Some u ->
  ~ In (role u) allowed ->
  role_required allowed url view request w =
    Returned (Redirect "core:dashboard")
      (mkWorld (users w) (activity w) (auth_groups w)
         (flash w ++ [(ERROR, "You do not have permission to access this page.")])
         (session w)).
Proof.
  intros Hu Hout. unfold role_required, is_authenticated. rewrite Hu. cbn [negb].
  destruct (role_in request allowed) eqn:E.
  - apply (role_in_iff request u allowed Hu) in E. contradiction.
  - reflexivity.
Qed.

Lemma role_required_admits (allowed : list string) (url : string) (view : View)
    (request : Request) (w : World) (u : User) :
  user request = Some u ->
  In (role u) allowed ->
  role_required allowed url view request w = view request w.
Proof.
  intros Hu Hin. unfold role_required, is_authenticated. rewrite Hu. cbn [negb].
  apply (role_in_iff request u allowed Hu) in Hin. now rewrite Hin.
Qed.

Lemma login_required_admits `{Django} (view : View) (request : Request) (w : World)
    (u : User) :
  user request = Some u -> login_required view request w = view request w.
Proof.
  intro Hu. unfold login_required, is_authenticated. now rewrite Hu.
Qed.

Lemma login_required_denies `{Django} (view : View) (request : Request) (w : World) :
  user request = None ->
  login_required view request w =
    Returned (Redirect (LOGIN_URL ++ "?next=" ++ path request)) w.
Proof.
  intro Hu. unfold login_required, is_authenticated. now rewrite Hu.
Qed.

(** C4. The role guard denies in exactly two ways.  An unauthenticated
    request is redirected to the login page and nothing else happens; an
    authenticated user whose role is outside the allowed set is redirected to
    the dashboard with the insufficient-permission notice queued; a user whose
    role is allowed reaches the guarded view.  The two destinations differ.
    In particular an INITIATOR asking for the user-management listing is
    denied and redirected to the dashboard, whatever the query parameters
    (and the rest) of the request are. *)
Theorem role_guard_denials :
  (forall (allowed : list string) (view : View) (request : Request) (w : World),
      (user request = None ->
       role_required allowed default_redirect_url view request w =
         Returned (Redirect "accounts:login") w) /\
      (forall u, user request = Some u -> ~ In (role u) allowed ->
       role_required allowed default_redirect_url view request w =
         Returned (Redirect "core:dashboard")
           (mkWorld (users w) (activity w) (auth_groups w)
              (flash w ++ [(ERROR, "You do not have permission to access this page.")])
              (session w))) /\
      (forall u, user request = Some u -> In (role u) allowed ->
       role_required allowed default_redirect_url view request w = view request w)) /\
  Redirect "accounts:login" <> Redirect "core:dashboard" /\
  (forall (dj : Django) (request : Request) (w : World) (u : User),
      user request = Some u ->
      role u = "INITIATOR" ->
      user_management_view request w =
        Returned (Redirect "core:dashboard")
          (mkWorld (users w) (activity w) (auth_groups w)
             (flash w ++ [(ERROR, "You do not have permission to access this page.")])
             (session w))).
Proof.
  split; [| split].
  - intros allowed view request w. split; [| split].
    + intro Hu. unfold role_required, is_authenticated. now rewrite Hu.
    + intros u. apply role_required_denies.
    + intros u. apply role_required_admits.
  - discriminate.
  - intros dj request w u Hu Hrole. unfold user_management_view.
    rewrite (login_required_admits _ request w u Hu).
    apply (role_required_denies _ _ _ request w u Hu).
    rewrite Hrole. simpl. intros [H | [H | []]]; discriminate H.
Qed.

Lemma role_guard_denials_witness :
  role_required ["HR_ADMIN"; "CPSB_SECRETARIAT"] default_redirect_url
    (user_management_body module_globals)
    (Samples.request_of "/accounts/users/" "GET" None [] []) Samples.world0 =
    Returned (Redirect "accounts:login") Samples.world0 /\
  response_of
    (@user_management_view Samples.plain_django
       (Samples.request_of "/accounts/users/" "GET" (Some Samples.amani)
          [("role", "HR_ADMIN"); ("search", "ada")] [])
       Samples.world0) = Some (Redirect "core:dashboard") /\
  response_of
    (role_required ["HR_ADMIN"; "CPSB_SECRETARIAT"] default_redirect_url
       (user_management_body module_globals)
       (Samples.request_of "/accounts/users/" "GET" (Some Samples.admin) [] []) Samples.world0) =
    Some (Render "accounts/user_management.html"
            (UsersContext [Samples.joy; Samples.amani; Samples.admin] None None)).
Proof.
  destruct role_guard_denials as [Hguard [_ Hlisting]].
  split; [| split].
  - apply (Hguard ["HR_ADMIN"; "CPSB_SECRETARIAT"] (user_management_body module_globals)
             (Samples.request_of "/accounts/users/" "GET" None [] []) Samples.world0).
    reflexivity.
  - rewrite (Hlisting Samples.plain_django
               (Samples.request_of "/accounts/users/" "GET" (Some Samples.amani)
                  [("role", "HR_ADMIN"); ("search", "ada")] [])
               Samples.world0 Samples.amani eq_refl eq_refl).
    reflexivity.
  - destruct (Hguard ["HR_ADMIN"; "CPSB_SECRETARIAT"]
                (user_management_body module_globals)
                (Samples.request_of "/accounts/users/" "GET" (Some Samples.admin) [] []) Samples.world0)
      as [_ [_ Hadmit]].
    rewrite (Hadmit Samples.admin eq_refl); [reflexivity | simpl; tauto].
Defined.

(* ------------------------------------------------------------------ *)
(** ** The user listing *)

Lemma models_is_not_a_global : existsb (String.eqb "models") module_globals = false.
Proof. reflexivity. Qed.

Lemma insert_newest_first_In (u x : User) (l : list User) :
  In x (insert_newest_first u l) <-> x = u \/ In x l.
Proof.
  induction l as [| v t IH]; simpl.
  - intuition.
  - destruct (date_joined v <=? date_joined u)%Z; simpl; [intuition |].
    rewrite IH. intuition.
Qed.

Lemma order_by_date_joined_desc_In (x : User) (l : list User) :
  In x (order_by_date_joined_desc l) <-> In x l.
Proof.
  unfold order_by_date_joined_desc.
  induction l as [| a l IH]; simpl; [tauto |].
  rewrite insert_newest_first_In, IH. intuition.
Qed.

Lemma insert_newest_first_sorted (u : User) (l : list User) :
  StronglySorted (fun a b => (date_joined b <= date_joined a)%Z) l ->
  StronglySorted (fun a b => (date_joined b <= date_joined a)%Z)
    (insert_newest_first u l).
Proof.
  induction 1 as [| v t Hsorted IH Hall]; simpl.
  - constructor; [constructor | constructor].
  - destruct (date_joined v <=? date_joined u)%Z eqn:E.
    + apply Z.leb_le in E. constructor; [now constructor |].
      constructor; [exact E |].
      rewrite Forall_forall in *. intros b Hb. specialize (Hall b Hb). lia.
    + apply Z.leb_gt in E. constructor; [exact IH |].
      rewrite Forall_forall in *. intros b Hb.
      apply insert_newest_first_In in Hb. destruct Hb as [-> | Hb]; [lia | auto].
Qed.

Lemma order_by_date_joined_desc_sorted (l : list User) :
  StronglySorted (fun a b => (date_joined b <= date_joined a)%Z)
    (order_by_date_joined_desc l).
Proof.
  unfold order_by_date_joined_desc.
  induction l as [| a l IH]; simpl; [constructor |].
  now apply insert_newest_first_sorted.
Qed.

Lemma filter_keeps_sorted (R : User -> User -> Prop) (p : User -> bool) (l : list User) :
  StronglySorted R l -> StronglySorted R (filter p l).
Proof.
  induction 1 as [| v t Hsorted IH Hall]; simpl; [constructor |].
  destruct (p v); [| exact IH].
  constructor; [exact IH |].
  rewrite Forall_forall in *. intros b Hb. apply filter_In in Hb. now apply Hall.
Qed.

(** What the search was written to do: in a module where [models] is
    bound, the listing for a query [s] is ordered newest-joined first and
    holds exactly the stored users (of the requested role, when one is
    given) that match [s] in one of the four fields. *)
Lemma user_search_when_models_is_bound (namespace : list string) (request : Request)
    (w : World) (s : string) :
  existsb (String.eqb "models") namespace = true ->
  Py.dict_get (GET request) "search" = Some s ->
  s <> "" ->
  exists listed,
    user_management_body namespace request w =
      Returned (Render "accounts/user_management.html"
                  (UsersContext listed (Py.dict_get (GET request) "role") (Some s))) w /\
    StronglySorted (fun a b => (date_joined b <= date_joined a)%Z) listed /\
    forall u, In u listed <->
              In u (users w) /\
              (forall r, Py.dict_get (GET request) "role" = Some r -> r <> "" ->
                         role u = r) /\
              (Py.icontains (first_name u) s = true \/
               Py.icontains (last_name u) s = true \/
               Py.icontains (email u) s = true \/
               Py.icontains (national_id u) s = true).
Proof.
  intros Hns Hsearch Hne.
  unfold user_management_body, bind, get_world, global_name.
  rewrite Hsearch. cbn [truthy_opt]. rewrite (truthy_nonempty s Hne), Hns.
  cbn [ret]. eexists. split; [reflexivity |]. split.
  - apply filter_keeps_sorted.
    destruct (Py.dict_get (GET request) "role") as [r |]; cbn [truthy_opt].
    + destruct (Py.truthy r);
        [apply filter_keeps_sorted |]; apply order_by_date_joined_desc_sorted.
    + apply order_by_date_joined_desc_sorted.
  - intro u. rewrite filter_In. unfold search_matches. rewrite !orb_true_iff.
    destruct (Py.dict_get (GET request) "role") as [r |]; cbn [truthy_opt].
    + destruct (Py.truthy r) eqn:T.
      * rewrite filter_In, order_by_date_joined_desc_In, String.eqb_eq.
        split.
        -- intros [[Hin Hr] Hm]. split; [exact Hin | split; [| tauto]].
           intros r' E _. now inversion E; subst.
        -- intros [Hin [Hr Hm]]. split; [split; [exact Hin |] | tauto].
           apply Hr; [reflexivity |]. intros ->. discriminate T.
      * rewrite order_by_date_joined_desc_In.
        split.
        -- intros [Hin Hm]. split; [exact Hin | split; [| tauto]].
           intros r' E Hr'. inversion E; subst.
           unfold Py.truthy in T. apply negb_false_iff, String.eqb_eq in T. contradiction.
        -- tauto.
    + rewrite order_by_date_joined_desc_In.
      split; [intros [Hin Hm]; split; [exact Hin | split; [discriminate | tauto]] | tauto].
Qed.

(** C1 does not hold of the code.  For a caller the guards admit (role
    HR_ADMIN or CPSB_SECRETARIAT), every request that carries a non-empty
    [search] parameter ends in an uncaught [NameError]: the view builds its
    filter from [models.Q], and [models] is not a name of the module.  No
    listing is returned. *)
Theorem user_search_raises_name_error :
  forall (dj : Django) (request : Request) (w : World) (u : User) (s : string),
    user request = Some u ->
    In (role u) ["HR_ADMIN"; "CPSB_SECRETARIAT"] ->
    Py.dict_get (GET request) "search" = Some s ->
    s <> "" ->
    user_management_view request w = Raised (NameError "models") w.
Proof.
  intros dj request w u s Hu Hrole Hsearch Hne.
  unfold user_management_view.
  rewrite (login_required_admits _ request w u Hu).
  rewrite (role_required_admits _ _ _ request w u Hu Hrole).
  unfold user_management_body, bind, get_world, global_name.
  rewrite Hsearch. cbn [truthy_opt]. rewrite (truthy_nonempty s Hne).
  rewrite models_is_not_a_global. reflexivity.
Qed.

Lemma user_search_raises_name_error_witness :
  @user_management_view Samples.plain_django
    (Samples.request_of "/accounts/users/" "GET" (Some Samples.admin) [("search", "amani")] [])
    Samples.world0 = Raised (NameError "models") Samples.world0.
Proof.
  apply (user_search_raises_name_error Samples.plain_django
           (Samples.request_of "/accounts/users/" "GET" (Some Samples.admin) [("search", "amani")] [])
           Samples.world0 Samples.admin "amani").
  - reflexivity.
  - simpl. tauto.
  - reflexivity.
  - discriminate.
Defined.

(* ------------------------------------------------------------------ *)
(** ** The group guard *)

Lemma in_some_group_iff (w : World) (request : Request) (u : User)
    (group_names : list string) :
  user request = Some u ->
  (in_some_group w request group_names = true <->
   exists g, In g (stored_groups w u) /\ In g group_names).
Proof.
  intro Hu. unfold in_some_group. rewrite Hu, existsb_exists. split.
  - intros [g [Hg E]]. apply existsb_exists in E. destruct E as [x [Hx E]].
    apply String.eqb_eq in E. subst x. now exists g.
  - intros [g [Hg Hn]]. exists g. split; [exact Hg |].
    apply existsb_exists. exists g. split; [exact Hn | apply String.eqb_refl].
Qed.

Lemma group_required_admits (group_names : list string) (view : View)
    (request : Request) (w : World) (u : User) :
  user request = Some u ->
  (exists g, In g (stored_groups w u) /\ In g group_names) ->
  group_required group_names view request w = view request w.
Proof.
  intros Hu Hin. apply (in_some_group_iff w request u group_names Hu) in Hin.
  unfold group_required, is_authenticated. rewrite Hu. cbn [negb].
  unfold bind, get_world. now rewrite Hin.
Qed.

Lemma group_required_denies (group_names : list string) (view : View)
    (request : Request) (w : World) (u : User) :
  user request = Some u ->
  (forall g, In g (stored_groups w u) -> ~ In g group_names) ->
  group_required group_names view request w =
    Returned (Redirect "core:dashboard")
      (mkWorld (users w) (activity w) (auth_groups w)
         (flash w ++ [(ERROR, "You do not have permission to access this page.")])
         (session w)).
Proof.
  intros Hu Hout.
  unfold group_required, is_authenticated. rewrite Hu. cbn [negb].
  unfold bind, get_world.
  destruct (in_some_group w request group_names) eqn:E; [| reflexivity].
  apply (in_some_group_iff w request u group_names Hu) in E.
  destruct E as [g [Hg Hn]]. now destruct (Hout g Hg).
Qed.

(** X16. The group guard.  Without a session the request is redirected
    to the login page and nothing changes.  A logged-in user reaches the
    guarded view exactly when one of the groups stored for the user's key is
    among the required names; otherwise the user is redirected to the
    dashboard with the permission message queued.  Membership is read from
    the store: a user with no stored row, or a guard with no group names,
    is always denied. *)
Theorem group_guard_outcomes :
  forall (group_names : list string) (view : View) (request : Request) (w : World),
    (user request = None ->
     group_required group_names view request w =
       Returned (Redirect "accounts:login") w) /\
    (forall u,
        user request = Some u ->
        (exists g, In g (stored_groups w u) /\ In g group_names) ->
        group_required group_names view request w = view request w) /\
    (forall u,
        user request = Some u ->
        (forall g, In g (stored_groups w u) -> ~ In g group_names) ->
        group_required group_names view request w =
          Returned (Redirect "core:dashboard")
            (mkWorld (users w) (activity w) (auth_groups w)
               (flash w ++ [(ERROR, "You do not have permission to access this page.")])
               (session w))) /\
    (forall u,
        user request = Some u ->
        (forall r, In r (users w) -> id r <> id u) \/ group_names = [] ->
        response_of (group_required group_names view request w) =
          Some (Redirect "core:dashboard")).
Proof.
  intros names view request w. split; [| split; [| split]].
  - intro Hu. unfold group_required, is_authenticated. now rewrite Hu.
  - intros u. apply group_required_admits.
  - intros u. apply group_required_denies.
  - intros u Hu Hnone.
    rewrite (group_required_denies names view request w u Hu); [reflexivity |].
    intros g Hg Hn. destruct Hnone as [Habsent | ->]; [| exact Hn].
    unfold stored_groups in Hg.
    destruct (find (fun r => (id r =? id u)%Z) (users w)) as [r |] eqn:F; [| exact Hg].
    destruct (find_by_id _ _ _ F) as [Hin Hid]. now destruct (Habsent r Hin).
Qed.

Lemma group_guard_outcomes_witness :
  response_of
    (group_required ["Chief Officers"; "CPSB Board"] (user_management_body [])
       (Samples.request_of "/accounts/users/" "GET" (Some Samples.joy) [] [])
       Samples.world0) =
    Some (Render "accounts/user_management.html"
            (UsersContext [Samples.joy; Samples.amani; Samples.admin] None None)) /\
  response_of
    (group_required ["Chief Officers"; "CPSB Board"] (user_management_body [])
       (Samples.request_of "/accounts/users/" "GET" (Some Samples.amani) [] [])
       Samples.world0) = Some (Redirect "core:dashboard").
Proof.
  destruct (group_guard_outcomes ["Chief Officers"; "CPSB Board"]
              (user_management_body [])
              (Samples.request_of "/accounts/users/" "GET" (Some Samples.joy) [] [])
              Samples.world0) as [_ [Hadmit _]].
  destruct (group_guard_outcomes ["Chief Officers"; "CPSB Board"]
              (user_management_body [])
              (Samples.request_of "/accounts/users/" "GET" (Some Samples.amani) [] [])
              Samples.world0) as [_ [_ [Hdeny _]]].
  split.
  - rewrite (Hadmit Samples.joy eq_refl); [reflexivity |].
    exists "Chief Officers". split; simpl; tauto.
  - rewrite (Hdeny Samples.amani eq_refl); [reflexivity |].
    intros g [<- | []] [H | [H | []]]; discriminate H.
Defined.

Lemma group_of_role_injective (a x : string) :
  In a ROLE_CHOICES -> group_of_role a = group_of_role x -> a = x.
Proof.
  intros Ha. unfold group_of_role at 2. unfold role_to_group. cbn [Py.dict_get].
  repeat match goal with
         | |- context [(?k =? x)] => destruct (String.eqb_spec k x) as [<- | _]
         end;
    simpl in Ha;
    repeat (destruct Ha as [<- | Ha]; [vm_compute; intro E; try reflexivity;
                                       discriminate E |]);
    try contradiction.
Qed.

(** X17. For users whose only group is the group of their role, as
    registration leaves them, the two guards agree: when every allowed role
    is one of the nine role values, guarding a view by the groups of the
    allowed roles gives, for every such user, the same outcome as guarding
    it by the roles themselves. *)
Theorem guards_agree :
  forall (allowed : list string) (view : View) (request : Request) (w : World)
         (u row : User),
    user request = Some u ->
    find (fun r => (id r =? id u)%Z) (users w) = Some row ->
    role row = role u ->
    groups row = [group_of_role (role row)] ->
    (forall a, In a allowed -> In a ROLE_CHOICES) ->
    group_required (map group_of_role allowed) view request w =
      role_required allowed default_redirect_url view request w.
Proof.
  intros allowed view request w u row Hu Hfind Hrole Hgroups Hnine.
  assert (Hstored : stored_groups w u = [group_of_role (role u)]).
  { unfold stored_groups. now rewrite Hfind, Hgroups, Hrole. }
  destruct (in_dec string_dec (role u) allowed) as [Hin | Hout].
  - rewrite (role_required_admits _ _ _ request w u Hu Hin).
    apply (group_required_admits _ _ request w u Hu).
    exists (group_of_role (role u)). rewrite Hstored.
    split; [now left | now apply in_map].
  - rewrite (role_required_denies _ _ _ request w u Hu Hout).
    apply (group_required_denies _ _ request w u Hu).
    rewrite Hstored. intros g [<- | []] Hg.
    apply in_map_iff in Hg. destruct Hg as [a [Ha Hina]].
    apply Hout. rewrite <- (group_of_role_injective a (role u) (Hnine a Hina) Ha).
    exact Hina.
Qed.

Lemma guards_agree_witness :
  group_required (map group_of_role ["HR_ADMIN"; "CPSB_SECRETARIAT"])
    (user_management_body [])
    (Samples.request_of "/accounts/users/" "GET" (Some Samples.amani) [] [])
    Samples.world0 =
  role_required ["HR_ADMIN"; "CPSB_SECRETARIAT"] default_redirect_url
    (user_management_body [])
    (Samples.request_of "/accounts/users/" "GET" (Some Samples.amani) [] [])
    Samples.world0.
Proof.
  apply (guards_agree ["HR_ADMIN"; "CPSB_SECRETARIAT"] (user_management_body [])
           (Samples.request_of "/accounts/users/" "GET" (Some Samples.amani) [] [])
           Samples.world0 Samples.amani Samples.amani);
    try reflexivity.
  intros a [<- | [<- | []]]; simpl; tauto.
Defined.

(* ------------------------------------------------------------------ *)
(** ** The activity log page *)

Lemma insert_latest_first_perm (e : UserActivityLog) (l : list UserActivityLog) :
  Permutation (insert_latest_first e l) (e :: l).
Proof.
  induction l as [| x t IH]; simpl; [reflexivity |].
  destruct (timestamp x <=? timestamp e)%Z; [reflexivity |].
  rewrite IH. apply perm_swap.
Qed.

Lemma order_by_timestamp_desc_perm (l : list UserActivityLog) :
  Permutation (order_by_timestamp_desc l) l.
Proof.
  unfold order_by_timestamp_desc.
  induction l as [| a l IH]; simpl; [reflexivity |].
  rewrite insert_latest_first_perm. now constructor.
Qed.

Lemma insert_latest_first_sorted (e : UserActivityLog) (l : list UserActivityLog) :
  StronglySorted (fun a b => (timestamp b <= timestamp a)%Z) l ->
  StronglySorted (fun a b => (timestamp b <= timestamp a)%Z) (insert_latest_first e l).
Proof.
  induction 1 as [| x t Hsorted IH Hall]; simpl.
  - constructor; [constructor | constructor].
  - destruct (timestamp x <=? timestamp e)%Z eqn:E.
    + apply Z.leb_le in E. constructor; [now constructor |].
      constructor; [exact E |].
      rewrite Forall_forall in *. intros b Hb. specialize (Hall b Hb). lia.
    + apply Z.leb_gt in E. constructor; [exact IH |].
      rewrite Forall_forall in *. intros b Hb.
      apply (Permutation_in _ (insert_latest_first_perm e t)) in Hb.
      destruct Hb as [<- | Hb]; [lia | auto].
Qed.

Lemma order_by_timestamp_desc_sorted (l : list UserActivityLog) :
  StronglySorted (fun a b => (timestamp b <= timestamp a)%Z) (order_by_timestamp_desc l).
Proof.
  unfold order_by_timestamp_desc.
  induction l as [| a l IH]; simpl; [constructor |].
  now apply insert_latest_first_sorted.
Qed.

Lemma in_firstn {A : Type} (n : nat) (l : list A) (x : A) :
  In x (firstn n l) -> In x l.
Proof.
  revert l. induction n as [| n IH]; intros [| a l]; simpl; try tauto.
  intros [-> | H]; [now left | right; now apply IH].
Qed.

Lemma sorted_split {A : Type} (R : A -> A -> Prop) (n : nat) (l : list A) :
  StronglySorted R l ->
  StronglySorted R (firstn n l) /\
  forall x y, In x (firstn n l) -> In y (skipn n l) -> R x y.
Proof.
  intro H. revert n. induction H as [| a l Hsorted IH Hall]; intro n.
  - destruct n; simpl; split; try constructor; intros x y [].
  - destruct n; simpl.
    + split; [constructor | intros x y []].
    + destruct (IH n) as [Hfirst Hcross]. split.
      * constructor; [exact Hfirst |].
        rewrite Forall_forall in *. intros b Hb. apply Hall.
        now apply (in_firstn n l).
      * intros x y [<- | Hx] Hy.
        -- rewrite Forall_forall in Hall. apply Hall.
           rewrite <- (firstn_skipn n l). apply in_or_app. now right.
        -- now apply Hcross.
Qed.

(** X19. The activity page of a logged-in user shows the user's own most
    recent entries.  The list it renders has at most 50 entries, all taken
    from the log and all owned by the user; it runs from the latest to the
    earliest; together with the entries it leaves out it is a rearrangement
    of all the user's entries; no entry left out is later than an entry
    shown; and nothing is left out when the user has at most 50 entries.
    The store is not changed. *)
Theorem activity_log_shows_latest_own_entries :
  forall (dj : Django) (request : Request) (w : World) (u : User),
    user request = Some u ->
    exists shown omitted,
      activity_log_view request w =
        Returned (RenderActivities "core/activity_log.html" shown) w /\
      List.length shown <= 50 /\
      (forall e, In e shown -> In e (activity w) /\ log_user e = id u) /\
      StronglySorted (fun a b => (timestamp b <= timestamp a)%Z) shown /\
      Permutation (shown ++ omitted)
        (filter (fun e => (log_user e =? id u)%Z) (activity w)) /\
      (forall x y, In x shown -> In y omitted -> (timestamp y <= timestamp x)%Z) /\
      (List.length (filter (fun e => (log_user e =? id u)%Z) (activity w)) <= 50 ->
       omitted = []).
Proof.
  intros dj request w u Hu.
  set (mine := filter (fun e => (log_user e =? id u)%Z) (activity w)).
  exists (firstn 50 (order_by_timestamp_desc mine)),
         (skipn 50 (order_by_timestamp_desc mine)).
  pose proof (order_by_timestamp_desc_perm mine) as Hperm.
  destruct (sorted_split _ 50 _ (order_by_timestamp_desc_sorted mine)) as [Hsorted Hcross].
  split; [| split; [| split; [| split; [| split; [| split]]]]].
  - unfold activity_log_view. rewrite Hu. reflexivity.
  - apply firstn_le_length.
  - intros e He. apply in_firstn in He.
    apply (Permutation_in _ Hperm) in He. unfold mine in He.
    apply filter_In in He. destruct He as [Hin Howner].
    split; [exact Hin | now apply Z.eqb_eq].
  - exact Hsorted.
  - rewrite firstn_skipn. exact Hperm.
  - exact Hcross.
  - intro Hlen. apply skipn_all2.
    rewrite (Permutation_length Hperm). exact Hlen.
Qed.

Lemma activity_log_shows_latest_own_entries_witness :
  @activity_log_view Samples.plain_django
    (Samples.request_of "/activity-log/" "GET" (Some Samples.amani) [] [])
    MoreSamples.world1 =
    Returned
      (RenderActivities "core/activity_log.html"
         [mkLog 2 "PROFILE_UPDATED" None "" 980 []; mkLog 2 "USER_LOGIN" None "" 900 []])
      MoreSamples.world1.
Proof.
  destruct (activity_log_shows_latest_own_entries Samples.plain_django
              (Samples.request_of "/activity-log/" "GET" (Some Samples.amani) [] [])
              MoreSamples.world1 Samples.amani eq_refl)
    as [shown [omitted [Hrun _]]].
  rewrite Hrun. vm_compute in Hrun. inversion Hrun. reflexivity.
Defined.

(* ------------------------------------------------------------------ *)
(** ** The user listing without a search *)

Lemma insert_newest_first_perm (u : User) (l : list User) :
  Permutation (insert_newest_first u l) (u :: l).
Proof.
  induction l as [| x t IH]; simpl; [reflexivity |].
  destruct (date_joined x <=? date_joined u)%Z; [reflexivity |].
  rewrite IH. apply perm_swap.
Qed.

Lemma order_by_date_joined_desc_perm (l : list User) :
  Permutation (order_by_date_joined_desc l) l.
Proof.
  unfold order_by_date_joined_desc.
  induction l as [| a l IH]; simpl; [reflexivity |].
  rewrite insert_newest_first_perm. now constructor.
Qed.

Lemma filter_perm {A : Type} (p : A -> bool) (l l' : list A) :
  Permutation l l' -> Permutation (filter p l) (filter p l').
Proof.
  induction 1 as [| x l l' H IH | x y l | l l' l'' H1 IH1 H2 IH2]; simpl.
  - constructor.
  - destruct (p x); [now constructor | exact IH].
  - destruct (p x), (p y); try reflexivity. apply perm_swap.
  - now transitivity (filter p l').
Qed.

Lemma user_management_body_reads_only (namespace : list string) (request : Request)
    (w : World) :
  final_world (user_management_body namespace request w) = w.
Proof.
  unfold user_management_body, bind, get_world, global_name.
  destruct (truthy_opt (Py.dict_get (GET request) "search")); [| reflexivity].
  destruct (existsb (String.eqb "models") namespace); reflexivity.
Qed.

(** X20. The user listing without a search works.  For a caller the
    guards admit and a request whose [search] parameter is absent or empty,
    the view renders a list ordered newest-joined first that is a
    rearrangement of all stored users, or, when a non-empty [role] parameter
    is given, of exactly the stored users with that role; the store is not
    changed. *)
Theorem user_listing_without_search :
  forall (dj : Django) (request : Request) (w : World) (u : User),
    user request = Some u ->
    In (role u) ["HR_ADMIN"; "CPSB_SECRETARIAT"] ->
    Py.dict_get (GET request) "search" = None \/
    Py.dict_get (GET request) "search" = Some "" ->
    exists listed,
      user_management_view request w =
        Returned (Render "accounts/user_management.html"
                    (UsersContext listed (Py.dict_get (GET request) "role")
                       (Py.dict_get (GET request) "search"))) w /\
      StronglySorted (fun a b => (date_joined b <= date_joined a)%Z) listed /\
      (Py.dict_get (GET request) "role" = None \/
       Py.dict_get (GET request) "role" = Some "" ->
       Permutation listed (users w)) /\
      (forall r, Py.dict_get (GET request) "role" = Some r -> r <> "" ->
                 Permutation listed (filter (fun x => role x =? r) (users w))).
Proof.
  intros dj request w u Hu Hrole Hsearch.
  unfold user_management_view.
  rewrite (login_required_admits _ request w u Hu).
  rewrite (role_required_admits _ _ _ request w u Hu Hrole).
  unfold user_management_body, bind, get_world.
  assert (Hs : truthy_opt (Py.dict_get (GET request) "search") = false).
  { destruct Hsearch as [-> | ->]; reflexivity. }
  rewrite Hs. cbn [ret].
  eexists. split; [reflexivity |].
  pose proof (order_by_date_joined_desc_sorted (users w)) as Hsorted.
  pose proof (order_by_date_joined_desc_perm (users w)) as Hperm.
  destruct (Py.dict_get (GET request) "role") as [r |]; cbn [truthy_opt].
  - destruct (Py.truthy r) eqn:T.
    + split; [now apply filter_keeps_sorted |]. split.
      * intros [E | E]; [discriminate E |]. inversion E; subst. discriminate T.
      * intros r' E _. inversion E; subst r'. now apply filter_perm.
    + split; [exact Hsorted |]. split; [intros _; exact Hperm |].
      intros r' E Hne. inversion E; subst r'.
      unfold Py.truthy in T. apply negb_false_iff, String.eqb_eq in T. contradiction.
  - split; [exact Hsorted |]. split; [intros _; exact Hperm |].
    intros r' E. discriminate E.
Qed.

Lemma user_listing_without_search_witness :
  response_of
    (@user_management_view Samples.plain_django
       (Samples.request_of "/accounts/users/" "GET" (Some Samples.admin)
          [("role", "INITIATOR")] [])
       Samples.world0) =
    Some (Render "accounts/user_management.html"
            (UsersContext [Samples.amani] (Some "INITIATOR") None)).
Proof.
  destruct (user_listing_without_search Samples.plain_django
              (Samples.request_of "/accounts/users/" "GET" (Some Samples.admin)
                 [("role", "INITIATOR")] [])
              Samples.world0 Samples.admin eq_refl (or_introl eq_refl)
              (or_introl eq_refl))
    as [listed [Hrun _]].
  rewrite Hrun. vm_compute in Hrun. inversion Hrun. reflexivity.
Defined.

(** X21. The user-management page is read-only.  Whatever the request,
    also when the view ends in a fault, the user table, the activity log,
    the group table and the session are as they were before it ran. *)
Theorem user_management_view_reads_only :
  forall (dj : Django) (request : Request) (w : World),
    users (final_world (user_management_view request w)) = users w /\
    activity (final_world (user_management_view request w)) = activity w /\
    auth_groups (final_world (user_management_view request w)) = auth_groups w /\
    session (final_world (user_management_view request w)) = session w.
Proof.
  intros dj request w. unfold user_management_view.
  destruct (user request) as [u |] eqn:Hu.
  - rewrite (login_required_admits _ request w u Hu).
    destruct (in_dec string_dec (role u) ["HR_ADMIN"; "CPSB_SECRETARIAT"])
      as [Hin | Hout].
    + rewrite (role_required_admits _ _ _ request w u Hu Hin).
      rewrite user_management_body_reads_only. auto.
    + rewrite (role_required_denies _ _ _ request w u Hu Hout). cbn. auto.
  - rewrite (login_required_denies _ request w Hu). cbn. auto.
Qed.

(* ------------------------------------------------------------------ *)
(** ** Strings *)

Lemma truthy_iff (s : string) : Py.truthy s = true <-> s <> "".
Proof.
  unfold Py.truthy. destruct (String.eqb_spec s ""); simpl; split; congruence.
Qed.

Lemma isdecimal_isdigit (c : ascii) :
  Py.isdecimal_char c = true -> Py.isdigit_char c = true.
Proof.
  unfold Py.isdigit_char, Py.isdecimal_char. intros ->. reflexivity.
Qed.

Lemma all_chars_forall (p : ascii -> bool) (s : string) :
  Py.all_chars p s = true <-> forall c, In c (list_ascii_of_string s) -> p c = true.
Proof.
  induction s as [| a s IH]; simpl.
  - split; [intros _ c [] | reflexivity].
  - rewrite andb_true_iff, IH. split.
    + intros [Ha Hs] c [<- | Hc]; auto.
    + intro H. split; [apply H; now left | intros c Hc; apply H; now right].
Qed.

Lemma all_chars_weaken (p q : ascii -> bool) (s : string) :
  (forall c, p c = true -> q c = true) ->
  Py.all_chars p s = true -> Py.all_chars q s = true.
Proof.
  intros Hpq. rewrite !all_chars_forall. intros H c Hc. apply Hpq, H, Hc.
Qed.

Lemma all_decimal_decimal_only (s : string) :
  Py.all_chars Py.isdecimal_char s = true <-> Spec.decimal_only s.
Proof. apply all_chars_forall. Qed.

Lemma prefix_begins_with (p s : string) :
  String.prefix p s = true <-> Spec.begins_with s p.
Proof.
  unfold Spec.begins_with. revert s.
  induction p as [| a p IH]; intro s.
  - split; [intros _; now exists s | intros _; now destruct s].
  - destruct s as [| b s]; simpl.
    + split; [discriminate | intros [r Hr]; discriminate Hr].
    + destruct (ascii_dec a b) as [-> | Hab].
      * rewrite IH. split; intros [r Hr]; exists r.
        -- simpl. now rewrite Hr.
        -- simpl in Hr. now inversion Hr.
      * split; [discriminate | intros [r Hr]; simpl in Hr; inversion Hr; congruence].
Qed.

Lemma filter_chars_as_list (p : ascii -> bool) (s : string) :
  Py.filter_chars p s = string_of_list_ascii (filter p (list_ascii_of_string s)).
Proof.
  induction s as [| a s IH]; simpl; [reflexivity |].
  destruct (p a); simpl; now rewrite IH.
Qed.

Lemma filter_chars_twice (p q : ascii -> bool) (s : string) :
  Py.filter_chars q (Py.filter_chars p s) = Py.filter_chars (fun c => p c && q c) s.
Proof.
  induction s as [| a s IH]; simpl; [reflexivity |].
  destruct (p a); simpl; [destruct (q a); simpl; now rewrite IH | exact IH].
Qed.

Lemma filter_chars_ext (p q : ascii -> bool) (s : string) :
  (forall c, p c = q c) -> Py.filter_chars p s = Py.filter_chars q s.
Proof.
  intro H. induction s as [| a s IH]; simpl; [reflexivity |].
  now rewrite H, IH.
Qed.

Lemma filter_chars_idempotent (p : ascii -> bool) (s : string) :
  Py.filter_chars p (Py.filter_chars p s) = Py.filter_chars p s.
Proof.
  induction s as [| a s IH]; simpl; [reflexivity |].
  destruct (p a) eqn:E; simpl; [rewrite E; now rewrite IH | exact IH].
Qed.

Lemma filter_chars_length (p : ascii -> bool) (s : string) :
  String.length (Py.filter_chars p s) <= String.length s.
Proof.
  induction s as [| a s IH]; simpl; [lia |].
  destruct (p a); simpl; lia.
Qed.

(** What a filter drops cannot break a property of the characters that
    the dropped ones have as well. *)
Lemma all_chars_before_filter (q f : ascii -> bool) (s : string) :
  (forall c, f c = false -> q c = true) ->
  Py.all_chars q (Py.filter_chars f s) = true -> Py.all_chars q s = true.
Proof.
  intro Hdrop. induction s as [| a s IH]; simpl; [reflexivity |].
  destruct (f a) eqn:E; simpl.
  - rewrite !andb_true_iff. intros [Ha Hs]. auto.
  - intro Hs. rewrite (Hdrop a E). simpl. auto.
Qed.

(** The two chained [replace] calls remove exactly the separators. *)
Lemma replace_strip_separators (s : string) :
  Py.remove_char "-" (Py.remove_char " " s) = Spec.strip_separators s.
Proof.
  unfold Py.remove_char, Spec.strip_separators.
  rewrite filter_chars_twice, <- filter_chars_as_list.
  apply filter_chars_ext. intro c.
  now destruct (Ascii.eqb c " "), (Ascii.eqb c "-").
Qed.

Lemma strip_separators_as_filter (s : string) :
  Spec.strip_separators s =
    Py.filter_chars (fun c => negb (Ascii.eqb c " " || Ascii.eqb c "-")) s.
Proof. unfold Spec.strip_separators. now rewrite filter_chars_as_list. Qed.

Lemma strip_separators_idempotent (s : string) :
  Spec.strip_separators (Spec.strip_separators s) = Spec.strip_separators s.
Proof.
  rewrite !strip_separators_as_filter. apply filter_chars_idempotent.
Qed.

Lemma strip_separators_length (s : string) :
  String.length (Spec.strip_separators s) <= String.length s.
Proof. rewrite strip_separators_as_filter. apply filter_chars_length. Qed.

Lemma kenyan_prefix_spec (s : string) :
  kenyan_prefix s = true <->
  exists p, In p Spec.kenyan_prefixes /\ Spec.begins_with s p.
Proof.
  unfold kenyan_prefix, Py.startswith.
  rewrite !orb_true_iff, !prefix_begins_with. unfold Spec.kenyan_prefixes. simpl.
  split.
  - intros [[[H | H] | H] | H]; eexists; (split; [| exact H]); tauto.
  - intros [p [[<- | [<- | [<- | [<- | []]]]] H]]; tauto.
Qed.

Lemma kenyan_prefix_nonempty (s : string) : kenyan_prefix s = true -> s <> "".
Proof. intros H ->. discriminate H. Qed.

(** A string that [chomp] shortens ends in a line feed. *)
Lemma chomp_some (s t : string) :
  Py.chomp s = Some t -> s = t ++ String "010" "".
Proof.
  revert t. induction s as [| a s IH]; intros t; simpl; [discriminate |].
  destruct s as [| b s].
  - destruct (Ascii.eqb_spec a "010"); [| discriminate].
    intro H. inversion H. now subst.
  - destruct (Py.chomp (String b s)) as [t' |]; [| discriminate].
    intro H. inversion H. simpl. f_equal. now apply IH.
Qed.

Lemma all_chars_app (p : ascii -> bool) (s t : string) :
  Py.all_chars p (s ++ t) = Py.all_chars p s && Py.all_chars p t.
Proof.
  induction s as [| a s IH]; simpl; [reflexivity |].
  now rewrite IH, andb_assoc.
Qed.

Lemma chomp_none_of (p : ascii -> bool) (s : string) :
  p "010"%char = false -> Py.all_chars p s = true -> Py.chomp s = None.
Proof.
  intros Hp Hs. destruct (Py.chomp s) as [t |] eqn:E; [| reflexivity].
  apply chomp_some in E. rewrite E, all_chars_app in Hs.
  simpl in Hs. rewrite Hp in Hs. rewrite andb_false_r in Hs. discriminate.
Qed.

Lemma at_dollar_without_line_feed (body : string -> bool) (p : ascii -> bool) (s : string) :
  p "010"%char = false -> Py.all_chars p s = true ->
  Py.at_dollar body s = body s.
Proof.
  intros Hp Hs. unfold Py.at_dollar. rewrite (chomp_none_of p s Hp Hs).
  apply orb_false_r.
Qed.

(* ------------------------------------------------------------------ *)
(** ** The field hooks of the forms *)

Lemma national_id_exists_iff (rows : list User) (nid : string) :
  national_id_exists rows nid = false <-> ~ Spec.national_id_taken rows nid.
Proof.
  unfold national_id_exists, Spec.national_id_taken. split.
  - intros H [u [Hu E]].
    assert (X : existsb (fun u0 => national_id u0 =? nid) rows = true).
    { apply existsb_exists. exists u. split; [exact Hu | now apply String.eqb_eq]. }
    congruence.
  - intro H. destruct (existsb _ rows) eqn:E; [| reflexivity].
    apply existsb_exists in E. destruct E as [u [Hu Hn]].
    apply String.eqb_eq in Hn. exfalso. apply H. now exists u.
Qed.

Lemma email_exists_iff (rows : list User) (e : string) :
  email_exists rows e = false <-> forall u, In u rows -> email u <> e.
Proof.
  unfold email_exists. split.
  - intros H u Hu E.
    assert (X : existsb (fun u0 => email u0 =? e) rows = true).
    { apply existsb_exists. exists u. split; [exact Hu | now apply String.eqb_eq]. }
    congruence.
  - intro H. destruct (existsb _ rows) eqn:E; [| reflexivity].
    apply existsb_exists in E. destruct E as [u [Hu Hn]].
    apply String.eqb_eq in Hn. now destruct (H u Hu).
Qed.

Lemma length_7_or_8 (n : nat) :
  ((n <? 7)%nat || (8 <? n)%nat) = false <-> n = 7 \/ n = 8.
Proof.
  rewrite orb_false_iff, !Nat.ltb_ge. lia.
Qed.

(** The hook on a non-empty value: accepted when the value is not stored,
    [isdigit] holds of it and it has 7 or 8 characters; it is returned as it
    is. *)
Lemma clean_national_id_characterised (rows : list User) (nid : string) :
  nid <> "" ->
  (accepted (clean_national_id rows nid) = true <->
   national_id_exists rows nid = false /\
   Py.all_chars Py.isdigit_char nid = true /\
   (String.length nid = 7 \/ String.length nid = 8)).
Proof.
  intro Hne. unfold clean_national_id, Py.isdigit.
  rewrite (truthy_nonempty nid Hne). cbn [andb].
  rewrite <- length_7_or_8.
  destruct (national_id_exists rows nid); cbn [accepted].
  - split; [discriminate | intros [H _]; discriminate H].
  - destruct (Py.all_chars Py.isdigit_char nid); cbn [negb accepted].
    + destruct ((String.length nid <? 7)%nat || (8 <? String.length nid)%nat);
        cbn [accepted]; split; try tauto; try discriminate.
      intros [_ [_ H]]. discriminate H.
    + split; [discriminate | intros [_ [H _]]; discriminate H].
Qed.

Lemma clean_national_id_value (rows : list User) (nid : string) :
  accepted (clean_national_id rows nid) = true ->
  clean_national_id rows nid = Clean nid.
Proof.
  unfold clean_national_id.
  repeat match goal with |- context [if ?b then _ else _] => destruct b end;
    cbn [accepted]; intro H; try discriminate H; reflexivity.
Qed.

Lemma accepted_clean (r : cleaned) :
  accepted r = true <-> exists v, r = Clean v.
Proof.
  destruct r; simpl; split; try discriminate; eauto.
  intros [v H]. discriminate H.
Qed.

Lemma decimal_has_no_nul (s : string) :
  Py.all_chars Py.isdecimal_char s = true -> has_nul s = false.
Proof.
  intro H. unfold has_nul.
  rewrite (all_chars_weaken Py.isdecimal_char _ s); [reflexivity | | exact H].
  intros c Hc. destruct (Ascii.eqb_spec c "000"); [subst; discriminate Hc | reflexivity].
Qed.

(** One field of the registration form, unfolded. *)
Lemma creation_clean_national_id `{Django} (rows : list User) (submitted : string) :
  creation_clean rows national_id_field submitted =
    let v := Py.strip submitted in
    if negb (Py.truthy v) then None
    else if (20 <? String.length v)%nat || has_nul v then None
    else match clean_national_id rows v with
         | Clean v' =>
             if national_id_validator v' && (String.length v' <=? 20)%nat
                && negb (national_id_exists rows v')
             then Some v' else None
         | ValidationError _ => None
         end.
Proof.
  unfold creation_clean, field_clean, national_id_field, to_python, too_long.
  cbn [kind name required max_length]. cbv zeta.
  destruct (negb (Py.truthy (Py.strip submitted))); [reflexivity |].
  destruct ((20 <? String.length (Py.strip submitted))%nat || has_nul (Py.strip submitted));
    reflexivity.
Qed.

Lemma national_id_field_accepts `{Django} (rows : list User) (submitted : string) :
  creation_clean rows national_id_field submitted = Some (Py.strip submitted) <->
  ~ Spec.national_id_taken rows (Py.strip submitted) /\
  Spec.decimal_only (Py.strip submitted) /\
  (String.length (Py.strip submitted) = 7 \/ String.length (Py.strip submitted) = 8).
Proof.
  rewrite creation_clean_national_id. cbv zeta.
  set (v := Py.strip submitted).
  rewrite <- national_id_exists_iff, <- all_decimal_decimal_only.
  destruct (Py.truthy v) eqn:Ht; cbn [negb].
  - apply truthy_iff in Ht.
    pose proof (clean_national_id_characterised rows v Ht) as Hhook.
    destruct (clean_national_id rows v) as [v' | msg] eqn:Eh.
    + assert (Hacc : accepted (clean_national_id rows v) = true) by now rewrite Eh.
      pose proof (clean_national_id_value rows v Hacc) as Hval.
      rewrite Eh in Hval. inversion Hval; subst v'.
      cbn [accepted] in Hhook. destruct Hhook as [Hhook _].
      destruct (Hhook eq_refl) as [Hfresh [Hdig Hlen]].
      rewrite Hfresh. cbn [negb]. rewrite andb_true_r.
      unfold national_id_validator.
      rewrite (at_dollar_without_line_feed _ Py.isdigit_char v eq_refl Hdig).
      unfold national_id_pattern.
      assert (H20 : (20 <? String.length v)%nat = false)
        by (apply Nat.ltb_ge; lia).
      assert (H20' : (String.length v <=? 20)%nat = true)
        by (apply Nat.leb_le; lia).
      assert (H7 : (7 <=? String.length v)%nat = true) by (apply Nat.leb_le; lia).
      assert (H8 : (String.length v <=? 8)%nat = true) by (apply Nat.leb_le; lia).
      rewrite H20, H20', H7, H8. cbn [orb]. rewrite !andb_true_r.
      destruct (Py.all_chars Py.isdecimal_char v) eqn:Ed.
      * rewrite (decimal_has_no_nul v Ed). split; [auto | reflexivity].
      * destruct (has_nul v); split; try discriminate; intros [_ [X _]]; discriminate X.
    + assert (Hno : accepted (ValidationError msg) = false) by reflexivity.
      destruct ((20 <? String.length v)%nat || has_nul v);
        (split; [discriminate |]).
      * intros [Hf [Hd Hl]]. destruct Hhook as [_ Hhook].
        cbn [accepted] in Hhook.
        assert (X : false = true).
        { apply Hhook. repeat split; auto.
          apply (all_chars_weaken _ _ v isdecimal_isdigit Hd). }
        discriminate X.
      * intros [Hf [Hd Hl]]. destruct Hhook as [_ Hhook].
        cbn [accepted] in Hhook.
        assert (X : false = true).
        { apply Hhook. repeat split; auto.
          apply (all_chars_weaken _ _ v isdecimal_isdigit Hd). }
        discriminate X.
  - split; [discriminate |]. intros [_ [_ Hl]].
    assert (Hv : v = "").
    { destruct (string_dec v "") as [E | E]; [exact E |].
      apply truthy_iff in E. congruence. }
    rewrite Hv in Hl. simpl in Hl. lia.
Qed.

Lemma national_id_field_value `{Django} (rows : list User) (submitted v : string) :
  creation_clean rows national_id_field submitted = Some v -> v = Py.strip submitted.
Proof.
  rewrite creation_clean_national_id. cbv zeta.
  destruct (negb (Py.truthy (Py.strip submitted))); [discriminate |].
  destruct ((20 <? String.length (Py.strip submitted))%nat || has_nul (Py.strip submitted));
    [discriminate |].
  destruct (clean_national_id rows (Py.strip submitted)) as [v' | msg] eqn:Eh;
    [| discriminate].
  assert (Hacc : accepted (clean_national_id rows (Py.strip submitted)) = true)
    by now rewrite Eh.
  rewrite (clean_national_id_value _ _ Hacc) in Eh. inversion Eh; subst v'.
  destruct (national_id_validator _ && _ && _); [| discriminate].
  intro E. now inversion E.
Qed.

(* ------------------------------------------------------------------ *)
(** ** The registration form as a whole *)

(** A valid registration form: every field has passed its own cleaning,
    its hook and the checks of the model, and the password checks hold of
    the cleaned data. *)
Lemma creation_form_valid `{Django} (rows : list User) (post cd : list (string * string)) :
  CustomUserCreationForm_is_valid rows post = Some cd ->
  exists e fn ln nid ph r d p1 p2,
    cd = [ ("email", e); ("first_name", fn); ("last_name", ln);
           ("national_id", nid); ("phone_number", ph); ("role", r);
           ("department", d); ("password1", p1); ("password2", p2) ] /\
    creation_clean rows email_field (get_or post "email" "") = Some e /\
    creation_clean rows (mkField "first_name" CharField true (Some 30))
      (get_or post "first_name" "") = Some fn /\
    creation_clean rows (mkField "last_name" CharField true (Some 30))
      (get_or post "last_name" "") = Some ln /\
    creation_clean rows national_id_field (get_or post "national_id" "") = Some nid /\
    creation_clean rows phone_number_field (get_or post "phone_number" "") = Some ph /\
    creation_clean rows (mkField "role" (ChoiceField ROLE_CHOICES) true None)
      (get_or post "role" "") = Some r /\
    creation_clean rows (mkField "department" CharField false (Some 100))
      (get_or post "department" "") = Some d /\
    creation_clean rows (mkField "password1" CharField true None)
      (get_or post "password1" "") = Some p1 /\
    creation_clean rows (mkField "password2" CharField true None)
      (get_or post "password2" "") = Some p2 /\
    validate_passwords cd = true.
Proof.
  unfold CustomUserCreationForm_is_valid.
  cbn [clean_fields creation_fields].
  cbn [name email_field national_id_field phone_number_field].
  fold email_field national_id_field phone_number_field.
  destruct (creation_clean rows email_field _) as [e |]; [| discriminate].
  destruct (creation_clean rows (mkField "first_name" _ _ _) _) as [fn |];
    [| discriminate].
  destruct (creation_clean rows (mkField "last_name" _ _ _) _) as [ln |];
    [| discriminate].
  destruct (creation_clean rows national_id_field _) as [nid |]; [| discriminate].
  destruct (creation_clean rows phone_number_field _) as [ph |]; [| discriminate].
  destruct (creation_clean rows (mkField "role" _ _ _) _) as [r |]; [| discriminate].
  destruct (creation_clean rows (mkField "department" _ _ _) _) as [d |];
    [| discriminate].
  destruct (creation_clean rows (mkField "password1" _ _ _) _) as [p1 |];
    [| discriminate].
  destruct (creation_clean rows (mkField "password2" _ _ _) _) as [p2 |];
    [| discriminate].
  destruct (validate_passwords _) eqn:Vp; [| discriminate].
  intro E. inversion E; subst cd.
  exists e, fn, ln, nid, ph, r, d, p1, p2. repeat split; auto.
Qed.

(** The converse: clean fields and passing password checks make the form
    valid. *)
Lemma creation_form_accepts `{Django} (rows : list User) (post : list (string * string))
    (e fn ln nid ph r d p1 p2 : string) :
  creation_clean rows email_field (get_or post "email" "") = Some e ->
  creation_clean rows (mkField "first_name" CharField true (Some 30))
    (get_or post "first_name" "") = Some fn ->
  creation_clean rows (mkField "last_name" CharField true (Some 30))
    (get_or post "last_name" "") = Some ln ->
  creation_clean rows national_id_field (get_or post "national_id" "") = Some nid ->
  creation_clean rows phone_number_field (get_or post "phone_number" "") = Some ph ->
  creation_clean rows (mkField "role" (ChoiceField ROLE_CHOICES) true None)
    (get_or post "role" "") = Some r ->
  creation_clean rows (mkField "department" CharField false (Some 100))
    (get_or post "department" "") = Some d ->
  creation_clean rows (mkField "password1" CharField true None)
    (get_or post "password1" "") = Some p1 ->
  creation_clean rows (mkField "password2" CharField true None)
    (get_or post "password2" "") = Some p2 ->
  validate_passwords
    [ ("email", e); ("first_name", fn); ("last_name", ln);
      ("national_id", nid); ("phone_number", ph); ("role", r);
      ("department", d); ("password1", p1); ("password2", p2) ] = true ->
  CustomUserCreationForm_is_valid rows post =
    Some [ ("email", e); ("first_name", fn); ("last_name", ln);
           ("national_id", nid); ("phone_number", ph); ("role", r);
           ("department", d); ("password1", p1); ("password2", p2) ].
Proof.
  intros He Hfn Hln Hnid Hph Hr Hd Hp1 Hp2 Hv.
  unfold CustomUserCreationForm_is_valid.
  cbn [clean_fields creation_fields].
  cbn [name email_field national_id_field phone_number_field].
  fold email_field national_id_field phone_number_field.
  rewrite He, Hfn, Hln, Hnid, Hph, Hr, Hd, Hp1, Hp2, Hv. reflexivity.
Qed.

Lemma creation_cleaned_values (cd : list (string * string))
    (e fn ln nid ph r d p1 p2 : string) :
  cd = [ ("email", e); ("first_name", fn); ("last_name", ln);
         ("national_id", nid); ("phone_number", ph); ("role", r);
         ("department", d); ("password1", p1); ("password2", p2) ] ->
  get_or cd "email" "" = e /\
  get_or cd "first_name" "" = fn /\
  get_or cd "last_name" "" = ln /\
  get_or cd "national_id" "" = nid /\
  get_or cd "phone_number" "" = ph /\
  get_or cd "role" "INITIATOR" = r /\
  get_or cd "department" "" = d /\
  get_or cd "password1" "" = p1.
Proof.
  intros ->. repeat split; reflexivity.
Qed.

Lemma register_view_rejected `{Django} (env : Env) (request : Request) (w : World) :
  user request = None ->
  method request = "POST" ->
  CustomUserCreationForm_is_valid (users w) (POST request) = None ->
  register_view env request w =
    Returned (Render "accounts/register.html" (FormContext true)) w.
Proof.
  intros Hanon Hpost Hinvalid.
  unfold register_view, is_authenticated. rewrite Hanon, Hpost, String.eqb_refl.
  unfold bind, get_world. now rewrite Hinvalid.
Qed.


(* ------------------------------------------------------------------ *)
(** ** National IDs at registration *)




(* ------------------------------------------------------------------ *)
(** ** Phone numbers at registration *)

Lemma digits_9_to_12 (n : nat) :
  ((n <? 9)%nat || (12 <? n)%nat) = false <-> 9 <= n <= 12.
Proof.
  rewrite orb_false_iff, !Nat.ltb_ge. lia.
Qed.

(** The registration hook on a non-empty number: the number without its
    separators, when that begins with a Kenyan prefix and [str.isdigit]
    holds of 9 to 12 of its characters. *)
Lemma clean_phone_number_characterised (phone : string) :
  phone <> "" ->
  (clean_phone_number phone = Clean (Spec.strip_separators phone) <->
   kenyan_prefix (Spec.strip_separators phone) = true /\
   9 <= Spec.isdigit_count (Spec.strip_separators phone) <= 12).
Proof.
  intro Hne. unfold clean_phone_number, Spec.isdigit_count.
  rewrite (truthy_nonempty phone Hne), replace_strip_separators.
  rewrite <- digits_9_to_12.
  destruct (kenyan_prefix (Spec.strip_separators phone)); cbn [negb].
  - destruct ((_ <? 9)%nat || _); split; try tauto; try discriminate.
    intros [_ H]. discriminate H.
  - split; [discriminate | intros [H _]; discriminate H].
Qed.

Lemma clean_phone_number_value (phone v : string) :
  clean_phone_number phone = Clean v -> v = Spec.strip_separators phone.
Proof.
  unfold clean_phone_number. destruct (Py.truthy phone) eqn:T.
  - rewrite replace_strip_separators.
    destruct (negb _); [discriminate |].
    destruct (_ || _); [discriminate |]. intro E. now inversion E.
  - intro E. inversion E. subst v.
    destruct (string_dec phone "") as [-> | Hne]; [reflexivity |].
    apply truthy_iff in Hne. congruence.
Qed.

Lemma profile_clean_phone_number_characterised (phone : string) :
  phone <> "" ->
  (profile_clean_phone_number phone = Clean (Spec.strip_separators phone) <->
   kenyan_prefix (Spec.strip_separators phone) = true).
Proof.
  intro Hne. unfold profile_clean_phone_number.
  rewrite (truthy_nonempty phone Hne), replace_strip_separators.
  destruct (kenyan_prefix (Spec.strip_separators phone)); cbn [negb];
    split; try tauto; discriminate.
Qed.

Lemma profile_clean_phone_number_value (phone v : string) :
  profile_clean_phone_number phone = Clean v -> v = Spec.strip_separators phone.
Proof.
  unfold profile_clean_phone_number. destruct (Py.truthy phone) eqn:T.
  - rewrite replace_strip_separators.
    destruct (negb _); [discriminate |]. intro E. now inversion E.
  - intro E. inversion E. subst v.
    destruct (string_dec phone "") as [-> | Hne]; [reflexivity |].
    apply truthy_iff in Hne. congruence.
Qed.

(** Nothing the pattern of the phone column matches holds the character
    of code point 0. *)
Lemma phone_number_pattern_no_nul (s : string) :
  phone_number_pattern s = true ->
  Py.all_chars (fun c => negb (Ascii.eqb c "000")) s = true.
Proof.
  unfold phone_number_pattern. intro H.
  apply andb_true_iff in H. destruct H as [Hdec _].
  assert (W : forall t, Py.all_chars Py.isdecimal_char t = true ->
                        Py.all_chars (fun c => negb (Ascii.eqb c "000")) t = true).
  { intros t. apply all_chars_weaken. intros c Hc.
    destruct (Ascii.eqb_spec c "000"); [subst; discriminate Hc | reflexivity]. }
  destruct s as [| a t]; [reflexivity |].
  destruct (Ascii.eqb_spec a "+") as [-> | Hna].
  - simpl. now apply W.
  - assert (E : match String a t with
                | String "+"%char t0 => t0
                | _ => String a t
                end = String a t).
    { destruct a as [[] [] [] [] [] [] [] []]; try reflexivity. now destruct Hna. }
    rewrite E in Hdec. now apply W.
Qed.

Lemma phone_number_validator_no_nul (s : string) :
  phone_number_validator s = true -> has_nul s = false.
Proof.
  unfold phone_number_validator, Py.at_dollar, has_nul. intro H.
  apply andb_true_iff in H. destruct H as [H _].
  apply orb_true_iff in H. destruct H as [H | H].
  - now rewrite (phone_number_pattern_no_nul s H).
  - destruct (Py.chomp s) as [t |] eqn:E; [| discriminate].
    apply chomp_some in E. rewrite E, all_chars_app.
    now rewrite (phone_number_pattern_no_nul t H).
Qed.

Lemma no_nul_before_strip_separators (s : string) :
  has_nul (Spec.strip_separators s) = false -> has_nul s = false.
Proof.
  unfold has_nul. rewrite strip_separators_as_filter. intro H.
  apply negb_false_iff in H. apply negb_false_iff.
  apply (all_chars_before_filter _ _ s) in H; [exact H |].
  intros c Hc. apply negb_false_iff, orb_true_iff in Hc.
  destruct Hc as [Hc | Hc]; apply Ascii.eqb_eq in Hc; subst; reflexivity.
Qed.

(** One field of the registration form, unfolded. *)
Lemma creation_clean_phone_number `{Django} (rows : list User) (submitted : string) :
  creation_clean rows phone_number_field submitted =
    let v := Py.strip submitted in
    if negb (Py.truthy v) then None
    else if (15 <? String.length v)%nat || has_nul v then None
    else match clean_phone_number v with
         | Clean v' => if phone_number_validator v' then Some v' else None
         | ValidationError _ => None
         end.
Proof.
  unfold creation_clean, field_clean, phone_number_field, to_python, too_long.
  cbn [kind name required max_length]. cbv zeta.
  destruct (negb (Py.truthy (Py.strip submitted))); [reflexivity |].
  destruct ((15 <? String.length (Py.strip submitted))%nat || has_nul (Py.strip submitted));
    reflexivity.
Qed.

Lemma phone_number_field_accepts `{Django} (rows : list User) (submitted : string) :
  creation_clean rows phone_number_field submitted =
    Some (Spec.strip_separators (Py.strip submitted)) <->
  String.length (Py.strip submitted) <= 15 /\
  (exists p, In p Spec.kenyan_prefixes /\
             Spec.begins_with (Spec.strip_separators (Py.strip submitted)) p) /\
  9 <= Spec.isdigit_count (Spec.strip_separators (Py.strip submitted)) <= 12 /\
  phone_number_validator (Spec.strip_separators (Py.strip submitted)) = true.
Proof.
  rewrite creation_clean_phone_number. cbv zeta.
  set (v := Py.strip submitted).
  rewrite <- kenyan_prefix_spec.
  destruct (Py.truthy v) eqn:Ht; cbn [negb].
  - apply truthy_iff in Ht.
    pose proof (clean_phone_number_characterised v Ht) as Hhook.
    destruct (15 <? String.length v)%nat eqn:L; cbn [orb].
    + apply Nat.ltb_lt in L. split; [discriminate | intros [X _]; lia].
    + apply Nat.ltb_ge in L.
      destruct (clean_phone_number v) as [v' | msg] eqn:Eh.
      * pose proof (clean_phone_number_value v v' Eh) as ->.
        destruct Hhook as [Hhook _]. destruct (Hhook eq_refl) as [Hp Hd].
        destruct (phone_number_validator (Spec.strip_separators v)) eqn:V.
        -- rewrite (no_nul_before_strip_separators v
                      (phone_number_validator_no_nul _ V)).
           split; auto.
        -- destruct (has_nul v); split; try discriminate;
             intros [_ [_ [_ X]]]; discriminate X.
      * destruct (has_nul v); (split; [discriminate |]);
          intros [_ [Hp [Hd _]]]; destruct Hhook as [_ Hhook];
          specialize (Hhook (conj Hp Hd)); discriminate Hhook.
  - split; [discriminate |]. intros [_ [Hp _]].
    apply kenyan_prefix_nonempty in Hp.
    assert (E : v = "").
    { destruct (string_dec v "") as [E | E]; [exact E |].
      apply truthy_iff in E. congruence. }
    rewrite E in Hp. now destruct Hp.
Qed.

Lemma phone_number_field_value `{Django} (rows : list User) (submitted v : string) :
  creation_clean rows phone_number_field submitted = Some v ->
  v = Spec.strip_separators (Py.strip submitted).
Proof.
  rewrite creation_clean_phone_number. cbv zeta.
  destruct (negb (Py.truthy (Py.strip submitted))); [discriminate |].
  destruct ((15 <? String.length (Py.strip submitted))%nat || has_nul (Py.strip submitted));
    [discriminate |].
  destruct (clean_phone_number (Py.strip submitted)) as [v' | msg] eqn:Eh;
    [| discriminate].
  apply clean_phone_number_value in Eh. subst v'.
  destruct (phone_number_validator _); [| discriminate].
  intro E. now inversion E.
Qed.




(* ------------------------------------------------------------------ *)
(** ** The phone number of a profile update *)

(** C3 does not hold of the code.  The 13-digit number "0712345678901"
    breaks the phone rule and the registration hook rejects it, yet the
    profile hook accepts it, the model's own validator lets it through, and
    [profile_view] stores it and answers with the success redirect. *)
Theorem profile_phone_digit_count_unchecked :
  Spec.digit_count (Spec.strip_separators "0712345678901") = 13 /\
  ~ Spec.phone_rule "0712345678901" /\
  clean_phone_number "0712345678901" =
    ValidationError "Phone number must have between 9 and 12 digits" /\
  profile_clean_phone_number "0712345678901" = Clean "0712345678901" /\
  phone_number_validator "0712345678901" = true /\
  (let request :=
     Samples.request_of "/accounts/profile/" "POST" (Some Samples.amani) []
       [("first_name", "Amani"); ("last_name", "Otieno");
        ("phone_number", "0712345678901")] in
   let outcome := @profile_view Samples.plain_django Samples.env0 request Samples.world0 in
   response_of outcome = Some (Redirect "accounts:profile") /\
   map phone_number (users (final_world outcome)) =
     ["0712345678"; "0712345678901"; "+254712345678"]).
Proof.
  split; [reflexivity |].
  split.
  { intros [_ [_ H]]. vm_compute in H. lia. }
  repeat split; reflexivity.
Qed.

(* ------------------------------------------------------------------ *)
(** ** How the hooks and the validators of the model relate *)

(** X22. The two phone hooks on the same number.  Whatever the
    registration hook accepts, the profile hook accepts with the same
    cleaned value; and a cleaned value is stable: the number the
    registration hook returns is accepted unchanged by both hooks, so a
    stored number can be submitted again as it is. *)
Theorem phone_hooks_on_stored_numbers :
  forall phone cleaned_phone : string,
    clean_phone_number phone = Clean cleaned_phone ->
    profile_clean_phone_number phone = Clean cleaned_phone /\
    clean_phone_number cleaned_phone = Clean cleaned_phone /\
    profile_clean_phone_number cleaned_phone = Clean cleaned_phone.
Proof.
  intros phone q Hclean.
  pose proof (clean_phone_number_value phone q Hclean) as ->.
  destruct (string_dec phone "") as [-> | Hne]; [repeat split |].
  apply (clean_phone_number_characterised phone Hne) in Hclean.
  destruct Hclean as [Hprefix Hdigits].
  pose proof (kenyan_prefix_nonempty _ Hprefix) as Hq.
  split; [| split].
  - now apply profile_clean_phone_number_characterised.
  - rewrite <- (strip_separators_idempotent phone) at 2.
    apply (clean_phone_number_characterised _ Hq).
    rewrite strip_separators_idempotent. now split.
  - rewrite <- (strip_separators_idempotent phone) at 2.
    apply (profile_clean_phone_number_characterised _ Hq).
    now rewrite strip_separators_idempotent.
Qed.

Lemma phone_hooks_on_stored_numbers_witness :
  profile_clean_phone_number "+254 712-345-678" = Clean "+254712345678" /\
  clean_phone_number "+254712345678" = Clean "+254712345678".
Proof.
  destruct (phone_hooks_on_stored_numbers "+254 712-345-678" "+254712345678" eq_refl)
    as [Hprofile [Hagain _]].
  split; [exact Hprofile | exact Hagain].
Defined.



(* ------------------------------------------------------------------ *)
(** ** Login *)

Lemma field_clean_char `{Django} (nm : string) (req : bool) (ml : option nat)
    (submitted : string) :
  field_clean (mkField nm CharField req ml) submitted =
    if negb (Py.truthy (Py.strip submitted)) then (if req then None else Some "")
    else if too_long (mkField nm CharField req ml) (Py.strip submitted)
            || has_nul (Py.strip submitted)
    then None else Some (Py.strip submitted).
Proof. reflexivity. Qed.

Lemma field_clean_email `{Django} (nm : string) (submitted : string) :
  field_clean (mkField nm EmailField true None) submitted =
    if negb (Py.truthy (Py.strip submitted)) then None
    else if has_nul (Py.strip submitted) || negb (validate_email (Py.strip submitted))
    then None else Some (Py.strip submitted).
Proof. reflexivity. Qed.

(** The fields of the login form are clean exactly when the stripped
    e-mail address and password are not empty, hold no character of code
    point 0, and the address passes the e-mail validators. *)
Lemma authentication_fields_cleaned `{Django} (post cd : list (string * string)) :
  clean_fields field_clean authentication_fields post = Some cd <->
  cd = [ ("username", Py.strip (get_or post "username" ""));
         ("password", Py.strip (get_or post "password" ""));
         ("remember_me", get_or post "remember_me" "") ] /\
  Py.strip (get_or post "username" "") <> "" /\
  has_nul (Py.strip (get_or post "username" "")) = false /\
  validate_email (Py.strip (get_or post "username" "")) = true /\
  Py.strip (get_or post "password" "") <> "" /\
  has_nul (Py.strip (get_or post "password" "")) = false.
Proof.
  cbn [clean_fields authentication_fields name].
  rewrite field_clean_email, field_clean_char.
  set (e := Py.strip (get_or post "username" "")).
  set (p := Py.strip (get_or post "password" "")).
  assert (Hr : field_clean (mkField "remember_me" BooleanField false None)
                 (get_or post "remember_me" "") = Some (get_or post "remember_me" "")).
  { unfold field_clean, to_python. cbn [kind required].
    destruct (Py.truthy (get_or post "remember_me" "")) eqn:T; cbn [negb];
      [reflexivity |].
    destruct (string_dec (get_or post "remember_me" "") "") as [-> | Hne];
      [reflexivity | apply truthy_iff in Hne; congruence]. }
  rewrite Hr. cbn [too_long max_length orb].
  rewrite <- !truthy_iff.
  destruct (Py.truthy e); cbn [negb].
  2:{ split; [discriminate | intros [_ [X _]]; discriminate X]. }
  destruct (has_nul e); cbn [orb].
  { split; [discriminate | intros [_ [_ [X _]]]; discriminate X]. }
  destruct (validate_email e); cbn [negb].
  2:{ split; [discriminate | intros [_ [_ [_ [X _]]]]; discriminate X]. }
  destruct (Py.truthy p); cbn [negb].
  2:{ split; [discriminate | intros [_ [_ [_ [_ [X _]]]]]; discriminate X]. }
  destruct (has_nul p).
  { split; [discriminate | intros [_ [_ [_ [_ [_ X]]]]]; discriminate X]. }
  split.
  - intro E. inversion E. repeat split; reflexivity.
  - intros [-> _]. reflexivity.
Qed.

(** The login form is valid exactly when its fields are clean and the
    stripped credentials authenticate an active user. *)
Lemma authentication_form_valid_full `{Django} (rows : list User)
    (post cd : list (string * string)) :
  CustomAuthenticationForm_is_valid rows post = Some cd <->
  cd = [ ("username", Py.strip (get_or post "username" ""));
         ("password", Py.strip (get_or post "password" ""));
         ("remember_me", get_or post "remember_me" "") ] /\
  Py.strip (get_or post "username" "") <> "" /\
  has_nul (Py.strip (get_or post "username" "")) = false /\
  validate_email (Py.strip (get_or post "username" "")) = true /\
  Py.strip (get_or post "password" "") <> "" /\
  has_nul (Py.strip (get_or post "password" "")) = false /\
  exists u,
    authenticate rows (Py.strip (get_or post "username" ""))
      (Py.strip (get_or post "password" "")) = Some u /\
    is_active u = true.
Proof.
  unfold CustomAuthenticationForm_is_valid.
  set (cd1 := [ ("username", Py.strip (get_or post "username" ""));
                ("password", Py.strip (get_or post "password" ""));
                ("remember_me", get_or post "remember_me" "") ]).
  destruct (clean_fields field_clean authentication_fields post) as [cd0 |] eqn:F.
  - apply authentication_fields_cleaned in F.
    destruct F as (-> & He & Hne & Hve & Hp & Hnp). fold cd1.
    assert (G1 : get_or cd1 "username" "" = Py.strip (get_or post "username" ""))
      by reflexivity.
    assert (G2 : get_or cd1 "password" "" = Py.strip (get_or post "password" ""))
      by reflexivity.
    assert (T : truthy_opt (Py.dict_get cd1 "username") &&
                truthy_opt (Py.dict_get cd1 "password") = true).
    { change (Py.truthy (Py.strip (get_or post "username" "")) &&
              Py.truthy (Py.strip (get_or post "password" "")) = true).
      now rewrite (truthy_nonempty _ He), (truthy_nonempty _ Hp). }
    rewrite T, G1, G2.
    destruct (authenticate rows _ _) as [u |] eqn:A.
    + destruct (is_active u) eqn:Act.
      * split.
        -- intro E. inversion E. repeat split; auto. now exists u.
        -- intros [-> _]. reflexivity.
      * split; [discriminate |].
        intros (_ & _ & _ & _ & _ & _ & u' & Hu' & Hact'). congruence.
    + split; [discriminate |].
      intros (_ & _ & _ & _ & _ & _ & u' & Hu' & _). discriminate Hu'.
  - split; [discriminate |].
    intros (Hcd & He & Hne & Hve & Hp & Hnp & _).
    assert (X : clean_fields field_clean authentication_fields post = Some cd1).
    { apply authentication_fields_cleaned. repeat split; auto. }
    congruence.
Qed.

Lemma authentication_form_valid `{Django} (rows : list User)
    (post cd : list (string * string)) :
  CustomAuthenticationForm_is_valid rows post = Some cd ->
  exists u,
    authenticate rows (get_or cd "username" "") (get_or cd "password" "") = Some u /\
    is_active u = true.
Proof.
  intro V. apply authentication_form_valid_full in V.
  destruct V as (-> & _ & _ & _ & _ & _ & u & Hu & Hact).
  exists u. split; [exact Hu | exact Hact].
Qed.

Lemma stored_row_found (rows : list User) (u : User) :
  In u rows -> existsb (model_eq u) rows = true.
Proof.
  intro Hin. apply existsb_exists. exists u. split; [exact Hin |].
  unfold model_eq. apply Z.eqb_refl.
Qed.

(** The rows after a login of [u]. *)
Lemma login_view_success `{Django} (env : Env) (request : Request) (w : World)
    (cd : list (string * string)) :
  user request = None ->
  method request = "POST" ->
  CustomAuthenticationForm_is_valid (users w) (POST request) = Some cd ->
  exists u,
    authenticate (users w) (get_or cd "username" "") (get_or cd "password" "") = Some u /\
    is_active u = true /\
    In u (users w) /\
    login_view env request w =
      Returned (login_redirect u)
        (mkWorld
           (map (fun r => if model_eq r u then set_last_login (Some (now env)) r else r)
              (users w))
           (activity w ++
              [mkLog (id u) "USER_LOGIN" (REMOTE_ADDR request)
                 (match HTTP_USER_AGENT request with Some a => a | None => "" end)
                 (now env) []])
           (auth_groups w)
           (flash w ++ [(SUCCESS, "Welcome back, " ++ get_full_name u ++ "!")])
           (Some (id u))).
Proof.
  intros Hanon Hpost Hvalid.
  destruct (authentication_form_valid (users w) (POST request) cd Hvalid) as [u [Hu Hact]].
  pose proof (authenticate_stored _ _ _ _ Hu) as Hin.
  exists u. split; [exact Hu | split; [exact Hact | split; [exact Hin |]]].
  unfold login_view, is_authenticated. rewrite Hanon, Hpost, String.eqb_refl.
  unfold bind, get_world. rewrite Hvalid, Hu.
  unfold login, update_last_login, bind.
  rewrite (stored_row_found _ _ Hin). reflexivity.
Qed.

Lemma login_view_failure `{Django} (env : Env) (request : Request) (w : World) :
  user request = None ->
  method request = "POST" ->
  CustomAuthenticationForm_is_valid (users w) (POST request) = None ->
  login_view env request w =
    Returned (Render "accounts/login.html" (FormContext true))
      (mkWorld (users w) (activity w) (auth_groups w)
         (flash w ++ [(ERROR, "Invalid email or password.")]) (session w)).
Proof.
  intros Hanon Hpost Hinvalid.
  unfold login_view, is_authenticated. rewrite Hanon, Hpost, String.eqb_refl.
  unfold bind, get_world. rewrite Hinvalid. reflexivity.
Qed.

(** C7. A login is a POST of the login form by a client that is not
    logged in; it succeeds when the form validates, and fails otherwise.
    After a successful login the session belongs to the authenticated user
    and the redirect depends on that user's role alone: INITIATOR goes to
    requisition creation, CHIEF_OFFICER to the pending approvals,
    COUNTY_SECRETARY to the pending endorsements, CPSB_BOARD to the board
    approvals, HR_SECRETARIAT to the candidate shortlist, and every other
    role to the dashboard.  Every failed login shows the login form again
    with the same message, "Invalid email or password.", and changes
    nothing else. *)
Theorem login_redirect_by_role :
  forall (dj : Django) (env : Env) (request : Request) (w : World),
    user request = None ->
    method request = "POST" ->
    (forall cd,
        CustomAuthenticationForm_is_valid (users w) (POST request) = Some cd ->
        exists u,
          authenticate (users w) (get_or cd "username" "") (get_or cd "password" "")
            = Some u /\
          session (final_world (login_view env request w)) = Some (id u) /\
          (role u = "INITIATOR" ->
           response_of (login_view env request w) = Some (Redirect "requisitions:create")) /\
          (role u = "CHIEF_OFFICER" ->
           response_of (login_view env request w) =
             Some (Redirect "requisitions:pending_approvals")) /\
          (role u = "COUNTY_SECRETARY" ->
           response_of (login_view env request w) =
             Some (Redirect "requisitions:pending_endorsements")) /\
          (role u = "CPSB_BOARD" ->
           response_of (login_view env request w) =
             Some (Redirect "requisitions:board_approvals")) /\
          (role u = "HR_SECRETARIAT" ->
           response_of (login_view env request w) = Some (Redirect "candidates:shortlist")) /\
          (~ In (role u) ["INITIATOR"; "CHIEF_OFFICER"; "COUNTY_SECRETARY";
                          "CPSB_BOARD"; "HR_SECRETARIAT"] ->
           response_of (login_view env request w) = Some (Redirect "core:dashboard"))) /\
    (CustomAuthenticationForm_is_valid (users w) (POST request) = None ->
     login_view env request w =
       Returned (Render "accounts/login.html" (FormContext true))
         (mkWorld (users w) (activity w) (auth_groups w)
            (flash w ++ [(ERROR, "Invalid email or password.")]) (session w))).
Proof.
  intros dj env request w Hanon Hpost. split.
  - intros cd Hvalid.
    destruct (login_view_success env request w cd Hanon Hpost Hvalid)
      as [u [Hu [_ [_ Hrun]]]].
    exists u. rewrite Hrun. cbn [final_world session response_of].
    split; [exact Hu | split; [reflexivity |]].
    unfold login_redirect.
    repeat split; try (intro E; rewrite E; reflexivity).
    intro Hother.
    repeat match goal with
           | |- context [(role u =? ?k)] =>
               destruct (String.eqb_spec (role u) k) as [E | _];
               [exfalso; apply Hother; rewrite E; simpl; tauto |]
           end.
    reflexivity.
  - apply login_view_failure; assumption.
Qed.

Lemma login_redirect_by_role_witness :
  response_of
    (@login_view Samples.plain_django Samples.env0
       (Samples.request_of "/accounts/login/" "POST" None [] Samples.login_form) Samples.world0)
    = Some (Redirect "requisitions:create") /\
  response_of
    (@login_view Samples.plain_django Samples.env0
       (Samples.request_of "/accounts/login/" "POST" None [] [("username", "amani@savanna.go.ke")])
       Samples.world0)
    = Some (Render "accounts/login.html" (FormContext true)).
Proof.
  split.
  - destruct (login_redirect_by_role Samples.plain_django Samples.env0
                (Samples.request_of "/accounts/login/" "POST" None [] Samples.login_form) Samples.world0
                eq_refl eq_refl) as [Hok _].
    destruct (Hok [("username", "amani@savanna.go.ke"); ("password", "pa55");
                   ("remember_me", "")] eq_refl)
      as [u [Hu [_ [Hinitiator _]]]].
    apply Hinitiator.
    vm_compute in Hu. inversion Hu. reflexivity.
  - destruct (login_redirect_by_role Samples.plain_django Samples.env0
                (Samples.request_of "/accounts/login/" "POST" None [] [("username", "amani@savanna.go.ke")])
                Samples.world0 eq_refl eq_refl) as [_ Hfail].
    rewrite (Hfail eq_refl). reflexivity.
Defined.

(** C8, as amended. Every successful login appends exactly one entry to
    the activity log; the entry has action "USER_LOGIN", belongs to the
    user who logged in and carries the time of the login.  It is therefore
    not earlier than a previous entry of that user exactly when that entry
    is not stamped later than the time of the login. *)
Theorem login_appends_one_entry :
  forall (dj : Django) (env : Env) (request : Request) (w : World)
         (cd : list (string * string)),
    user request = None ->
    method request = "POST" ->
    CustomAuthenticationForm_is_valid (users w) (POST request) = Some cd ->
    exists u entry,
      authenticate (users w) (get_or cd "username" "") (get_or cd "password" "") = Some u /\
      activity (final_world (login_view env request w)) = (activity w ++ [entry])%list /\
      action entry = "USER_LOGIN" /\
      log_user entry = id u /\
      timestamp entry = now env /\
      (forall previous,
          In previous (activity w) -> log_user previous = id u ->
          ((timestamp previous <= timestamp entry)%Z <->
           (timestamp previous <= now env)%Z)).
Proof.
  intros dj env request w cd Hanon Hpost Hvalid.
  destruct (login_view_success env request w cd Hanon Hpost Hvalid)
    as [u [Hu [_ [_ Hrun]]]].
  exists u. eexists. rewrite Hrun. cbn [final_world activity].
  split; [exact Hu | split; [reflexivity |]].
  cbn [action log_user timestamp]. repeat split; auto.
Qed.

Lemma login_appends_one_entry_witness :
  exists entry,
    activity
      (final_world
         (@login_view Samples.plain_django Samples.env0
            (Samples.request_of "/accounts/login/" "POST" None [] Samples.login_form) Samples.world0))
      = [Samples.earlier_login; entry] /\
    action entry = "USER_LOGIN" /\
    log_user entry = 2%Z /\
    (timestamp Samples.earlier_login <= timestamp entry)%Z.
Proof.
  destruct (login_appends_one_entry Samples.plain_django Samples.env0
              (Samples.request_of "/accounts/login/" "POST" None [] Samples.login_form) Samples.world0
              [("username", "amani@savanna.go.ke"); ("password", "pa55");
               ("remember_me", "")] eq_refl eq_refl eq_refl)
    as [u [entry [Hu [Hlog [Hact [Howner [_ Hlater]]]]]]].
  vm_compute in Hu. inversion Hu. subst u.
  exists entry. split; [exact Hlog | split; [exact Hact | split; [exact Howner |]]].
  apply (Hlater Samples.earlier_login); [now left | reflexivity |].
  vm_compute. discriminate.
Defined.

(** C8, as stated, fails.  The entry of a login is stamped with the clock
    reading of the login, whatever the log holds: in a store whose log has
    an entry of the user stamped 5000, a login at clock reading 1000 appends
    an entry stamped 1000, earlier than the user's previous entry. *)
Lemma login_entry_can_precede_the_previous_one :
  exists entry,
    activity
      (final_world
         (@login_view Samples.plain_django Samples.env0
            (Samples.request_of "/accounts/login/" "POST" None [] Samples.login_form)
            MoreSamples.world_ahead))
      = [MoreSamples.later_login; entry] /\
    action entry = "USER_LOGIN" /\
    log_user entry = log_user MoreSamples.later_login /\
    (timestamp entry < timestamp MoreSamples.later_login)%Z.
Proof.
  eexists. split; [reflexivity |]. repeat split.
Qed.

(* ------------------------------------------------------------------ *)
(** ** Logging in and out *)

Lemma last_login_keeps_access_columns (rows : list User) (c : User -> bool)
    (t : option Z) :
  map Invariants.access_columns
      (map (fun r => if c r then set_last_login t r else r) rows) =
    map Invariants.access_columns rows.
Proof.
  rewrite map_map. apply map_ext. intro r. now destruct (c r).
Qed.

(** X11. [login_view] opens a session only for an account whose
    credentials authenticate and which is active, and it leaves alone what
    identifies and authorises the users.  For every request the group table
    is unchanged and every row keeps its key, e-mail address, national ID,
    role, [is_active] flag and groups.  Either the session and the activity
    log are exactly as before, or the request is a POST without a session,
    the submitted e-mail address and password, with the whitespace around
    them stripped, authenticate an active user of the table, the session
    now belongs to that user, the log has gained one "USER_LOGIN" entry of
    that user, and [last_login] of the user's row is the time of the
    login. *)
Theorem login_view_session_safety :
  forall (dj : Django) (env : Env) (request : Request) (w : World),
    auth_groups (final_world (login_view env request w)) = auth_groups w /\
    map Invariants.access_columns (users (final_world (login_view env request w))) =
      map Invariants.access_columns (users w) /\
    ((session (final_world (login_view env request w)) = session w /\
      activity (final_world (login_view env request w)) = activity w) \/
     (exists u,
         user request = None /\
         method request = "POST" /\
         authenticate (users w) (Py.strip (get_or (POST request) "username" ""))
           (Py.strip (get_or (POST request) "password" "")) = Some u /\
         is_active u = true /\
         In u (users w) /\
         session (final_world (login_view env request w)) = Some (id u) /\
         activity (final_world (login_view env request w)) =
           (activity w ++
              [mkLog (id u) "USER_LOGIN" (REMOTE_ADDR request)
                 (match HTTP_USER_AGENT request with Some a => a | None => "" end)
                 (now env) []])%list /\
         (forall r, In r (users (final_world (login_view env request w))) ->
                    id r = id u -> last_login r = Some (now env)))).
Proof.
  intros dj env request w.
  destruct (user request) as [who |] eqn:Hu.
  { unfold login_view, is_authenticated. rewrite Hu. cbn. auto. }
  destruct (method request =? "POST") eqn:Hm.
  2:{ unfold login_view, is_authenticated. rewrite Hu, Hm. cbn. auto. }
  apply String.eqb_eq in Hm.
  destruct (CustomAuthenticationForm_is_valid (users w) (POST request)) as [cd |] eqn:Hv.
  - destruct (login_view_success env request w cd Hu Hm Hv)
      as [u [Hauth [Hact [Hin Hrun]]]].
    apply authentication_form_valid_full in Hv. destruct Hv as [Hcd _]. subst cd.
    change (authenticate (users w) (Py.strip (get_or (POST request) "username" ""))
              (Py.strip (get_or (POST request) "password" "")) = Some u) in Hauth.
    rewrite Hrun. cbn [final_world users auth_groups session activity].
    split; [reflexivity |].
    split; [apply last_login_keeps_access_columns |].
    right. exists u. repeat split; auto.
    intros r Hr Hid. apply in_map_iff in Hr. destruct Hr as [r0 [Hr0 _]].
    unfold model_eq in Hr0. destruct (id r0 =? id u)%Z eqn:E.
    + now subst r.
    + subst r. apply Z.eqb_neq in E. contradiction.
  - rewrite (login_view_failure env request w Hu Hm Hv).
    cbn [final_world users auth_groups session activity]. auto.
Qed.

(** X12. What login turns away.  A POST of the login form without a
    session is answered with the login form and the one message "Invalid
    email or password.", and opens no session and writes no log entry,
    whenever, the whitespace around the two submitted texts being stripped,
    the e-mail address or the password is empty or holds the character of
    code point 0, the address does not pass the e-mail validators, the
    credentials do not authenticate, or they authenticate an account that
    is not active. *)
Theorem login_rejections :
  forall (dj : Django) (env : Env) (request : Request) (w : World),
    user request = None ->
    method request = "POST" ->
    Py.strip (get_or (POST request) "username" "") = "" \/
    has_nul (Py.strip (get_or (POST request) "username" "")) = true \/
    validate_email (Py.strip (get_or (POST request) "username" "")) = false \/
    Py.strip (get_or (POST request) "password" "") = "" \/
    has_nul (Py.strip (get_or (POST request) "password" "")) = true \/
    authenticate (users w) (Py.strip (get_or (POST request) "username" ""))
      (Py.strip (get_or (POST request) "password" "")) = None \/
    (exists u,
        authenticate (users w) (Py.strip (get_or (POST request) "username" ""))
          (Py.strip (get_or (POST request) "password" "")) = Some u /\
        is_active u = false) ->
    login_view env request w =
      Returned (Render "accounts/login.html" (FormContext true))
        (mkWorld (users w) (activity w) (auth_groups w)
           (flash w ++ [(ERROR, "Invalid email or password.")]) (session w)).
Proof.
  intros dj env request w Hanon Hpost Hbad.
  apply login_view_failure; auto.
  destruct (CustomAuthenticationForm_is_valid (users w) (POST request)) as [cd |] eqn:Hv;
    [| reflexivity].
  exfalso. apply authentication_form_valid_full in Hv.
  destruct Hv as (_ & He & Hne & Hve & Hp & Hnp & u & Hu & Hact).
  destruct Hbad as [H0 | [H0 | [H0 | [H0 | [H0 | [H0 | [u' [H0 H1]]]]]]]];
    congruence.
Qed.

Lemma login_rejections_witness :
  (let request :=
     Samples.request_of "/accounts/login/" "POST" None []
       [("username", "kip@savanna.go.ke"); ("password", "k1p")] in
   session (final_world (@login_view MoreSamples.lenient_django Samples.env0 request
                           MoreSamples.world1)) = session MoreSamples.world1 /\
   response_of (@login_view MoreSamples.lenient_django Samples.env0 request
                  MoreSamples.world1) =
     Some (Render "accounts/login.html" (FormContext true))) /\
  (let request :=
     Samples.request_of "/accounts/login/" "POST" None []
       [("username", "amani@savanna.go.ke"); ("password", "   ")] in
   activity (final_world (@login_view Samples.plain_django Samples.env0 request
                            Samples.world0)) = activity Samples.world0).
Proof.
  split.
  - cbv zeta.
    rewrite (login_rejections MoreSamples.lenient_django Samples.env0
               (Samples.request_of "/accounts/login/" "POST" None []
                  [("username", "kip@savanna.go.ke"); ("password", "k1p")])
               MoreSamples.world1 eq_refl eq_refl).
    + split; reflexivity.
    + do 6 right. exists MoreSamples.kip. split; reflexivity.
  - cbv zeta.
    rewrite (login_rejections Samples.plain_django Samples.env0
               (Samples.request_of "/accounts/login/" "POST" None []
                  [("username", "amani@savanna.go.ke"); ("password", "   ")])
               Samples.world0 eq_refl eq_refl).
    + reflexivity.
    + do 3 right. left. reflexivity.
Defined.

Lemma logout_view_runs `{Django} (env : Env) (request : Request) (w : World) (u : User) :
  user request = Some u ->
  logout_view env request w =
    Returned (Redirect "accounts:login")
      (mkWorld (users w)
         (activity w ++
            [mkLog (id u) "USER_LOGOUT" (REMOTE_ADDR request)
               (match HTTP_USER_AGENT request with Some a => a | None => "" end)
               (now env) []])
         (auth_groups w)
         (flash w ++ [(SUCCESS, "You have been successfully logged out.")])
         None).
Proof.
  intro Hu. unfold logout_view.
  rewrite (login_required_admits _ request w u Hu).
  rewrite Hu. reflexivity.
Qed.

(** X13. Logging out ends the session and is recorded.  For a logged-in
    user, [logout_view] appends one "USER_LOGOUT" entry of that user with
    the current time, clears the session, changes no user row and no group,
    and redirects to the login page; without a session it only redirects
    to the login URL.  Hence after a successful login followed by the
    logout of the same user there is no session, and the log has gained a
    "USER_LOGIN" and then a "USER_LOGOUT" entry of that user. *)
Theorem logout_ends_the_session :
  forall (dj : Django) (env : Env) (request : Request) (w : World),
    (forall u,
        user request = Some u ->
        response_of (logout_view env request w) = Some (Redirect "accounts:login") /\
        session (final_world (logout_view env request w)) = None /\
        users (final_world (logout_view env request w)) = users w /\
        auth_groups (final_world (logout_view env request w)) = auth_groups w /\
        activity (final_world (logout_view env request w)) =
          (activity w ++
             [mkLog (id u) "USER_LOGOUT" (REMOTE_ADDR request)
                (match HTTP_USER_AGENT request with Some a => a | None => "" end)
                (now env) []])%list) /\
    (user request = None ->
     logout_view env request w =
       Returned (Redirect (LOGIN_URL ++ "?next=" ++ path request)) w) /\
    (forall env0 request0 w0 cd,
        user request0 = None ->
        method request0 = "POST" ->
        CustomAuthenticationForm_is_valid (users w0) (POST request0) = Some cd ->
        w = final_world (login_view env0 request0 w0) ->
        exists u e1 e2,
          session w = Some (id u) /\
          (user request = Some u ->
           session (final_world (logout_view env request w)) = None /\
           activity (final_world (logout_view env request w)) =
             (activity w0 ++ [e1; e2])%list /\
           log_user e1 = id u /\ action e1 = "USER_LOGIN" /\
           log_user e2 = id u /\ action e2 = "USER_LOGOUT")).
Proof.
  intros dj env request w. split; [| split].
  - intros u Hu. rewrite (logout_view_runs env request w u Hu).
    cbn [response_of final_world session users auth_groups activity]. auto.
  - intro Hu. unfold logout_view. now apply login_required_denies.
  - intros env0 request0 w0 cd Hanon Hpost Hvalid Hw.
    destruct (login_view_success env0 request0 w0 cd Hanon Hpost Hvalid)
      as [u [_ [_ [_ Hrun]]]].
    rewrite Hrun in Hw. cbn [final_world] in Hw.
    exists u. do 2 eexists. split; [subst w; reflexivity |].
    intro Hu. rewrite (logout_view_runs env request w u Hu).
    cbn [final_world session activity]. subst w. cbn [activity].
    rewrite <- app_assoc. cbn [app].
    repeat split.
Qed.

Lemma logout_ends_the_session_witness :
  let logged_in :=
    final_world
      (@login_view Samples.plain_django Samples.env0
         (Samples.request_of "/accounts/login/" "POST" None [] Samples.login_form)
         Samples.world0) in
  let request :=
    Samples.request_of "/accounts/logout/" "POST" (Some Samples.amani) [] [] in
  session logged_in = Some 2%Z /\
  session (final_world (@logout_view Samples.plain_django Samples.env0 request logged_in))
    = None /\
  map action
    (activity (final_world
                 (@logout_view Samples.plain_django Samples.env0 request logged_in))) =
    ["USER_LOGIN"; "USER_LOGIN"; "USER_LOGOUT"].
Proof.
  cbv zeta.
  destruct (logout_ends_the_session Samples.plain_django Samples.env0
              (Samples.request_of "/accounts/logout/" "POST" (Some Samples.amani) [] [])
              (final_world
                 (@login_view Samples.plain_django Samples.env0
                    (Samples.request_of "/accounts/login/" "POST" None []
                       Samples.login_form)
                    Samples.world0)))
    as [Hout _].
  destruct (Hout Samples.amani eq_refl) as [_ [Hsession [_ [_ Hlog]]]].
  split; [reflexivity |]. split; [exact Hsession |].
  rewrite Hlog. reflexivity.
Defined.

(* ------------------------------------------------------------------ *)

(* ------------------------------------------------------------------ *)
(** ** Saving a user *)

Lemma row_to_save_columns (env : Env) (u : User) :
  id (row_to_save env u) = id u /\
  is_active (row_to_save env u) = is_active u /\
  Invariants.identity_columns (row_to_save env u) = Invariants.identity_columns u /\
  Invariants.contact_columns (row_to_save env u) = Invariants.contact_columns u /\
  last_activity (row_to_save env u) = now env /\
  last_login (row_to_save env u) = last_login u /\
  uuid (row_to_save env u) = uuid u.
Proof.
  unfold row_to_save. destruct (has_employee_id u); repeat split.
Qed.

Lemma row_to_save_employee_id (env : Env) (u : User) :
  employee_id (row_to_save env u) =
    if has_employee_id u then employee_id u else Some (employee_number env).
Proof.
  unfold row_to_save. now destruct (has_employee_id u).
Qed.

Lemma employee_number_nonempty (env : Env) : employee_number env <> "".
Proof. discriminate. Qed.

Lemma row_to_save_has_employee_id (env : Env) (u : User) :
  has_employee_id (row_to_save env u) = true.
Proof.
  unfold has_employee_id at 1. rewrite row_to_save_employee_id.
  destruct (has_employee_id u) eqn:E; [exact E | reflexivity].
Qed.

Lemma has_employee_id_iff (u : User) :
  has_employee_id u = true <-> exists e, employee_id u = Some e /\ e <> "".
Proof.
  unfold has_employee_id. destruct (employee_id u) as [e |].
  - rewrite truthy_iff. split.
    + intro H. now exists e.
    + intros [e' [E H]]. now inversion E; subst.
  - split; [discriminate | intros [e [E _]]; discriminate E].
Qed.

Lemma User_save_cases (env : Env) (u : User) (w : World) :
  User_save env u w =
    if unique_violation (row_to_save env u) (users w) then Raised IntegrityError w
    else Returned (row_to_save env u)
           (set_users (write_row (row_to_save env u) (users w)) w).
Proof. reflexivity. Qed.

Lemma write_row_stored (u : User) (rows : list User) :
  existsb (model_eq u) rows = true ->
  write_row u rows = map (fun r => if (id r =? id u)%Z then u else r) rows.
Proof. intro E. unfold write_row. now rewrite E. Qed.

Lemma existsb_model_eq_id (u v : User) (rows : list User) :
  id u = id v -> existsb (model_eq u) rows = existsb (model_eq v) rows.
Proof. intro E. unfold model_eq. now rewrite E. Qed.

(** A violation names a row with another key that holds one of the
    unique values. *)
Lemma unique_violation_iff (u : User) (rows : list User) :
  unique_violation u rows = true <->
  exists r, In r rows /\ id r <> id u /\
            (email r = email u \/ national_id r = national_id u \/
             (exists e, employee_id r = Some e /\ employee_id u = Some e) \/
             uuid r = uuid u).
Proof.
  unfold unique_violation. rewrite existsb_exists.
  split.
  - intros [r [Hr H]]. exists r. split; [exact Hr |].
    apply andb_true_iff in H. destruct H as [Hk Hc].
    unfold model_eq in Hk. apply negb_true_iff, Z.eqb_neq in Hk.
    split; [exact Hk |].
    rewrite !orb_true_iff in Hc.
    destruct Hc as [[[Hc | Hc] | Hc] | Hc].
    + left. now apply String.eqb_eq.
    + right. left. now apply String.eqb_eq.
    + right. right. left. unfold same_employee_id in Hc.
      destruct (employee_id r) as [x |]; [| discriminate].
      destruct (employee_id u) as [y |]; [| discriminate].
      apply String.eqb_eq in Hc. subst. now exists y.
    + right. right. right. now apply Z.eqb_eq.
  - intros [r [Hr [Hk Hc]]]. exists r. split; [exact Hr |].
    apply andb_true_iff. split.
    + unfold model_eq. now apply negb_true_iff, Z.eqb_neq.
    + rewrite !orb_true_iff.
      destruct Hc as [Hc | [Hc | [[e [H1 H2]] | Hc]]].
      * left. left. left. now apply String.eqb_eq.
      * left. left. right. now apply String.eqb_eq.
      * left. right. unfold same_employee_id. rewrite H1, H2. apply String.eqb_refl.
      * right. now apply Z.eqb_eq.
Qed.

(** Saving a stored row that already has its employee number cannot
    violate a constraint of a table that meets its constraints. *)
Lemma stored_row_saves (env : Env) (u stored : User) (rows : list User) :
  Invariants.unique_columns rows ->
  In stored rows ->
  id u = id stored ->
  email u = email stored ->
  national_id u = national_id stored ->
  employee_id u = employee_id stored ->
  uuid u = uuid stored ->
  has_employee_id u = true ->
  unique_violation (row_to_save env u) rows = false.
Proof.
  intros Huniq Hin Hid Hemail Hnid Hemp Huuid Hhas.
  destruct (unique_violation (row_to_save env u) rows) eqn:V; [| reflexivity].
  exfalso. apply unique_violation_iff in V.
  destruct V as [r [Hr [Hk Hc]]].
  destruct (row_to_save_columns env u) as (Rid & _ & Rident & _ & _ & _ & Ruuid).
  pose proof (row_to_save_employee_id env u) as Remp. rewrite Hhas in Remp.
  assert (Remail : email (row_to_save env u) = email u).
  { unfold Invariants.identity_columns in Rident. now inversion Rident. }
  assert (Rnid : national_id (row_to_save env u) = national_id u).
  { unfold Invariants.identity_columns in Rident. now inversion Rident. }
  rewrite Rid, Hid in Hk.
  destruct (Huniq r stored Hr Hin Hk) as (U1 & U2 & U3 & U4).
  destruct Hc as [Hc | [Hc | [[e [H1 H2]] | Hc]]].
  - apply U1. congruence.
  - apply U2. congruence.
  - apply (U4 e H1). congruence.
  - apply U3. congruence.
Qed.



(** X2. The employee number is drawn once, and without a retry.  The
    first save of a user without a number hands over "SAV", the year and
    the random draw; a user who has a number keeps it; and saving the saved
    row again, in another year and with another draw, leaves the number as
    it is.  When the row clashes with no other row the save returns it.
    When another user already holds the number drawn for a user without
    one, the save raises [IntegrityError] and stores nothing. *)
Theorem employee_id_assigned_once :
  forall (env env2 : Env) (u : User) (w : World),
    (exists e, employee_id (row_to_save env u) = Some e /\ e <> "") /\
    (forall e, employee_id u = Some e -> e <> "" ->
               employee_id (row_to_save env u) = Some e) /\
    (employee_id u = None \/ employee_id u = Some "" ->
     employee_id (row_to_save env u) =
       Some ("SAV" ++ Py.str_of_Z (year env) ++ Py.str_of_Z (randint env))) /\
    employee_id (row_to_save env2 (row_to_save env u)) =
      employee_id (row_to_save env u) /\
    (unique_violation (row_to_save env u) (users w) = false ->
     exists w1, User_save env u w = Returned (row_to_save env u) w1) /\
    (has_employee_id u = false ->
     (exists r, In r (users w) /\ id r <> id u /\
                employee_id r = Some (employee_number env)) ->
     User_save env u w = Raised IntegrityError w).
Proof.
  intros env env2 u w.
  split.
  { apply has_employee_id_iff, row_to_save_has_employee_id. }
  split.
  { intros e He Hne. rewrite row_to_save_employee_id.
    assert (H : has_employee_id u = true)
      by (apply has_employee_id_iff; now exists e).
    now rewrite H. }
  split.
  { intros Hu. rewrite row_to_save_employee_id.
    assert (H : has_employee_id u = false).
    { unfold has_employee_id. destruct Hu as [-> | ->]; reflexivity. }
    now rewrite H. }
  split.
  { rewrite (row_to_save_employee_id env2).
    now rewrite row_to_save_has_employee_id. }
  split.
  { intro V. rewrite User_save_cases, V. eexists. reflexivity. }
  intros Hnone [r [Hr [Hk He]]].
  rewrite User_save_cases.
  assert (V : unique_violation (row_to_save env u) (users w) = true).
  { apply unique_violation_iff. exists r. split; [exact Hr |].
    destruct (row_to_save_columns env u) as (Hid & _).
    rewrite Hid. split; [exact Hk |].
    right. right. left. exists (employee_number env). split; [exact He |].
    rewrite row_to_save_employee_id. now rewrite Hnone. }
  now rewrite V.
Qed.

Lemma employee_id_assigned_once_witness :
  employee_id (row_to_save Samples.env0 MoreSamples.kip) = Some "SAV20264321" /\
  employee_id (row_to_save Samples.env0 Samples.joy) = Some "SAV20253000" /\
  User_save Samples.env0 MoreSamples.kip MoreSamples.world2 =
    Raised IntegrityError MoreSamples.world2.
Proof.
  destruct (employee_id_assigned_once Samples.env0 Samples.env0 MoreSamples.kip
              MoreSamples.world2) as (_ & _ & Hdraw & _ & _ & Hclash).
  destruct (employee_id_assigned_once Samples.env0 Samples.env0 Samples.joy
              MoreSamples.world2) as (_ & Hkeep & _).
  split; [apply Hdraw; now left |].
  split; [apply (Hkeep "SAV20253000"); [reflexivity | discriminate] |].
  apply Hclash; [reflexivity |].
  exists MoreSamples.zuri. split; [simpl; tauto |].
  split; [discriminate | reflexivity].
Defined.

(* ------------------------------------------------------------------ *)
(** ** The activation toggle *)

Lemma toggle_body_self (env : Env) (k : Z) (request : Request) (w : World)
    (actor target : User) :
  user request = Some actor ->
  method request = "POST" ->
  find (fun u => (id u =? k)%Z) (users w) = Some target ->
  id actor = k ->
  toggle_user_active_body env k request w =
    Returned (Redirect "accounts:user_management")
      (mkWorld (users w) (activity w) (auth_groups w)
         (flash w ++ [(ERROR, "You cannot deactivate your own account!")])
         (session w)).
Proof.
  intros Hactor Hpost Hfind Hself.
  destruct (find_by_id _ _ _ Hfind) as [_ Hid].
  unfold toggle_user_active_body. rewrite Hpost, String.eqb_refl, Hactor.
  unfold bind, try_except, User_objects_get. rewrite Hfind.
  unfold model_eq. rewrite Hid, Hself, Z.eqb_refl. reflexivity.
Qed.

(** The toggle of another stored user: the save either raises or goes
    through, and the rest of the body follows it. *)
Lemma toggle_body_other (env : Env) (k : Z) (request : Request) (w : World)
    (actor target : User) :
  user request = Some actor ->
  method request = "POST" ->
  find (fun u => (id u =? k)%Z) (users w) = Some target ->
  id actor <> k ->
  toggle_user_active_body env k request w =
    if unique_violation
         (row_to_save env (set_is_active (negb (is_active target)) target)) (users w)
    then Raised IntegrityError w
    else
      Returned (Redirect "accounts:user_management")
        (mkWorld
           (map (fun r => if (id r =? k)%Z
                          then row_to_save env
                                 (set_is_active (negb (is_active target)) target)
                          else r) (users w))
           (activity w ++
              [mkLog (id actor)
                 (if is_active target then "USER_DEACTIVATED" else "USER_ACTIVATED")
                 (REMOTE_ADDR request)
                 (match HTTP_USER_AGENT request with Some a => a | None => "" end)
                 (now env) [("target_user", email target)]])
           (auth_groups w)
           (flash w ++
              [(SUCCESS, "User " ++ get_full_name target ++ " " ++
                         (if is_active target then "deactivated" else "activated") ++
                         " successfully!")])
           (session w)).
Proof.
  intros Hactor Hpost Hfind Hother.
  destruct (find_by_id _ _ _ Hfind) as [Hin Hid].
  set (saved := row_to_save env (set_is_active (negb (is_active target)) target)).
  destruct (row_to_save_columns env (set_is_active (negb (is_active target)) target))
    as (Sid & Sact & Sident & Scontact & _).
  fold saved in Sid, Sact, Sident, Scontact.
  cbn [set_is_active id is_active] in Sid, Sact.
  change (Invariants.identity_columns (set_is_active (negb (is_active target)) target))
    with (Invariants.identity_columns target) in Sident.
  change (Invariants.contact_columns (set_is_active (negb (is_active target)) target))
    with (Invariants.contact_columns target) in Scontact.
  unfold toggle_user_active_body. rewrite Hpost, String.eqb_refl, Hactor.
  unfold bind, try_except, User_objects_get. rewrite Hfind.
  unfold model_eq. rewrite Hid.
  assert (Hneq : (k =? id actor)%Z = false) by (apply Z.eqb_neq; congruence).
  rewrite Hneq, User_save_cases. fold saved.
  destruct (unique_violation saved (users w)); [reflexivity |].
  assert (Hstored : existsb (model_eq saved) (users w) = true).
  { rewrite (existsb_model_eq_id saved target) by congruence.
    now apply stored_row_found. }
  rewrite (write_row_stored saved (users w) Hstored), Sid, Hid.
  unfold messages_add, UserActivityLog_objects_create, ret, set_users.
  cbn [users activity auth_groups flash session].
  assert (Hname : get_full_name saved = get_full_name target).
  { unfold get_full_name. unfold Invariants.contact_columns in Scontact.
    now inversion Scontact. }
  assert (Hemail : email saved = email target).
  { unfold Invariants.identity_columns in Sident. now inversion Sident. }
  rewrite Hname, Hemail, Sact.
  destruct (is_active target); reflexivity.
Qed.

Lemma toggle_admitted `{Django} (env : Env) (k : Z) (request : Request) (w : World)
    (actor : User) :
  user request = Some actor ->
  In (role actor) ["HR_ADMIN"; "CPSB_SECRETARIAT"] ->
  toggle_user_active env k request w = toggle_user_active_body env k request w.
Proof.
  intros Hactor Hrole. unfold toggle_user_active.
  rewrite (login_required_admits _ request w actor Hactor).
  apply (role_required_admits _ _ _ request w actor Hactor Hrole).
Qed.

(** C2, as amended. For every POST request to the toggle by an
    authenticated actor whose role is HR_ADMIN or CPSB_SECRETARIAT, and every
    stored target user: when the target is the actor, the request is
    rejected with the message "You cannot deactivate your own account!" and
    the user table and the activity log are unchanged.  Otherwise the view
    saves the target's row with [is_active] flipped and its key, e-mail
    address, role and groups as they were.  When the save goes through, the
    row replaces the target's (every row with another key is unchanged), a
    later lookup of the target finds it, and the response is the redirect to
    the user-management listing; it goes through whenever the target already
    has an employee number and the table meets its unique constraints.  When
    the row clashes with another row on a unique column, which the employee
    number drawn for a target without one can do, the view ends in
    [IntegrityError] and the store is as it was. *)
Theorem toggle_user_active_post :
  forall (dj : Django) (env : Env) (request : Request) (w : World)
         (actor : User) (target_id : Z) (target : User),
    user request = Some actor ->
    In (role actor) ["HR_ADMIN"; "CPSB_SECRETARIAT"] ->
    method request = "POST" ->
    find (fun u => (id u =? target_id)%Z) (users w) = Some target ->
    (id actor = target_id ->
     toggle_user_active env target_id request w =
       Returned (Redirect "accounts:user_management")
         (mkWorld (users w) (activity w) (auth_groups w)
            (flash w ++ [(ERROR, "You cannot deactivate your own account!")])
            (session w))) /\
    (id actor <> target_id ->
     let saved := row_to_save env (set_is_active (negb (is_active target)) target) in
     id saved = target_id /\
     is_active saved = negb (is_active target) /\
     email saved = email target /\
     role saved = role target /\
     groups saved = groups target /\
     (unique_violation saved (users w) = false ->
      response_of (toggle_user_active env target_id request w) =
        Some (Redirect "accounts:user_management") /\
      users (final_world (toggle_user_active env target_id request w)) =
        map (fun r => if (id r =? target_id)%Z then saved else r) (users w) /\
      find (fun u => (id u =? target_id)%Z)
           (users (final_world (toggle_user_active env target_id request w))) =
        Some saved) /\
     (has_employee_id target = true ->
      Invariants.unique_columns (users w) ->
      unique_violation saved (users w) = false) /\
     (unique_violation saved (users w) = true ->
      toggle_user_active env target_id request w = Raised IntegrityError w)).
Proof.
  intros dj env request w actor target_id target Hactor Hrole Hpost Hfind.
  rewrite (toggle_admitted env target_id request w actor Hactor Hrole).
  split.
  - intro Hself. now apply (toggle_body_self env target_id request w actor target).
  - intro Hother. cbv zeta.
    destruct (find_by_id _ _ _ Hfind) as [Hin Hid].
    destruct (row_to_save_columns env (set_is_active (negb (is_active target)) target))
      as (Sid & Sact & Sident & _).
    cbn [set_is_active id is_active] in Sid, Sact.
    change (Invariants.identity_columns (set_is_active (negb (is_active target)) target))
      with (Invariants.identity_columns target) in Sident.
    unfold Invariants.identity_columns in Sident.
    assert (He : email (row_to_save env (set_is_active (negb (is_active target)) target))
                 = email target) by now inversion Sident.
    assert (Hr : role (row_to_save env (set_is_active (negb (is_active target)) target))
                 = role target) by now inversion Sident.
    assert (Hg : groups (row_to_save env (set_is_active (negb (is_active target)) target))
                 = groups target) by now inversion Sident.
    rewrite (toggle_body_other env target_id request w actor target
               Hactor Hpost Hfind Hother).
    split; [congruence |]. split; [exact Sact |].
    split; [exact He |]. split; [exact Hr |]. split; [exact Hg |].
    split; [| split].
    + intros ->. cbn [response_of final_world users].
      repeat split.
      apply (find_after_update (users w) target_id target); [exact Hfind | congruence].
    + intros Hhas Huniq.
      apply (stored_row_saves env _ target (users w) Huniq Hin); try reflexivity.
      exact Hhas.
    + intros ->. reflexivity.
Qed.

Lemma toggle_user_active_post_witness :
  (let outcome :=
     @toggle_user_active Samples.plain_django Samples.env0 1
       (Samples.toggle_request "POST" (Some Samples.admin)) Samples.world0 in
   map is_active (users (final_world outcome)) = [true; true; true] /\
   flash (final_world outcome) = [(ERROR, "You cannot deactivate your own account!")]) /\
  (let outcome :=
     @toggle_user_active Samples.plain_django Samples.env0 3
       (Samples.toggle_request "POST" (Some Samples.admin)) Samples.world0 in
   exists saved,
     users (final_world outcome) = [Samples.admin; Samples.amani; saved] /\
     is_active saved = false) /\
  @toggle_user_active Samples.plain_django Samples.env0 4
    (Samples.toggle_request "POST" (Some Samples.admin)) MoreSamples.world2 =
    Raised IntegrityError MoreSamples.world2.
Proof.
  split; [| split].
  - destruct (toggle_user_active_post Samples.plain_django Samples.env0
                (Samples.toggle_request "POST" (Some Samples.admin)) Samples.world0
                Samples.admin 1 Samples.admin eq_refl (or_introl eq_refl) eq_refl eq_refl)
      as [Hself _].
    cbv zeta. rewrite (Hself eq_refl). split; reflexivity.
  - destruct (toggle_user_active_post Samples.plain_django Samples.env0
                (Samples.toggle_request "POST" (Some Samples.admin)) Samples.world0
                Samples.admin 3 Samples.joy eq_refl (or_introl eq_refl) eq_refl eq_refl)
      as [_ Hother].
    destruct Hother as (_ & Hact & _ & _ & _ & Hok & _); [discriminate |].
    destruct (Hok eq_refl) as (_ & Husers & _).
    eexists. split; [exact Husers | exact Hact].
  - destruct (toggle_user_active_post Samples.plain_django Samples.env0
                (Samples.toggle_request "POST" (Some Samples.admin)) MoreSamples.world2
                Samples.admin 4 MoreSamples.kip eq_refl (or_introl eq_refl) eq_refl eq_refl)
      as [_ Hother].
    destruct Hother as (_ & _ & _ & _ & _ & _ & _ & Hclash); [discriminate |].
    apply Hclash. reflexivity.
Defined.

(** C2, as stated, fails.  Joy (key 3) is stored and active.  A POST by
    Amani, an authenticated INITIATOR, is turned away by the role guard and
    leaves Joy active; a GET by the administrator leaves Joy active as well;
    and a GET by the administrator for her own key queues no message at
    all. *)
Lemma toggle_needs_role_and_post :
  find (fun u => (id u =? 3)%Z) (users Samples.world0) = Some Samples.joy /\
  is_active Samples.joy = true /\
  role Samples.amani = "INITIATOR" /\
  (let outcome :=
     @toggle_user_active Samples.plain_django Samples.env0 3
       (Samples.toggle_request "POST" (Some Samples.amani)) Samples.world0 in
   response_of outcome = Some (Redirect "core:dashboard") /\
   option_map is_active
     (find (fun u => (id u =? 3)%Z) (users (final_world outcome))) = Some true) /\
  (let outcome :=
     @toggle_user_active Samples.plain_django Samples.env0 3
       (Samples.toggle_request "GET" (Some Samples.admin)) Samples.world0 in
   option_map is_active
     (find (fun u => (id u =? 3)%Z) (users (final_world outcome))) = Some true) /\
  (let outcome :=
     @toggle_user_active Samples.plain_django Samples.env0 1
       (Samples.toggle_request "GET" (Some Samples.admin)) Samples.world0 in
   id Samples.admin = 1%Z /\ flash (final_world outcome) = []).
Proof.
  repeat split.
Qed.

Lemma not_post (m : string) : m <> "POST" -> (m =? "POST") = false.
Proof. intro H. now apply String.eqb_neq. Qed.

Lemma toggle_body_not_post (env : Env) (k : Z) (request : Request) (w : World) :
  method request <> "POST" ->
  toggle_user_active_body env k request w =
    Returned (Redirect "accounts:user_management") w.
Proof.
  intro H. unfold toggle_user_active_body.
  rewrite (not_post _ H). reflexivity.
Qed.

(** C10, as amended. For every request to the toggle endpoint whose method
    is not POST, whether or not the target exists: no user record is
    modified and no activity-log entry is appended.  When the guards admit
    the request (an authenticated actor with role HR_ADMIN or
    CPSB_SECRETARIAT) the store is left exactly as it was and the response is
    a redirect to the user-management listing, which is what the view body
    does for every such request it is given; a request the guards deny is
    redirected to the login page (no session) or to the dashboard (another
    role) instead. *)
Theorem toggle_user_active_not_post :
  forall (dj : Django) (env : Env) (request : Request) (w : World) (target_id : Z),
    method request <> "POST" ->
    users (final_world (toggle_user_active env target_id request w)) = users w /\
    activity (final_world (toggle_user_active env target_id request w)) = activity w /\
    (forall actor,
        user request = Some actor ->
        In (role actor) ["HR_ADMIN"; "CPSB_SECRETARIAT"] ->
        toggle_user_active env target_id request w =
          Returned (Redirect "accounts:user_management") w) /\
    toggle_user_active_body env target_id request w =
      Returned (Redirect "accounts:user_management") w /\
    (user request = None ->
     toggle_user_active env target_id request w =
       Returned (Redirect (LOGIN_URL ++ "?next=" ++ path request)) w) /\
    (forall actor,
        user request = Some actor ->
        ~ In (role actor) ["HR_ADMIN"; "CPSB_SECRETARIAT"] ->
        response_of (toggle_user_active env target_id request w) =
          Some (Redirect "core:dashboard")).
Proof.
  intros dj env request w target_id Hget.
  assert (Hadmit : forall actor,
             user request = Some actor ->
             In (role actor) ["HR_ADMIN"; "CPSB_SECRETARIAT"] ->
             toggle_user_active env target_id request w =
               Returned (Redirect "accounts:user_management") w).
  { intros actor Hactor Hrole.
    rewrite (toggle_admitted env target_id request w actor Hactor Hrole).
    now apply toggle_body_not_post. }
  assert (Hanon : user request = None ->
                  toggle_user_active env target_id request w =
                    Returned (Redirect (LOGIN_URL ++ "?next=" ++ path request)) w).
  { intro Hnone. unfold toggle_user_active. now apply login_required_denies. }
  assert (Hdeny : forall actor,
             user request = Some actor ->
             ~ In (role actor) ["HR_ADMIN"; "CPSB_SECRETARIAT"] ->
             toggle_user_active env target_id request w =
               Returned (Redirect "core:dashboard")
                 (mkWorld (users w) (activity w) (auth_groups w)
                    (flash w ++
                       [(ERROR, "You do not have permission to access this page.")])
                    (session w))).
  { intros actor Hactor Hrole. unfold toggle_user_active.
    rewrite (login_required_admits _ request w actor Hactor).
    now apply (role_required_denies _ _ _ request w actor Hactor). }
  assert (Hframe :
            users (final_world (toggle_user_active env target_id request w)) = users w /\
            activity (final_world (toggle_user_active env target_id request w)) = activity w).
  { destruct (user request) as [actor |] eqn:Hactor.
    - destruct (in_dec string_dec (role actor) ["HR_ADMIN"; "CPSB_SECRETARIAT"])
        as [Hin | Hout].
      + rewrite (Hadmit actor eq_refl Hin). split; reflexivity.
      + rewrite (Hdeny actor eq_refl Hout). split; reflexivity.
    - rewrite (Hanon eq_refl). split; reflexivity. }
  destruct Hframe as [Husers Hlog].
  split; [exact Husers | split; [exact Hlog | split; [exact Hadmit |]]].
  split; [now apply toggle_body_not_post | split; [exact Hanon |]].
  intros actor Hactor Hrole. now rewrite (Hdeny actor Hactor Hrole).
Qed.

Lemma toggle_user_active_not_post_witness :
  @toggle_user_active Samples.plain_django Samples.env0 3
    (Samples.toggle_request "GET" (Some Samples.admin)) Samples.world0 =
    Returned (Redirect "accounts:user_management") Samples.world0.
Proof.
  destruct (toggle_user_active_not_post Samples.plain_django Samples.env0
              (Samples.toggle_request "GET" (Some Samples.admin)) Samples.world0 3)
    as [_ [_ [Hadmit _]]].
  - discriminate.
  - apply (Hadmit Samples.admin); [reflexivity | simpl; tauto].
Defined.

(** C10, as stated, fails: a GET by a user whose role the guard does not
    allow is answered with a redirect to the dashboard, and a GET without a
    session with a redirect to the login page; neither is the redirect to
    the user-management listing. *)
Lemma toggle_get_redirected_elsewhere :
  (let outcome :=
     @toggle_user_active Samples.plain_django Samples.env0 3
       (Samples.toggle_request "GET" (Some Samples.amani)) Samples.world0 in
   response_of outcome = Some (Redirect "core:dashboard") /\
   response_of outcome <> Some (Redirect "accounts:user_management")) /\
  (let outcome :=
     @toggle_user_active Samples.plain_django Samples.env0 3
       (Samples.toggle_request "GET" None) Samples.world0 in
   response_of outcome =
     Some (Redirect "/accounts/login/?next=/accounts/users/3/toggle/") /\
   response_of outcome <> Some (Redirect "accounts:user_management")).
Proof.
  split; (split; [reflexivity | discriminate]).
Qed.

(* ------------------------------------------------------------------ *)
(** ** More on the activation toggle *)

(** X7. Toggling a key that no user has changes no row and writes no log
    entry: for a POST the guards admit, the only effect is the queued
    message "User not found.", and the response is the redirect to the
    user-management listing. *)
Theorem toggle_unknown_user :
  forall (dj : Django) (env : Env) (request : Request) (w : World)
         (actor : User) (target_id : Z),
    user request = Some actor ->
    In (role actor) ["HR_ADMIN"; "CPSB_SECRETARIAT"] ->
    method request = "POST" ->
    (forall u, In u (users w) -> id u <> target_id) ->
    toggle_user_active env target_id request w =
      Returned (Redirect "accounts:user_management")
        (mkWorld (users w) (activity w) (auth_groups w)
           (flash w ++ [(ERROR, "User not found.")]) (session w)).
Proof.
  intros dj env request w actor k Hactor Hrole Hpost Habsent.
  rewrite (toggle_admitted env k request w actor Hactor Hrole).
  assert (Hfind : find (fun u => (id u =? k)%Z) (users w) = None).
  { destruct (find _ (users w)) as [t |] eqn:F; [| reflexivity].
    destruct (find_by_id _ _ _ F) as [Hin Hid]. now destruct (Habsent t Hin). }
  unfold toggle_user_active_body. rewrite Hpost, String.eqb_refl.
  unfold bind, try_except, User_objects_get. rewrite Hfind. reflexivity.
Qed.

Lemma toggle_unknown_user_witness :
  @toggle_user_active Samples.plain_django Samples.env0 99
    (Samples.toggle_request "POST" (Some Samples.admin)) Samples.world0 =
    Returned (Redirect "accounts:user_management")
      (mkWorld (users Samples.world0) (activity Samples.world0)
         (auth_groups Samples.world0) [(ERROR, "User not found.")] None).
Proof.
  apply (toggle_unknown_user Samples.plain_django Samples.env0
           (Samples.toggle_request "POST" (Some Samples.admin)) Samples.world0
           Samples.admin 99 eq_refl (or_introl eq_refl) eq_refl).
  intros u [<- | [<- | [<- | []]]]; discriminate.
Defined.

(** X8. The toggle is audited with the state it leaves.  When an admitted
    administrator toggles another stored user by POST and the save goes
    through, exactly one activity entry is appended: it belongs to the
    administrator, carries the current time and the target's e-mail
    address, and its action is "USER_DEACTIVATED" if the target was active
    and "USER_ACTIVATED" if it was not; the queued success message says the
    same.  Groups and session are not touched.  When the save raises
    [IntegrityError], nothing is logged and nothing is queued. *)
Theorem toggle_is_audited :
  forall (dj : Django) (env : Env) (request : Request) (w : World)
         (actor : User) (target_id : Z) (target : User),
    user request = Some actor ->
    In (role actor) ["HR_ADMIN"; "CPSB_SECRETARIAT"] ->
    method request = "POST" ->
    find (fun u => (id u =? target_id)%Z) (users w) = Some target ->
    id actor <> target_id ->
    (unique_violation
       (row_to_save env (set_is_active (negb (is_active target)) target)) (users w)
       = true ->
     toggle_user_active env target_id request w = Raised IntegrityError w) /\
    (unique_violation
       (row_to_save env (set_is_active (negb (is_active target)) target)) (users w)
       = false ->
     exists entry,
       activity (final_world (toggle_user_active env target_id request w)) =
         (activity w ++ [entry])%list /\
       log_user entry = id actor /\
       timestamp entry = now env /\
       ip_address entry = REMOTE_ADDR request /\
       data entry = [("target_user", email target)] /\
       (is_active target = true ->
        action entry = "USER_DEACTIVATED" /\
        flash (final_world (toggle_user_active env target_id request w)) =
          (flash w ++
             [(SUCCESS, ("User " ++ get_full_name target ++
                         " deactivated successfully!")%string)])%list) /\
       (is_active target = false ->
        action entry = "USER_ACTIVATED" /\
        flash (final_world (toggle_user_active env target_id request w)) =
          (flash w ++
             [(SUCCESS, ("User " ++ get_full_name target ++
                         " activated successfully!")%string)])%list) /\
       auth_groups (final_world (toggle_user_active env target_id request w)) =
         auth_groups w /\
       session (final_world (toggle_user_active env target_id request w)) = session w).
Proof.
  intros dj env request w actor k target Hactor Hrole Hpost Hfind Hother.
  rewrite (toggle_admitted env k request w actor Hactor Hrole).
  rewrite (toggle_body_other env k request w actor target Hactor Hpost Hfind Hother).
  split.
  - intros ->. reflexivity.
  - intros ->. cbn [final_world activity flash auth_groups session].
    eexists. split; [reflexivity |].
    cbn [log_user timestamp ip_address data action].
    repeat split; try reflexivity;
      match goal with H : is_active target = _ |- _ => rewrite H; reflexivity end.
Qed.

Lemma toggle_is_audited_witness :
  (exists entry,
     activity
       (final_world
          (@toggle_user_active Samples.plain_django Samples.env0 3
             (Samples.toggle_request "POST" (Some Samples.admin)) Samples.world0)) =
       [Samples.earlier_login; entry] /\
     log_user entry = 1%Z /\
     action entry = "USER_DEACTIVATED") /\
  activity
    (final_world
       (@toggle_user_active Samples.plain_django Samples.env0 4
          (Samples.toggle_request "POST" (Some Samples.admin)) MoreSamples.world2)) = [].
Proof.
  split.
  - destruct (toggle_is_audited Samples.plain_django Samples.env0
                (Samples.toggle_request "POST" (Some Samples.admin)) Samples.world0
                Samples.admin 3 Samples.joy eq_refl (or_introl eq_refl) eq_refl eq_refl)
      as [_ Hok]; [discriminate |].
    destruct (Hok eq_refl) as [entry [Hlog [Howner [_ [_ [_ [Hwas_active _]]]]]]].
    exists entry. split; [exact Hlog | split; [exact Howner |]].
    now destruct (Hwas_active eq_refl).
  - destruct (toggle_is_audited Samples.plain_django Samples.env0
                (Samples.toggle_request "POST" (Some Samples.admin)) MoreSamples.world2
                Samples.admin 4 MoreSamples.kip eq_refl (or_introl eq_refl) eq_refl eq_refl)
      as [Hclash _]; [discriminate |].
    rewrite (Hclash eq_refl). reflexivity.
Defined.

(** A second save of a saved row, flag aside, clashes with nothing the
    first did not clash with. *)
Lemma second_save_goes_through (env env2 : Env) (k : Z) (u : User) (b : bool)
    (rows : list User) :
  id u = k ->
  unique_violation (row_to_save env u) rows = false ->
  unique_violation
    (row_to_save env2 (set_is_active b (row_to_save env u)))
    (map (fun r => if (id r =? k)%Z then row_to_save env u else r) rows) = false.
Proof.
  intros Hk V.
  set (s1 := row_to_save env u) in *.
  set (s2 := row_to_save env2 (set_is_active b s1)).
  assert (H1 : id s1 = k).
  { unfold s1. destruct (row_to_save_columns env u) as (E & _). congruence. }
  destruct (row_to_save_columns env2 (set_is_active b s1))
    as (Rid & _ & Rident & _ & _ & _ & Ruuid).
  fold s2 in Rid, Rident, Ruuid.
  cbn [set_is_active id uuid] in Rid, Ruuid.
  change (Invariants.identity_columns (set_is_active b s1))
    with (Invariants.identity_columns s1) in Rident.
  unfold Invariants.identity_columns in Rident.
  assert (Remail : email s2 = email s1) by now inversion Rident.
  assert (Rnid : national_id s2 = national_id s1) by now inversion Rident.
  assert (Remp : employee_id s2 = employee_id s1).
  { unfold s2. rewrite row_to_save_employee_id.
    change (has_employee_id (set_is_active b s1)) with (has_employee_id s1).
    unfold s1. now rewrite row_to_save_has_employee_id. }
  unfold unique_violation in *.
  induction rows as [| a rows IH]; [reflexivity |].
  cbn [map existsb] in *.
  apply orb_false_iff in V. destruct V as [Va Vr].
  rewrite (IH Vr), orb_false_r.
  unfold model_eq in *.
  destruct (id a =? k)%Z eqn:E.
  - rewrite Rid, Z.eqb_refl. reflexivity.
  - rewrite Rid, H1, E. rewrite H1, E in Va.
    rewrite Remail, Rnid, Remp, Ruuid. exact Va.
Qed.

(** X9. Toggling twice gives the account back as it was.  When the first
    of two admitted POSTs for the same stored user (not the administrator)
    goes through, so does the second; the user's row then has the
    [is_active] flag it started with and the same identity and contact
    columns, and the log has gained two entries with different actions. *)
Theorem toggle_twice_restores :
  forall (dj : Django) (env env2 : Env) (request request2 : Request) (w : World)
         (actor : User) (target_id : Z) (target : User),
    user request = Some actor ->
    user request2 = Some actor ->
    In (role actor) ["HR_ADMIN"; "CPSB_SECRETARIAT"] ->
    method request = "POST" ->
    method request2 = "POST" ->
    find (fun u => (id u =? target_id)%Z) (users w) = Some target ->
    id actor <> target_id ->
    unique_violation
      (row_to_save env (set_is_active (negb (is_active target)) target)) (users w)
      = false ->
    exists back e1 e2,
      response_of
        (toggle_user_active env2 target_id request2
           (final_world (toggle_user_active env target_id request w))) =
        Some (Redirect "accounts:user_management") /\
      find (fun u => (id u =? target_id)%Z)
           (users (final_world
                     (toggle_user_active env2 target_id request2
                        (final_world (toggle_user_active env target_id request w))))) =
        Some back /\
      is_active back = is_active target /\
      Invariants.identity_columns back = Invariants.identity_columns target /\
      Invariants.contact_columns back = Invariants.contact_columns target /\
      activity (final_world
                  (toggle_user_active env2 target_id request2
                     (final_world (toggle_user_active env target_id request w)))) =
        (activity w ++ [e1; e2])%list /\
      action e1 <> action e2.
Proof.
  intros dj env env2 request request2 w actor k target
         Hactor Hactor2 Hrole Hpost Hpost2 Hfind Hother V.
  destruct (find_by_id _ _ _ Hfind) as [Hin Hid].
  rewrite (toggle_admitted env k request w actor Hactor Hrole).
  rewrite (toggle_body_other env k request w actor target Hactor Hpost Hfind Hother), V.
  cbn [final_world].
  set (s1 := row_to_save env (set_is_active (negb (is_active target)) target)) in *.
  destruct (row_to_save_columns env (set_is_active (negb (is_active target)) target))
    as (Hid1 & Hact1 & Hident1 & Hcontact1 & _).
  fold s1 in Hid1, Hact1, Hident1, Hcontact1.
  cbn [set_is_active id is_active] in Hid1, Hact1.
  change (Invariants.identity_columns (set_is_active (negb (is_active target)) target))
    with (Invariants.identity_columns target) in Hident1.
  change (Invariants.contact_columns (set_is_active (negb (is_active target)) target))
    with (Invariants.contact_columns target) in Hcontact1.
  set (w1 := mkWorld _ _ _ _ _).
  assert (Hfind1 : find (fun u => (id u =? k)%Z) (users w1) = Some s1).
  { unfold w1. cbn [users].
    apply (find_after_update (users w) k target s1); [exact Hfind | congruence]. }
  rewrite (toggle_admitted env2 k request2 w1 actor Hactor2 Hrole).
  rewrite (toggle_body_other env2 k request2 w1 actor s1 Hactor2 Hpost2 Hfind1 Hother).
  set (s2 := row_to_save env2 (set_is_active (negb (is_active s1)) s1)).
  assert (V2 : unique_violation s2 (users w1) = false).
  { unfold w1, s2, s1. cbn [users].
    apply (second_save_goes_through env env2 k); [| exact V].
    cbn [set_is_active id]. exact Hid. }
  rewrite V2.
  destruct (row_to_save_columns env2 (set_is_active (negb (is_active s1)) s1))
    as (Hid2 & Hact2 & Hident2 & Hcontact2 & _).
  fold s2 in Hid2, Hact2, Hident2, Hcontact2.
  cbn [set_is_active id is_active] in Hid2, Hact2.
  change (Invariants.identity_columns (set_is_active (negb (is_active s1)) s1))
    with (Invariants.identity_columns s1) in Hident2.
  change (Invariants.contact_columns (set_is_active (negb (is_active s1)) s1))
    with (Invariants.contact_columns s1) in Hcontact2.
  cbn [final_world users activity response_of].
  exists s2. do 2 eexists.
  split; [reflexivity |].
  split.
  { apply (find_after_update (users w1) k s1 s2); [exact Hfind1 | congruence]. }
  split; [rewrite Hact2, Hact1; apply negb_involutive |].
  split; [congruence |]. split; [congruence |].
  unfold w1. cbn [activity]. rewrite <- app_assoc. cbn [app].
  split; [reflexivity |].
  cbn [action]. rewrite Hact1. destruct (is_active target); discriminate.
Qed.

Lemma toggle_twice_restores_witness :
  exists back,
    find (fun u => (id u =? 3)%Z)
         (users (final_world
                   (@toggle_user_active Samples.plain_django Samples.env0 3
                      (Samples.toggle_request "POST" (Some Samples.admin))
                      (final_world
                         (@toggle_user_active Samples.plain_django Samples.env0 3
                            (Samples.toggle_request "POST" (Some Samples.admin))
                            Samples.world0))))) = Some back /\
    is_active back = true.
Proof.
  destruct (toggle_twice_restores Samples.plain_django Samples.env0 Samples.env0
              (Samples.toggle_request "POST" (Some Samples.admin))
              (Samples.toggle_request "POST" (Some Samples.admin))
              Samples.world0 Samples.admin 3 Samples.joy
              eq_refl eq_refl (or_introl eq_refl) eq_refl eq_refl eq_refl)
    as [back [e1 [e2 [_ [Hfind [Hact _]]]]]].
  - discriminate.
  - reflexivity.
  - exists back. split; [exact Hfind | exact Hact].
Defined.

(** X10. The toggle can change a user's [is_active] flag, employee number
    and activity time, and nothing else.  For every request, whoever sends
    it, when the primary keys of the table are distinct: the table keeps its
    rows in place with the same key, e-mail address, password, national ID,
    role, department, join date, groups, names and phone number, and every
    row other than the one under the requested key is exactly as it was. *)
Theorem toggle_touches_only_the_flag :
  forall (dj : Django) (env : Env) (request : Request) (w : World) (target_id : Z),
    NoDup (map id (users w)) ->
    map Invariants.identity_columns
        (users (final_world (toggle_user_active env target_id request w))) =
      map Invariants.identity_columns (users w) /\
    map Invariants.contact_columns
        (users (final_world (toggle_user_active env target_id request w))) =
      map Invariants.contact_columns (users w) /\
    (forall u, In u (users w) -> id u <> target_id ->
               In u (users (final_world (toggle_user_active env target_id request w)))).
Proof.
  intros dj env request w k Hnd.
  assert (Hsame : forall o : Outcome Response,
             users (final_world o) = users w ->
             map Invariants.identity_columns (users (final_world o)) =
               map Invariants.identity_columns (users w) /\
             map Invariants.contact_columns (users (final_world o)) =
               map Invariants.contact_columns (users w) /\
             (forall u, In u (users w) -> id u <> k -> In u (users (final_world o)))).
  { intros o E. rewrite E. auto. }
  destruct (user request) as [actor |] eqn:Hactor.
  2:{ apply Hsame. unfold toggle_user_active.
      now rewrite (login_required_denies _ request w Hactor). }
  destruct (in_dec string_dec (role actor) ["HR_ADMIN"; "CPSB_SECRETARIAT"])
    as [Hrole | Hrole].
  2:{ apply Hsame. unfold toggle_user_active.
      rewrite (login_required_admits _ request w actor Hactor).
      now rewrite (role_required_denies _ _ _ request w actor Hactor Hrole). }
  rewrite (toggle_admitted env k request w actor Hactor Hrole).
  destruct (method request =? "POST") eqn:Hm.
  2:{ apply Hsame. rewrite toggle_body_not_post; [reflexivity |].
      now apply String.eqb_neq. }
  apply String.eqb_eq in Hm.
  destruct (find (fun u => (id u =? k)%Z) (users w)) as [target |] eqn:Hfind.
  2:{ apply Hsame. unfold toggle_user_active_body. rewrite Hm, String.eqb_refl.
      unfold bind, try_except, User_objects_get. now rewrite Hfind. }
  destruct (Z.eq_dec (id actor) k) as [Hself | Hother].
  { apply Hsame.
    now rewrite (toggle_body_self env k request w actor target Hactor Hm Hfind Hself). }
  rewrite (toggle_body_other env k request w actor target Hactor Hm Hfind Hother).
  destruct (unique_violation _ (users w)); [apply Hsame; reflexivity |].
  destruct (row_to_save_columns env (set_is_active (negb (is_active target)) target))
    as (_ & _ & Hident & Hcontact & _).
  change (Invariants.identity_columns (set_is_active (negb (is_active target)) target))
    with (Invariants.identity_columns target) in Hident.
  change (Invariants.contact_columns (set_is_active (negb (is_active target)) target))
    with (Invariants.contact_columns target) in Hcontact.
  cbn [final_world users].
  destruct (find_by_id _ _ _ Hfind) as [Hin Htid].
  assert (Hrow : forall r, In r (users w) -> (id r =? k)%Z = true -> r = target).
  { intros r Hr E. apply Z.eqb_eq in E.
    apply (same_key_same_row (users w)); auto. congruence. }
  split; [| split].
  - rewrite map_map. apply map_ext_in. intros r Hr.
    destruct (id r =? k)%Z eqn:E; [| reflexivity].
    rewrite (Hrow r Hr E). exact Hident.
  - rewrite map_map. apply map_ext_in. intros r Hr.
    destruct (id r =? k)%Z eqn:E; [| reflexivity].
    rewrite (Hrow r Hr E). exact Hcontact.
  - intros u Hu Hne. apply in_map_iff. exists u. split; [| exact Hu].
    apply Z.eqb_neq in Hne. now rewrite Hne.
Qed.

Lemma toggle_touches_only_the_flag_witness :
  map Invariants.identity_columns
      (users (final_world
                (@toggle_user_active Samples.plain_django Samples.env0 3
                   (Samples.toggle_request "POST" (Some Samples.admin)) Samples.world0))) =
    map Invariants.identity_columns (users Samples.world0).
Proof.
  apply (toggle_touches_only_the_flag Samples.plain_django Samples.env0
           (Samples.toggle_request "POST" (Some Samples.admin)) Samples.world0 3).
  simpl. repeat (constructor; [simpl; intuition discriminate |]). constructor.
Defined.

(* ------------------------------------------------------------------ *)
(** ** Registration, end to end *)

Lemma group_of_role_get_role_group (u : User) :
  get_role_group u = group_of_role (role u).
Proof. reflexivity. Qed.

Lemma creation_clean_plain `{Django} (rows : list User) (f : Field) (submitted : string) :
  (name f =? "email") = false ->
  (name f =? "national_id") = false ->
  (name f =? "phone_number") = false ->
  creation_clean rows f submitted = field_clean f submitted.
Proof.
  intros H1 H2 H3. unfold creation_clean, creation_hook, creation_model_check.
  rewrite H1, H2, H3. now destruct (field_clean f submitted).
Qed.

(** The e-mail field of the registration form. *)
Lemma creation_clean_email `{Django} (rows : list User) (submitted e : string) :
  creation_clean rows email_field submitted = Some e <->
  e = Py.strip submitted /\
  e <> "" /\
  has_nul e = false /\
  validate_email e = true /\
  email_exists rows e = false /\
  String.length e <= 254 /\
  email_exists rows (normalize_email e) = false.
Proof.
  unfold creation_clean, email_field. rewrite field_clean_email.
  cbn [name]. unfold creation_hook, creation_model_check.
  cbn [String.eqb Ascii.eqb Bool.eqb]. unfold clean_email.
  set (v := Py.strip submitted).
  rewrite <- truthy_iff.
  destruct (Py.truthy v) eqn:T; cbn [negb andb].
  2:{ split; [discriminate |]. intros (-> & X & _). fold v in X. congruence. }
  destruct (has_nul v) eqn:N; cbn [orb].
  { split; [discriminate |]. intros (-> & _ & X & _). fold v in X. congruence. }
  destruct (validate_email v) eqn:V; cbn [negb].
  2:{ split; [discriminate |]. intros (-> & _ & _ & X & _). fold v in X. congruence. }
  rewrite T. cbn [andb].
  destruct (email_exists rows v) eqn:E; cbv iota.
  { split; [discriminate |]. intros (-> & _ & _ & _ & X & _). fold v in X. congruence. }
  destruct (String.length v <=? 254)%nat eqn:L; cbn [andb].
  2:{ split; [discriminate |]. intros (-> & _ & _ & _ & _ & X & _).
      apply Nat.leb_gt in L. fold v in X. lia. }
  apply Nat.leb_le in L.
  destruct (email_exists rows (normalize_email v)) eqn:E2; cbn [negb].
  { split; [discriminate |]. intros (-> & _ & _ & _ & _ & _ & X). fold v in X.
    congruence. }
  split.
  - intro X. inversion X. subst e. repeat split; auto.
  - intros (-> & _). reflexivity.
Qed.

(** A required text field without a hook. *)
Lemma creation_clean_text `{Django} (rows : list User) (nm : string) (n : option nat)
    (submitted v : string) :
  (nm =? "email") = false ->
  (nm =? "national_id") = false ->
  (nm =? "phone_number") = false ->
  creation_clean rows (mkField nm CharField true n) submitted = Some v ->
  v = Py.strip submitted /\ v <> "" /\ has_nul v = false /\
  (forall m, n = Some m -> String.length v <= m).
Proof.
  intros H1 H2 H3.
  rewrite (creation_clean_plain rows (mkField nm CharField true n) submitted H1 H2 H3).
  rewrite field_clean_char. unfold too_long. cbn [max_length].
  destruct (Py.truthy (Py.strip submitted)) eqn:T; cbn [negb]; [| discriminate].
  destruct (has_nul (Py.strip submitted)) eqn:N; [rewrite orb_true_r; discriminate |].
  rewrite orb_false_r.
  destruct n as [m |].
  - destruct (m <? String.length (Py.strip submitted))%nat eqn:L; [discriminate |].
    intro E. inversion E. subst v. apply Nat.ltb_ge in L.
    split; [reflexivity |]. split; [now apply truthy_iff |].
    split; [exact N |].
    intros m' Hm. inversion Hm. now subst.
  - intro E. inversion E. subst v.
    split; [reflexivity |]. split; [now apply truthy_iff |].
    split; [exact N |].
    intros m Hm. discriminate Hm.
Qed.

Lemma strip_empty_when_falsy (s : string) : Py.truthy s = false -> s = "".
Proof.
  intro T. destruct (string_dec s "") as [E | E]; [exact E |].
  apply truthy_iff in E. congruence.
Qed.

(** The department field: optional text. *)
Lemma creation_clean_department `{Django} (rows : list User) (submitted v : string) :
  creation_clean rows (mkField "department" CharField false (Some 100)) submitted
    = Some v ->
  v = Py.strip submitted /\ String.length v <= 100 /\ has_nul v = false.
Proof.
  rewrite (creation_clean_plain rows (mkField "department" CharField false (Some 100))
             submitted eq_refl eq_refl eq_refl).
  rewrite field_clean_char. unfold too_long. cbn [max_length].
  destruct (Py.truthy (Py.strip submitted)) eqn:T; cbn [negb].
  - destruct (100 <? String.length (Py.strip submitted))%nat eqn:L; [discriminate |].
    destruct (has_nul (Py.strip submitted)) eqn:N; [discriminate |].
    cbn [orb]. intro E. inversion E. subst v. apply Nat.ltb_ge in L. auto.
  - intro E. inversion E. rewrite (strip_empty_when_falsy _ T).
    split; [reflexivity |]. split; [simpl; lia | reflexivity].
Qed.

(** The role field: one of the nine values, as submitted. *)
Lemma creation_clean_role `{Django} (rows : list User) (submitted v : string) :
  creation_clean rows (mkField "role" (ChoiceField ROLE_CHOICES) true None) submitted
    = Some v ->
  v = submitted /\ In v ROLE_CHOICES.
Proof.
  rewrite (creation_clean_plain rows (mkField "role" (ChoiceField ROLE_CHOICES) true None)
             submitted eq_refl eq_refl eq_refl).
  unfold field_clean, to_python. cbn [kind required].
  destruct (Py.truthy submitted); cbn [negb]; [| discriminate].
  destruct (existsb (String.eqb submitted) ROLE_CHOICES) eqn:E; [| discriminate].
  intro X. inversion X. subst v. split; [reflexivity |].
  apply existsb_exists in E. destruct E as [x [Hx Hv]].
  apply String.eqb_eq in Hv. now subst x.
Qed.

Lemma new_row_columns `{Django} (env : Env) (rows : list User)
    (post cd : list (string * string)) :
  row_to_save env (new_user env rows post cd) =
    mkUser (next_id rows)
      (normalize_email (get_or cd "email" ""))
      (make_password (get_or cd "password1" ""))
      (get_or cd "first_name" "")
      (get_or cd "last_name" "")
      (get_or cd "national_id" "")
      (get_or cd "phone_number" "")
      (get_or cd "role" "INITIATOR")
      (match Py.dict_get post "department" with
       | Some _ => get_or cd "department" ""
       | None => "Health"
       end)
      (Some (employee_number env)) true (now env) (now env) [] None (uuid4 env).
Proof. reflexivity. Qed.

(** A valid registration form runs to its end unless the save raises. *)
Lemma register_view_outcome `{Django} (env : Env) (request : Request) (w : World)
    (cd : list (string * string)) :
  user request = None ->
  method request = "POST" ->
  CustomUserCreationForm_is_valid (users w) (POST request) = Some cd ->
  register_view env request w =
    if unique_violation (row_to_save env (new_user env (users w) (POST request) cd))
         (users w)
    then Raised IntegrityError w
    else
      Returned (Redirect "accounts:login")
        (mkWorld
           (users w ++
              [set_groups [group_of_role (get_or cd "role" "INITIATOR")]
                 (row_to_save env (new_user env (users w) (POST request) cd))])
           (activity w ++
              [mkLog (next_id (users w)) "USER_REGISTERED" (REMOTE_ADDR request)
                 (match HTTP_USER_AGENT request with Some a => a | None => "" end)
                 (now env) [("role", get_or cd "role" "INITIATOR")]])
           (if existsb (String.eqb (group_of_role (get_or cd "role" "INITIATOR")))
                 (auth_groups w)
            then auth_groups w
            else auth_groups w ++ [group_of_role (get_or cd "role" "INITIATOR")])
           (flash w ++ [(SUCCESS, "Registration successful! Please login.")])
           (session w)).
Proof.
  intros Hanon Hpost Hvalid.
  unfold register_view, is_authenticated. rewrite Hanon, Hpost, String.eqb_refl.
  unfold bind, get_world. rewrite Hvalid.
  unfold CustomUserCreationForm_save. rewrite User_save_cases.
  destruct (unique_violation _ (users w)); [reflexivity |].
  set (new1 := row_to_save env (new_user env (users w) (POST request) cd)).
  assert (Hid : id new1 = next_id (users w)) by reflexivity.
  assert (Hfresh : existsb (model_eq new1) (users w) = false)
    by (apply no_row_with_next_id; exact Hid).
  unfold write_row. rewrite Hfresh.
  unfold Group_objects_get_or_create, groups_add, UserActivityLog_objects_create,
    messages_add, ret, set_users.
  cbn [users activity auth_groups flash session].
  rewrite group_of_role_get_role_group.
  change (role new1) with (get_or cd "role" "INITIATOR").
  change (groups new1) with (@nil string).
  set (g := group_of_role _).
  cbn [existsb app set_groups groups].
  destruct (existsb (String.eqb g) (auth_groups w));
    cbn [users activity auth_groups flash session];
    rewrite map_app, (update_absent_row _ new1 _ Hfresh); cbn [map];
    unfold model_eq; rewrite Z.eqb_refl; reflexivity.
Qed.

(** What a valid registration form says of the values it keeps. *)
Lemma creation_form_values `{Django} (rows : list User) (post cd : list (string * string)) :
  CustomUserCreationForm_is_valid rows post = Some cd ->
  get_or cd "email" "" = Py.strip (get_or post "email" "") /\
  Py.strip (get_or post "email" "") <> "" /\
  validate_email (Py.strip (get_or post "email" "")) = true /\
  email_exists rows (normalize_email (get_or cd "email" "")) = false /\
  get_or cd "first_name" "" = Py.strip (get_or post "first_name" "") /\
  get_or cd "first_name" "" <> "" /\
  String.length (get_or cd "first_name" "") <= 30 /\
  get_or cd "last_name" "" = Py.strip (get_or post "last_name" "") /\
  get_or cd "last_name" "" <> "" /\
  String.length (get_or cd "last_name" "") <= 30 /\
  get_or cd "national_id" "" = Py.strip (get_or post "national_id" "") /\
  ~ Spec.national_id_taken rows (get_or cd "national_id" "") /\
  Spec.decimal_only (get_or cd "national_id" "") /\
  (String.length (get_or cd "national_id" "") = 7 \/
   String.length (get_or cd "national_id" "") = 8) /\
  get_or cd "phone_number" "" =
    Spec.strip_separators (Py.strip (get_or post "phone_number" "")) /\
  (exists p, In p Spec.kenyan_prefixes /\
             Spec.begins_with (get_or cd "phone_number" "") p) /\
  9 <= Spec.isdigit_count (get_or cd "phone_number" "") <= 12 /\
  phone_number_validator (get_or cd "phone_number" "") = true /\
  get_or cd "role" "INITIATOR" = get_or post "role" "" /\
  In (get_or cd "role" "INITIATOR") ROLE_CHOICES /\
  get_or cd "department" "" = Py.strip (get_or post "department" "") /\
  get_or cd "password1" "" = Py.strip (get_or post "password1" "") /\
  get_or cd "password1" "" <> "" /\
  validate_passwords cd = true /\
  email_exists rows (get_or cd "email" "") = false /\
  String.length (Py.strip (get_or post "phone_number" "")) <= 15.
Proof.
  intro V.
  destruct (creation_form_valid rows post cd V)
    as (e & fn & ln & nid & ph & r & d & p1 & p2 & Hcd & He & Hfn & Hln & Hnid & Hph
        & Hr & Hd & Hp1 & Hp2 & Hvp).
  destruct (creation_cleaned_values cd e fn ln nid ph r d p1 p2 Hcd)
    as (Ge & Gfn & Gln & Gnid & Gph & Gr & Gd & Gp1).
  rewrite Ge, Gfn, Gln, Gnid, Gph, Gr, Gd, Gp1.
  apply creation_clean_email in He.
  destruct He as (He1 & He2 & _ & He4 & He5 & _ & He7).
  apply creation_clean_text in Hfn; try reflexivity.
  destruct Hfn as (Hfn1 & Hfn2 & _ & Hfn4).
  apply creation_clean_text in Hln; try reflexivity.
  destruct Hln as (Hln1 & Hln2 & _ & Hln4).
  pose proof (national_id_field_value rows _ _ Hnid) as Hn1.
  assert (Hn2 : creation_clean rows national_id_field (get_or post "national_id" "")
                = Some (Py.strip (get_or post "national_id" ""))) by congruence.
  apply national_id_field_accepts in Hn2. destruct Hn2 as (Hn3 & Hn4 & Hn5).
  pose proof (phone_number_field_value rows _ _ Hph) as Hp.
  assert (Hph2 : creation_clean rows phone_number_field (get_or post "phone_number" "")
                 = Some (Spec.strip_separators (Py.strip (get_or post "phone_number" ""))))
    by congruence.
  apply phone_number_field_accepts in Hph2. destruct Hph2 as (Hph6 & Hph3 & Hph4 & Hph5).
  apply creation_clean_role in Hr. destruct Hr as (Hr1 & Hr2).
  apply creation_clean_department in Hd. destruct Hd as (Hd1 & _).
  apply creation_clean_text in Hp1; try reflexivity.
  destruct Hp1 as (Hp11 & Hp12 & _).
  pose proof (Hfn4 30 eq_refl) as Hfn5.
  pose proof (Hln4 30 eq_refl) as Hln5.
  clear Ge Gfn Gln Gnid Gph Gr Gd Gp1 Hcd.
  subst e nid ph.
  repeat match goal with |- _ /\ _ => split end; auto; lia.
Qed.

(** With a valid form, only the employee number and the UUID drawn for
    the new row can clash with a stored row. *)
Lemma registration_clash_iff `{Django} (env : Env) (rows : list User)
    (post cd : list (string * string)) :
  CustomUserCreationForm_is_valid rows post = Some cd ->
  (unique_violation (row_to_save env (new_user env rows post cd)) rows = true <->
   Invariants.registration_clash env rows).
Proof.
  intro V.
  destruct (creation_form_values rows post cd V)
    as (_ & _ & _ & Hemail & _ & _ & _ & _ & _ & _ & _ & Hnid & _).
  rewrite unique_violation_iff, new_row_columns.
  cbn [id email national_id employee_id uuid].
  unfold Invariants.registration_clash. split.
  - intros [r [Hr [_ Hc]]]. exists r. split; [exact Hr |].
    destruct Hc as [Hc | [Hc | [[e [H1 H2]] | Hc]]].
    + exfalso. rewrite email_exists_iff in Hemail. now apply (Hemail r Hr).
    + exfalso. apply Hnid. now exists r.
    + left. congruence.
    + now right.
  - intros [r [Hr Hc]]. exists r. split; [exact Hr |]. split.
    + pose proof (ids_below_next rows r Hr). lia.
    + destruct Hc as [Hc | Hc].
      * right. right. left. now exists (employee_number env).
      * now right; right; right.
Qed.

Lemma registration_clash_decide `{Django} (env : Env) (rows : list User)
    (post cd : list (string * string)) :
  CustomUserCreationForm_is_valid rows post = Some cd ->
  ~ Invariants.registration_clash env rows ->
  unique_violation (row_to_save env (new_user env rows post cd)) rows = false.
Proof.
  intros V Hno.
  destruct (unique_violation _ rows) eqn:E; [| reflexivity].
  exfalso. apply Hno. now apply (registration_clash_iff env rows post cd V).
Qed.

Lemma group_stored_after (g : string) (groups0 : list string) :
  In g (if existsb (String.eqb g) groups0 then groups0 else groups0 ++ [g]).
Proof.
  destruct (existsb (String.eqb g) groups0) eqn:E.
  - apply existsb_exists in E. destruct E as [x [Hx Hg]].
    apply String.eqb_eq in Hg. now subst x.
  - apply in_or_app. right. now left.
Qed.

(** C9. The role-to-group mapping is a total function with a default: each
    of the nine roles maps to its named group, and every other role value
    maps to "Applicants".  A registration that creates a user stores the
    user as a member of exactly the group the mapping gives for the chosen
    role, that group being present in the group table afterwards.  A valid
    registration form creates the user unless a stored user already holds
    the employee number or the UUID drawn for the new row; then the save
    raises [IntegrityError] and nothing is stored. *)
Theorem role_group_mapping :
  (forall u : User,
      (role u = "INITIATOR" -> get_role_group u = "Initiators") /\
      (role u = "CHIEF_OFFICER" -> get_role_group u = "Chief Officers") /\
      (role u = "COUNTY_SECRETARY" -> get_role_group u = "County Secretaries") /\
      (role u = "CPSB_BOARD" -> get_role_group u = "CPSB Board") /\
      (role u = "CPSB_SECRETARIAT" -> get_role_group u = "CPSB Secretariat") /\
      (role u = "HR_SECRETARIAT" -> get_role_group u = "HR Secretariat") /\
      (role u = "HR_ADMIN" -> get_role_group u = "HR Administrators") /\
      (role u = "PANELIST" -> get_role_group u = "Panelists") /\
      (role u = "PAYROLL_OFFICER" -> get_role_group u = "Payroll Officers") /\
      (~ In (role u) ROLE_CHOICES -> get_role_group u = "Applicants")) /\
  List.length ROLE_CHOICES = 9 /\
  (forall (dj : Django) (env : Env) (request : Request) (w : World)
          (cd : list (string * string)),
      user request = None ->
      method request = "POST" ->
      CustomUserCreationForm_is_valid (users w) (POST request) = Some cd ->
      (~ Invariants.registration_clash env (users w) ->
       exists new : User,
         response_of (register_view env request w) = Some (Redirect "accounts:login") /\
         users (final_world (register_view env request w)) = (users w ++ [new])%list /\
         email new = normalize_email (get_or cd "email" "") /\
         role new = get_or cd "role" "INITIATOR" /\
         role new = get_or (POST request) "role" "" /\
         groups new = [get_role_group new] /\
         In (get_role_group new)
            (auth_groups (final_world (register_view env request w)))) /\
      (Invariants.registration_clash env (users w) ->
       register_view env request w = Raised IntegrityError w)).
Proof.
  split; [| split; [reflexivity |]].
  - intro u.
    repeat split;
      try (intro E; unfold get_role_group; rewrite E; reflexivity).
    apply get_role_group_default.
  - intros dj env request w cd Hanon Hpost Hvalid.
    rewrite (register_view_outcome env request w cd Hanon Hpost Hvalid).
    split.
    + intro Hno.
      rewrite (registration_clash_decide env (users w) (POST request) cd Hvalid Hno).
      eexists. cbn [response_of final_world users auth_groups].
      split; [reflexivity |]. split; [reflexivity |].
      rewrite new_row_columns.
      cbn [set_groups email role groups get_role_group].
      split; [reflexivity |]. split; [reflexivity |].
      split.
      { destruct (creation_form_values (users w) (POST request) cd Hvalid)
          as (_ & _ & _ & _ & _ & _ & _ & _ & _ & _ & _ & _ & _ & _ & _ & _ & _ & _
              & Hr & _).
        exact Hr. }
      split; [reflexivity |].
      apply group_stored_after.
    + intro Hclash.
      apply (registration_clash_iff env (users w) (POST request) cd Hvalid) in Hclash.
      now rewrite Hclash.
Qed.

Lemma role_group_mapping_witness :
  get_role_group Samples.joy = "Chief Officers" /\
  (exists new : User,
     let request :=
       Samples.request_of "/accounts/register/" "POST" None []
         MoreSamples.registration_form in
     let outcome := @register_view Samples.plain_django Samples.env0 request Samples.world0 in
     response_of outcome = Some (Redirect "accounts:login") /\
     users (final_world outcome) = (users Samples.world0 ++ [new])%list /\
     role new = "PANELIST" /\
     groups new = ["Panelists"]) /\
  @register_view Samples.plain_django Samples.env0
    (Samples.request_of "/accounts/register/" "POST" None []
       MoreSamples.registration_form) MoreSamples.world2 =
    Raised IntegrityError MoreSamples.world2.
Proof.
  destruct role_group_mapping as [Hmap [_ Hreg]].
  split; [| split].
  - apply (Hmap Samples.joy). reflexivity.
  - destruct (Hreg Samples.plain_django Samples.env0
                (Samples.request_of "/accounts/register/" "POST" None []
                   MoreSamples.registration_form)
                Samples.world0
                [("email", "zawadi@savanna.go.ke"); ("first_name", "Zawadi");
                 ("last_name", "Mwangi"); ("national_id", "34567890");
                 ("phone_number", "0722000111"); ("role", "PANELIST");
                 ("department", ""); ("password1", "t0pS3cret");
                 ("password2", "t0pS3cret")]
                eq_refl eq_refl eq_refl) as [Hok _].
    destruct Hok as [new [Hresp [Husers [_ [Hrole [_ [Hgroups _]]]]]]].
    { intros [r [[<- | [<- | [<- | []]]] [E | E]]]; discriminate E. }
    exists new. cbv zeta.
    split; [exact Hresp | split; [exact Husers | split; [exact Hrole |]]].
    rewrite Hgroups. unfold get_role_group. rewrite Hrole. reflexivity.
  - destruct (Hreg Samples.plain_django Samples.env0
                (Samples.request_of "/accounts/register/" "POST" None []
                   MoreSamples.registration_form)
                MoreSamples.world2
                [("email", "zawadi@savanna.go.ke"); ("first_name", "Zawadi");
                 ("last_name", "Mwangi"); ("national_id", "34567890");
                 ("phone_number", "0722000111"); ("role", "PANELIST");
                 ("department", ""); ("password1", "t0pS3cret");
                 ("password2", "t0pS3cret")]
                eq_refl eq_refl eq_refl) as [_ Hclash].
    apply Hclash. exists MoreSamples.zuri. split; [simpl; tauto | now left].
Defined.



(** X4. A registration is recorded, or leaves no trace.  When the form
    is valid and the new row clashes with no stored row, exactly one
    activity entry is appended, owned by the new user, with action
    "USER_REGISTERED", the current time, the address of the client and the
    chosen role as payload; one success message is queued; the session is as
    it was; and the group table gains the group of the role only when it
    did not hold it, so that a table without duplicates stays without
    duplicates.  When the new row clashes, the view ends in
    [IntegrityError] and the store is as it was: no user, no group, no
    entry, no message. *)
Theorem registration_is_audited :
  forall (dj : Django) (env : Env) (request : Request) (w : World)
         (cd : list (string * string)),
    user request = None ->
    method request = "POST" ->
    CustomUserCreationForm_is_valid (users w) (POST request) = Some cd ->
    (Invariants.registration_clash env (users w) ->
     register_view env request w = Raised IntegrityError w) /\
    (~ Invariants.registration_clash env (users w) ->
     exists (new : User) (entry : UserActivityLog),
       register_view env request w =
         Returned (Redirect "accounts:login") (final_world (register_view env request w)) /\
       users (final_world (register_view env request w)) = (users w ++ [new])%list /\
       activity (final_world (register_view env request w)) = (activity w ++ [entry])%list /\
       log_user entry = id new /\
       action entry = "USER_REGISTERED" /\
       timestamp entry = now env /\
       ip_address entry = REMOTE_ADDR request /\
       data entry = [("role", role new)] /\
       flash (final_world (register_view env request w)) =
         (flash w ++ [(SUCCESS, "Registration successful! Please login.")])%list /\
       session (final_world (register_view env request w)) = session w /\
       In (group_of_role (role new))
          (auth_groups (final_world (register_view env request w))) /\
       (In (group_of_role (role new)) (auth_groups w) ->
        auth_groups (final_world (register_view env request w)) = auth_groups w) /\
       (~ In (group_of_role (role new)) (auth_groups w) ->
        auth_groups (final_world (register_view env request w)) =
          (auth_groups w ++ [group_of_role (role new)])%list) /\
       (NoDup (auth_groups w) ->
        NoDup (auth_groups (final_world (register_view env request w))))).
Proof.
  intros dj env request w cd Hanon Hpost Hvalid.
  rewrite (register_view_outcome env request w cd Hanon Hpost Hvalid).
  split.
  { intro Hclash.
    apply (registration_clash_iff env (users w) (POST request) cd Hvalid) in Hclash.
    now rewrite Hclash. }
  intro Hno.
  rewrite (registration_clash_decide env (users w) (POST request) cd Hvalid Hno).
  do 2 eexists. cbn [final_world users activity flash session auth_groups].
  split; [reflexivity |]. split; [reflexivity |]. split; [reflexivity |].
  rewrite new_row_columns.
  cbn [set_groups log_user action timestamp ip_address data id role].
  set (g := group_of_role _).
  assert (Hin : existsb (String.eqb g) (auth_groups w) = true <-> In g (auth_groups w)).
  { rewrite existsb_exists. split.
    - intros [x [Hx E]]. apply String.eqb_eq in E. now subst x.
    - intro H. exists g. split; [exact H | apply String.eqb_refl]. }
  repeat (split; [reflexivity |]).
  destruct (existsb (String.eqb g) (auth_groups w)) eqn:E.
  - assert (Hg : In g (auth_groups w)) by now apply Hin.
    repeat split; auto. intro Hout. contradiction.
  - assert (Hg : ~ In g (auth_groups w)).
    { intro H. apply Hin in H. discriminate H. }
    repeat split; auto.
    + apply in_or_app. right. now left.
    + intro H. contradiction.
    + intro Hnd. now apply NoDup_snoc.
Qed.

Lemma registration_is_audited_witness :
  (exists (new : User) (entry : UserActivityLog),
     activity
       (final_world
          (@register_view Samples.plain_django Samples.env0
             (Samples.request_of "/accounts/register/" "POST" None []
                MoreSamples.registration_form)
             Samples.world0)) = [Samples.earlier_login; entry] /\
     log_user entry = id new /\
     action entry = "USER_REGISTERED") /\
  @register_view Samples.plain_django Samples.env0
    (Samples.request_of "/accounts/register/" "POST" None []
       MoreSamples.registration_form) MoreSamples.world2 =
    Raised IntegrityError MoreSamples.world2.
Proof.
  split.
  - destruct (registration_is_audited Samples.plain_django Samples.env0
                (Samples.request_of "/accounts/register/" "POST" None []
                   MoreSamples.registration_form)
                Samples.world0
                [("email", "zawadi@savanna.go.ke"); ("first_name", "Zawadi");
                 ("last_name", "Mwangi"); ("national_id", "34567890");
                 ("phone_number", "0722000111"); ("role", "PANELIST");
                 ("department", ""); ("password1", "t0pS3cret");
                 ("password2", "t0pS3cret")]
                eq_refl eq_refl eq_refl) as [_ Hok].
    destruct Hok as [new [entry [_ [_ [Hlog [Howner [Haction _]]]]]]].
    { intros [r [[<- | [<- | [<- | []]]] [E | E]]]; discriminate E. }
    exists new, entry.
    split; [exact Hlog | split; [exact Howner | exact Haction]].
  - destruct (registration_is_audited Samples.plain_django Samples.env0
                (Samples.request_of "/accounts/register/" "POST" None []
                   MoreSamples.registration_form)
                MoreSamples.world2
                [("email", "zawadi@savanna.go.ke"); ("first_name", "Zawadi");
                 ("last_name", "Mwangi"); ("national_id", "34567890");
                 ("phone_number", "0722000111"); ("role", "PANELIST");
                 ("department", ""); ("password1", "t0pS3cret");
                 ("password2", "t0pS3cret")]
                eq_refl eq_refl eq_refl) as [Hclash _].
    apply Hclash. exists MoreSamples.zuri. split; [simpl; tauto | now left].
Defined.

(** X5. Registration keeps the unique columns unique.  Whatever the
    request is, if primary keys, e-mail addresses and national IDs are
    pairwise distinct in the user table before [register_view] runs, they
    are pairwise distinct afterwards. *)
Theorem register_view_keeps_keys_unique :
  forall (dj : Django) (env : Env) (request : Request) (w : World),
    Invariants.unique_keys (users w) ->
    Invariants.unique_keys (users (final_world (register_view env request w))).
Proof.
  intros dj env request w Huniq.
  destruct (user request) as [u |] eqn:Hu.
  { unfold register_view, is_authenticated. rewrite Hu. exact Huniq. }
  destruct (method request =? "POST") eqn:Hm.
  2:{ unfold register_view, is_authenticated. rewrite Hu, Hm. exact Huniq. }
  apply String.eqb_eq in Hm.
  destruct (CustomUserCreationForm_is_valid (users w) (POST request)) as [cd |] eqn:Hv.
  2:{ rewrite (register_view_rejected env request w Hu Hm Hv). exact Huniq. }
  rewrite (register_view_outcome env request w cd Hu Hm Hv).
  destruct (unique_violation _ (users w)); [exact Huniq |].
  destruct (creation_form_values (users w) (POST request) cd Hv)
    as (_ & _ & _ & Hee & _ & _ & _ & _ & _ & _ & _ & Hfresh & _).
  rewrite email_exists_iff in Hee.
  destruct Huniq as [Hid [Hemail Hnid]].
  cbn [final_world users]. unfold Invariants.unique_keys.
  rewrite !map_app, new_row_columns. cbn [map set_groups id email national_id].
  split; [| split]; apply NoDup_snoc; auto.
  - intro Hin. apply in_map_iff in Hin. destruct Hin as [r [Hr Hin]].
    pose proof (ids_below_next (users w) r Hin). lia.
  - intro Hin. apply in_map_iff in Hin. destruct Hin as [r [Hr Hin]].
    now apply (Hee r Hin).
  - intro Hin. apply in_map_iff in Hin. destruct Hin as [r [Hr Hin]].
    apply Hfresh. now exists r.
Qed.

Lemma register_view_keeps_keys_unique_witness :
  Invariants.unique_keys
    (users (final_world
              (@register_view Samples.plain_django Samples.env0
                 (Samples.request_of "/accounts/register/" "POST" None []
                    MoreSamples.registration_form)
                 Samples.world0))).
Proof.
  apply (register_view_keeps_keys_unique Samples.plain_django Samples.env0
           (Samples.request_of "/accounts/register/" "POST" None []
              MoreSamples.registration_form)
           Samples.world0).
  unfold Invariants.unique_keys. simpl.
  repeat split;
    repeat (constructor; [simpl; intuition discriminate |]); constructor.
Defined.




(** X18. Registration and the group guard fit together.  After a
    registration that created a user, a request by the new user passes a
    group guard exactly when the guard names the group of the role chosen at
    registration; any other list of group names gets the dashboard
    redirect. *)
Theorem registered_user_passes_own_group_guard :
  forall (dj : Django) (env : Env) (request : Request) (w : World)
         (cd : list (string * string)),
    user request = None ->
    method request = "POST" ->
    CustomUserCreationForm_is_valid (users w) (POST request) = Some cd ->
    ~ Invariants.registration_clash env (users w) ->
    exists new : User,
      users (final_world (register_view env request w)) = (users w ++ [new])%list /\
      role new = get_or (POST request) "role" "" /\
      forall (group_names : list string) (view : View) (request2 : Request),
        user request2 = Some new ->
        (In (group_of_role (role new)) group_names ->
         group_required group_names view request2
             (final_world (register_view env request w)) =
           view request2 (final_world (register_view env request w))) /\
        (~ In (group_of_role (role new)) group_names ->
         response_of
           (group_required group_names view request2
              (final_world (register_view env request w))) =
           Some (Redirect "core:dashboard")).
Proof.
  intros dj env request w cd Hanon Hpost Hvalid Hno.
  rewrite (register_view_outcome env request w cd Hanon Hpost Hvalid).
  rewrite (registration_clash_decide env (users w) (POST request) cd Hvalid Hno).
  cbn [final_world].
  set (new := set_groups _ _).
  set (w1 := mkWorld _ _ _ _ _).
  exists new. split; [reflexivity |].
  assert (Hrole : role new = get_or cd "role" "INITIATOR") by reflexivity.
  split.
  { rewrite Hrole.
    destruct (creation_form_values (users w) (POST request) cd Hvalid)
      as (_ & _ & _ & _ & _ & _ & _ & _ & _ & _ & _ & _ & _ & _ & _ & _ & _ & _
          & Hr & _).
    exact Hr. }
  assert (Hstored : stored_groups w1 new = [group_of_role (role new)]).
  { unfold stored_groups, w1. cbn [users].
    rewrite find_appended; [reflexivity |].
    intros r Hr. pose proof (ids_below_next (users w) r Hr).
    change (id new) with (next_id (users w)). lia. }
  intros names view request2 Hu. split.
  - intro Hin. apply (group_required_admits names view request2 w1 new Hu).
    exists (group_of_role (role new)). rewrite Hstored. split; [now left | exact Hin].
  - intro Hout.
    rewrite (group_required_denies names view request2 w1 new Hu); [reflexivity |].
    rewrite Hstored. intros g [<- | []]. exact Hout.
Qed.

Lemma registered_user_passes_own_group_guard_witness :
  let registered :=
    final_world
      (@register_view Samples.plain_django Samples.env0
         (Samples.request_of "/accounts/register/" "POST" None []
            MoreSamples.registration_form)
         Samples.world0) in
  exists new : User,
    users registered = (users Samples.world0 ++ [new])%list /\
    forall (view : View) (request2 : Request),
      user request2 = Some new ->
      group_required ["Panelists"] view request2 registered =
        view request2 registered.
Proof.
  cbv zeta.
  destruct (registered_user_passes_own_group_guard Samples.plain_django Samples.env0
              (Samples.request_of "/accounts/register/" "POST" None []
                 MoreSamples.registration_form)
              Samples.world0
              [("email", "zawadi@savanna.go.ke"); ("first_name", "Zawadi");
               ("last_name", "Mwangi"); ("national_id", "34567890");
               ("phone_number", "0722000111"); ("role", "PANELIST");
               ("department", ""); ("password1", "t0pS3cret");
               ("password2", "t0pS3cret")]
              eq_refl eq_refl eq_refl)
    as [new [Hin [Hrole Hguard]]].
  { intros [r [[<- | [<- | [<- | []]]] [E | E]]]; discriminate E. }
  exists new. split; [exact Hin |].
  intros view request2 Hu.
  destruct (Hguard ["Panelists"] view request2 Hu) as [Hadmit _].
  apply Hadmit. rewrite Hrole. now left.
Defined.

(* ------------------------------------------------------------------ *)
(** ** Updating a profile *)

(** The phone field of the profile form. *)
Lemma profile_clean_phone `{Django} (submitted v : string) :
  profile_clean phone_number_field submitted = Some v <->
  v = Spec.strip_separators (Py.strip submitted) /\
  String.length (Py.strip submitted) <= 15 /\
  (exists p, In p Spec.kenyan_prefixes /\
             Spec.begins_with (Spec.strip_separators (Py.strip submitted)) p) /\
  phone_number_validator (Spec.strip_separators (Py.strip submitted)) = true.
Proof.
  unfold profile_clean, phone_number_field. rewrite field_clean_char.
  unfold too_long. cbn [max_length name String.eqb Ascii.eqb Bool.eqb].
  set (s := Py.strip submitted).
  rewrite <- kenyan_prefix_spec.
  destruct (Py.truthy s) eqn:T; cbn [negb].
  2:{ split; [discriminate |]. intros (_ & _ & Hp & _).
      apply kenyan_prefix_nonempty in Hp.
      rewrite (strip_empty_when_falsy s T) in Hp. now destruct Hp. }
  apply truthy_iff in T.
  pose proof (profile_clean_phone_number_characterised s T) as Hhook.
  destruct (15 <? String.length s)%nat eqn:L; cbn [orb].
  { apply Nat.ltb_lt in L. split; [discriminate | intros (_ & X & _); lia]. }
  apply Nat.ltb_ge in L.
  destruct (has_nul s) eqn:N; cbv iota.
  { split; [discriminate |]. intros (_ & _ & _ & V).
    rewrite (no_nul_before_strip_separators s (phone_number_validator_no_nul _ V)) in N.
    discriminate N. }
  destruct (profile_clean_phone_number s) as [v' | msg] eqn:Eh.
  - pose proof (profile_clean_phone_number_value s v' Eh) as ->.
    destruct Hhook as [Hhook _]. specialize (Hhook eq_refl).
    destruct (phone_number_validator (Spec.strip_separators s)) eqn:V.
    + split.
      * intro E. inversion E. auto.
      * intros (-> & _). reflexivity.
    + split; [discriminate | intros (_ & _ & _ & X); discriminate X].
  - split; [discriminate |].
    intros (_ & _ & Hp & _). destruct Hhook as [_ Hhook].
    specialize (Hhook Hp). discriminate Hhook.
Qed.

Lemma profile_clean_text `{Django} (nm : string) (n : option nat) (submitted : string) :
  (nm =? "phone_number") = false ->
  profile_clean (mkField nm CharField true n) submitted =
    field_clean (mkField nm CharField true n) submitted.
Proof.
  intro Hn. unfold profile_clean. cbn [name]. rewrite Hn.
  now destruct (field_clean _ submitted).
Qed.

(** A required name of at most 30 characters. *)
Lemma name_field_clean `{Django} (nm submitted v : string) :
  field_clean (mkField nm CharField true (Some 30)) submitted = Some v <->
  v = Py.strip submitted /\ v <> "" /\ String.length v <= 30 /\ has_nul v = false.
Proof.
  rewrite field_clean_char. unfold too_long. cbn [max_length].
  set (s := Py.strip submitted).
  rewrite <- truthy_iff.
  destruct (Py.truthy s) eqn:T; cbn [negb].
  2:{ split; [discriminate |]. intros (-> & X & _). congruence. }
  destruct (30 <? String.length s)%nat eqn:L; cbn [orb].
  { apply Nat.ltb_lt in L. split; [discriminate |]. intros (-> & _ & X & _). lia. }
  apply Nat.ltb_ge in L.
  destruct (has_nul s) eqn:N.
  { split; [discriminate |]. intros (-> & _ & _ & X). congruence. }
  split.
  - intro E. inversion E. subst v. auto.
  - intros (-> & _). reflexivity.
Qed.

(** The profile form is valid exactly when the stripped names are not
    empty, have at most 30 characters and hold no character of code point
    0, and the phone field is clean. *)
Lemma profile_form_valid `{Django} (post cd : list (string * string)) :
  UserProfileForm_is_valid post = Some cd <->
  cd = [ ("first_name", Py.strip (get_or post "first_name" ""));
         ("last_name", Py.strip (get_or post "last_name" ""));
         ("phone_number",
          Spec.strip_separators (Py.strip (get_or post "phone_number" "")));
         ("profile_picture", "") ] /\
  Py.strip (get_or post "first_name" "") <> "" /\
  String.length (Py.strip (get_or post "first_name" "")) <= 30 /\
  has_nul (Py.strip (get_or post "first_name" "")) = false /\
  Py.strip (get_or post "last_name" "") <> "" /\
  String.length (Py.strip (get_or post "last_name" "")) <= 30 /\
  has_nul (Py.strip (get_or post "last_name" "")) = false /\
  String.length (Py.strip (get_or post "phone_number" "")) <= 15 /\
  (exists p, In p Spec.kenyan_prefixes /\
             Spec.begins_with
               (Spec.strip_separators (Py.strip (get_or post "phone_number" ""))) p) /\
  phone_number_validator
    (Spec.strip_separators (Py.strip (get_or post "phone_number" ""))) = true.
Proof.
  unfold UserProfileForm_is_valid.
  cbn [clean_fields profile_fields name phone_number_field].
  fold phone_number_field.
  rewrite (profile_clean_text "first_name" (Some 30) _ eq_refl).
  rewrite (profile_clean_text "last_name" (Some 30) _ eq_refl).
  change (profile_clean (mkField "profile_picture" ImageField false None)
            (get_or post "profile_picture" "")) with (Some "").
  destruct (field_clean (mkField "first_name" CharField true (Some 30))
              (get_or post "first_name" "")) as [f |] eqn:Ef.
  2:{ split; [discriminate |]. intros (_ & A & B & C & _).
      assert (X : field_clean (mkField "first_name" CharField true (Some 30))
                    (get_or post "first_name" "")
                  = Some (Py.strip (get_or post "first_name" "")))
        by (apply name_field_clean; auto).
      congruence. }
  apply name_field_clean in Ef. destruct Ef as (-> & Hf1 & Hf2 & Hf3).
  destruct (field_clean (mkField "last_name" CharField true (Some 30))
              (get_or post "last_name" "")) as [l |] eqn:El.
  2:{ split; [discriminate |]. intros (_ & _ & _ & _ & A & B & C & _).
      assert (X : field_clean (mkField "last_name" CharField true (Some 30))
                    (get_or post "last_name" "")
                  = Some (Py.strip (get_or post "last_name" "")))
        by (apply name_field_clean; auto).
      congruence. }
  apply name_field_clean in El. destruct El as (-> & Hl1 & Hl2 & Hl3).
  destruct (profile_clean phone_number_field (get_or post "phone_number" ""))
    as [p |] eqn:Ep.
  2:{ split; [discriminate |]. intros (_ & _ & _ & _ & _ & _ & _ & A & B & C).
      assert (X : profile_clean phone_number_field (get_or post "phone_number" "")
                  = Some (Spec.strip_separators
                            (Py.strip (get_or post "phone_number" ""))))
        by (apply profile_clean_phone; auto).
      congruence. }
  apply profile_clean_phone in Ep. destruct Ep as (-> & Hp1 & Hp2 & Hp3).
  split.
  - intro E. inversion E.
    repeat match goal with |- _ /\ _ => split end; auto.
  - intros (-> & _). reflexivity.
Qed.

Lemma updated_user_columns `{Django} (env : Env) (actor : User)
    (cd : list (string * string)) :
  id (row_to_save env (updated_user actor cd)) = id actor /\
  is_active (row_to_save env (updated_user actor cd)) = is_active actor /\
  Invariants.authority_columns (row_to_save env (updated_user actor cd)) =
    Invariants.authority_columns actor /\
  email (row_to_save env (updated_user actor cd)) = normalize_email (email actor) /\
  first_name (row_to_save env (updated_user actor cd)) = get_or cd "first_name" "" /\
  last_name (row_to_save env (updated_user actor cd)) = get_or cd "last_name" "" /\
  phone_number (row_to_save env (updated_user actor cd)) = get_or cd "phone_number" "".
Proof.
  unfold row_to_save.
  change (has_employee_id (updated_user actor cd)) with (has_employee_id actor).
  destruct (has_employee_id actor); repeat split.
Qed.

(** A valid profile form: the save either raises or goes through, and the
    rest of the view follows it. *)
Lemma profile_view_saves `{Django} (env : Env) (request : Request) (w : World)
    (actor : User) (cd : list (string * string)) :
  user request = Some actor ->
  In actor (users w) ->
  method request = "POST" ->
  UserProfileForm_is_valid (POST request) = Some cd ->
  profile_view env request w =
    if unique_violation (row_to_save env (updated_user actor cd)) (users w)
    then Raised IntegrityError w
    else
      Returned (Redirect "accounts:profile")
        (mkWorld
           (map (fun r => if (id r =? id actor)%Z
                          then row_to_save env (updated_user actor cd) else r)
              (users w))
           (activity w ++
              [mkLog (id actor) "PROFILE_UPDATED" (REMOTE_ADDR request)
                 (match HTTP_USER_AGENT request with Some a => a | None => "" end)
                 (now env) []])
           (auth_groups w)
           (flash w ++ [(SUCCESS, "Profile updated successfully!")])
           (session w)).
Proof.
  intros Hactor Hin Hpost Hvalid.
  destruct (updated_user_columns env actor cd) as (Hid & _).
  unfold profile_view.
  rewrite (login_required_admits _ request w actor Hactor).
  rewrite Hpost, String.eqb_refl, Hvalid, Hactor.
  unfold bind. rewrite User_save_cases.
  destruct (unique_violation _ (users w)); [reflexivity |].
  assert (Hstored : existsb (model_eq (row_to_save env (updated_user actor cd))) (users w)
                    = true).
  { rewrite (existsb_model_eq_id _ actor) by exact Hid. now apply stored_row_found. }
  rewrite (write_row_stored _ (users w) Hstored), Hid.
  reflexivity.
Qed.

(** X14. A profile update cannot touch what authorises a user, and of
    what identifies a user it can only put the e-mail address of the user
    in its normal form.  For every request to [profile_view], whatever it
    submits, when the logged-in user is a row of a table with distinct
    primary keys: every row keeps its key, password, national ID, role,
    department, join date, groups and [is_active] flag, the rows of the
    other users are exactly as they were, and the e-mail address of the
    user's row is the stored one or its normal form.  When the stored
    address is in normal form already, every row keeps its e-mail address
    too. *)
Theorem profile_view_protects_identity :
  forall (dj : Django) (env : Env) (request : Request) (w : World),
    NoDup (map id (users w)) ->
    (forall actor, user request = Some actor -> In actor (users w)) ->
    map Invariants.authority_columns (users (final_world (profile_view env request w))) =
      map Invariants.authority_columns (users w) /\
    map is_active (users (final_world (profile_view env request w))) =
      map is_active (users w) /\
    (forall u actor,
        In u (users w) -> user request = Some actor -> id u <> id actor ->
        In u (users (final_world (profile_view env request w)))) /\
    (forall r actor,
        In r (users (final_world (profile_view env request w))) ->
        user request = Some actor -> id r = id actor ->
        email r = email actor \/ email r = normalize_email (email actor)) /\
    ((forall actor, user request = Some actor ->
                    normalize_email (email actor) = email actor) ->
     map Invariants.identity_columns (users (final_world (profile_view env request w))) =
       map Invariants.identity_columns (users w)).
Proof.
  intros dj env request w Hnd Hstored.
  assert (Hsame : forall o : Outcome Response,
             users (final_world o) = users w ->
             map Invariants.authority_columns (users (final_world o)) =
               map Invariants.authority_columns (users w) /\
             map is_active (users (final_world o)) = map is_active (users w) /\
             (forall u actor,
                 In u (users w) -> user request = Some actor -> id u <> id actor ->
                 In u (users (final_world o))) /\
             (forall r actor,
                 In r (users (final_world o)) ->
                 user request = Some actor -> id r = id actor ->
                 email r = email actor \/ email r = normalize_email (email actor)) /\
             ((forall actor, user request = Some actor ->
                             normalize_email (email actor) = email actor) ->
              map Invariants.identity_columns (users (final_world o)) =
                map Invariants.identity_columns (users w))).
  { intros o E. rewrite E. repeat split; auto.
    intros r actor Hr Hu Hid. left.
    now rewrite (same_key_same_row (users w) r actor Hnd Hr (Hstored actor Hu) Hid). }
  destruct (user request) as [actor |] eqn:Hactor.
  2:{ apply Hsame. unfold profile_view.
      now rewrite (login_required_denies _ request w Hactor). }
  destruct (method request =? "POST") eqn:Hm.
  2:{ apply Hsame. unfold profile_view.
      rewrite (login_required_admits _ request w actor Hactor). now rewrite Hm. }
  apply String.eqb_eq in Hm.
  destruct (UserProfileForm_is_valid (POST request)) as [cd |] eqn:Hv.
  2:{ apply Hsame. unfold profile_view.
      rewrite (login_required_admits _ request w actor Hactor).
      now rewrite Hm, String.eqb_refl, Hv. }
  rewrite (profile_view_saves env request w actor cd Hactor (Hstored actor eq_refl) Hm Hv).
  destruct (unique_violation _ (users w)); [apply Hsame; reflexivity |].
  destruct (updated_user_columns env actor cd) as (Hid & Hact & Hauth & Hemail & _).
  set (saved := row_to_save env (updated_user actor cd)) in *.
  cbn [final_world users].
  assert (Hrow : forall r, In r (users w) -> (id r =? id actor)%Z = true -> r = actor).
  { intros r Hr E. apply Z.eqb_eq in E.
    apply (same_key_same_row (users w)); auto. }
  split; [| split; [| split; [| split]]].
  - rewrite map_map. apply map_ext_in. intros r Hr.
    destruct (id r =? id actor)%Z eqn:E; [| reflexivity].
    rewrite (Hrow r Hr E). exact Hauth.
  - rewrite map_map. apply map_ext_in. intros r Hr.
    destruct (id r =? id actor)%Z eqn:E; [| reflexivity].
    rewrite (Hrow r Hr E). exact Hact.
  - intros u actor' Hu E Hne. inversion E; subst actor'.
    apply in_map_iff. exists u. split; [| exact Hu].
    apply Z.eqb_neq in Hne. now rewrite Hne.
  - intros r actor' Hr E Hrid. inversion E; subst actor'.
    apply in_map_iff in Hr. destruct Hr as [r0 [Hr0 Hin0]].
    destruct (id r0 =? id actor)%Z eqn:E0.
    + subst r. right. exact Hemail.
    + subst r. apply Z.eqb_neq in E0. contradiction.
  - intro Hnorm. specialize (Hnorm actor eq_refl).
    rewrite map_map. apply map_ext_in. intros r Hr.
    destruct (id r =? id actor)%Z eqn:E; [| reflexivity].
    rewrite (Hrow r Hr E).
    unfold Invariants.authority_columns in Hauth. inversion Hauth.
    unfold Invariants.identity_columns. rewrite Hemail, Hnorm. congruence.
Qed.

Lemma profile_view_protects_identity_witness :
  let outcome :=
    @profile_view Samples.plain_django Samples.env0
      (Samples.request_of "/accounts/profile/" "POST" (Some Samples.amani) []
         MoreSamples.profile_form)
      Samples.world0 in
  response_of outcome = Some (Redirect "accounts:profile") /\
  map role (users (final_world outcome)) = ["HR_ADMIN"; "INITIATOR"; "CHIEF_OFFICER"] /\
  map Invariants.identity_columns (users (final_world outcome)) =
    map Invariants.identity_columns (users Samples.world0).
Proof.
  cbv zeta. split; [reflexivity |]. split; [reflexivity |].
  destruct (profile_view_protects_identity Samples.plain_django Samples.env0
              (Samples.request_of "/accounts/profile/" "POST" (Some Samples.amani) []
                 MoreSamples.profile_form)
              Samples.world0) as (_ & _ & _ & _ & Hident).
  - simpl. repeat (constructor; [simpl; intuition discriminate |]). constructor.
  - intros actor E. inversion E. simpl. tauto.
  - apply Hident. intros actor E. inversion E. reflexivity.
Defined.

(** The e-mail address does change when it is stored out of its normal
    form: a profile update of such a user rewrites it. *)
Lemma profile_update_normalises_email :
  let outcome :=
    @profile_view Samples.plain_django Samples.env0
      (Samples.request_of "/accounts/profile/" "POST" (Some MoreSamples.shouting) []
         MoreSamples.profile_form)
      MoreSamples.world3 in
  response_of outcome = Some (Redirect "accounts:profile") /\
  map email (users MoreSamples.world3) =
    ["ada@savanna.go.ke"; "amani@SAVANNA.GO.KE"; "joy@savanna.go.ke"] /\
  map email (users (final_world outcome)) =
    ["ada@savanna.go.ke"; "amani@savanna.go.ke"; "joy@savanna.go.ke"].
Proof.
  repeat split; reflexivity.
Qed.

(** X15. What a profile update does and what it turns away.  For a POST
    by a logged-in user who is a stored row: when the form validates, the
    view saves the user's row with the submitted names, stripped of the
    whitespace around them, the submitted phone number, stripped and with
    its spaces and hyphens removed, and the e-mail address in its normal
    form.  When the save goes through, the row is stored, one
    "PROFILE_UPDATED" entry of that user is appended, and the response is
    the redirect to the profile page; it goes through whenever the user has
    an employee number, the stored e-mail address is in normal form and the
    table meets its unique constraints.  When the row clashes with another
    row on a unique column, the view ends in [IntegrityError] and the store
    is as it was.  When a stripped name is empty or longer than 30
    characters, or the stripped phone number is empty, longer than 15
    characters, does not begin with a Kenyan prefix once its separators are
    removed, or does not match the pattern of the column, the form is shown
    again and the store is left exactly as it was. *)
Theorem profile_update_effects :
  forall (dj : Django) (env : Env) (request : Request) (w : World) (actor : User),
    user request = Some actor ->
    In actor (users w) ->
    method request = "POST" ->
    (forall cd,
        UserProfileForm_is_valid (POST request) = Some cd ->
        let saved := row_to_save env (updated_user actor cd) in
        first_name saved = Py.strip (get_or (POST request) "first_name" "") /\
        last_name saved = Py.strip (get_or (POST request) "last_name" "") /\
        phone_number saved =
          Spec.strip_separators (Py.strip (get_or (POST request) "phone_number" "")) /\
        email saved = normalize_email (email actor) /\
        (unique_violation saved (users w) = false ->
         response_of (profile_view env request w) = Some (Redirect "accounts:profile") /\
         find (fun u => (id u =? id actor)%Z)
              (users (final_world (profile_view env request w))) = Some saved /\
         activity (final_world (profile_view env request w)) =
           (activity w ++
              [mkLog (id actor) "PROFILE_UPDATED" (REMOTE_ADDR request)
                 (match HTTP_USER_AGENT request with Some a => a | None => "" end)
                 (now env) []])%list) /\
        (has_employee_id actor = true ->
         normalize_email (email actor) = email actor ->
         Invariants.unique_columns (users w) ->
         unique_violation saved (users w) = false) /\
        (unique_violation saved (users w) = true ->
         profile_view env request w = Raised IntegrityError w)) /\
    (Py.strip (get_or (POST request) "first_name" "") = "" \/
     Py.strip (get_or (POST request) "last_name" "") = "" \/
     Py.strip (get_or (POST request) "phone_number" "") = "" \/
     30 < String.length (Py.strip (get_or (POST request) "first_name" "")) \/
     30 < String.length (Py.strip (get_or (POST request) "last_name" "")) \/
     15 < String.length (Py.strip (get_or (POST request) "phone_number" "")) \/
     ~ (exists p, In p Spec.kenyan_prefixes /\
                  Spec.begins_with
                    (Spec.strip_separators
                       (Py.strip (get_or (POST request) "phone_number" ""))) p) \/
     phone_number_validator
       (Spec.strip_separators (Py.strip (get_or (POST request) "phone_number" "")))
       = false ->
     profile_view env request w =
       Returned (Render "accounts/profile.html" (FormContext true)) w).
Proof.
  intros dj env request w actor Hactor Hin Hpost. split.
  - intros cd Hv. cbv zeta.
    rewrite (profile_view_saves env request w actor cd Hactor Hin Hpost Hv).
    destruct (updated_user_columns env actor cd)
      as (Hid & _ & _ & Hemail & Hf & Hl & Hp).
    apply profile_form_valid in Hv. destruct Hv as (Hcd & _).
    assert (Gf : get_or cd "first_name" "" = Py.strip (get_or (POST request) "first_name" ""))
      by (rewrite Hcd; reflexivity).
    assert (Gl : get_or cd "last_name" "" = Py.strip (get_or (POST request) "last_name" ""))
      by (rewrite Hcd; reflexivity).
    assert (Gp : get_or cd "phone_number" "" =
                 Spec.strip_separators (Py.strip (get_or (POST request) "phone_number" "")))
      by (rewrite Hcd; reflexivity).
    split; [congruence |]. split; [congruence |]. split; [congruence |].
    split; [exact Hemail |].
    split; [| split].
    + intros ->. cbn [response_of final_world users activity].
      split; [reflexivity |]. split; [| reflexivity].
      destruct (find (fun u => (id u =? id actor)%Z) (users w)) as [t |] eqn:F.
      * now apply (find_after_update (users w) (id actor) t).
      * exfalso. apply (find_none _ _ F actor) in Hin.
        now rewrite Z.eqb_refl in Hin.
    + intros Hhas Hnorm Huniq.
      apply (stored_row_saves env _ actor (users w) Huniq Hin); try reflexivity.
      * exact Hnorm.
      * exact Hhas.
    + intros ->. reflexivity.
  - intro Hbad.
    assert (Hv : UserProfileForm_is_valid (POST request) = None).
    { destruct (UserProfileForm_is_valid (POST request)) as [cd |] eqn:Hv; [| reflexivity].
      exfalso. apply profile_form_valid in Hv.
      destruct Hv as (_ & Hf & Lf & _ & Hl & Ll & _ & Lp & Hpre & Hval).
      destruct Hbad as [B | [B | [B | [B | [B | [B | [B | B]]]]]]];
        try contradiction; try congruence; try lia.
      destruct Hpre as [p [Hp [rest Hrest]]]. rewrite B in Hrest.
      destruct Hp as [<- | [<- | [<- | [<- | []]]]]; discriminate Hrest. }
    unfold profile_view.
    rewrite (login_required_admits _ request w actor Hactor).
    now rewrite Hpost, String.eqb_refl, Hv.
Qed.

Lemma profile_update_effects_witness :
  (exists saved,
      find (fun u => (id u =? 2)%Z)
           (users (final_world
                     (@profile_view Samples.plain_django Samples.env0
                        (Samples.request_of "/accounts/profile/" "POST"
                           (Some Samples.amani) [] MoreSamples.profile_form)
                        Samples.world0))) = Some saved /\
      last_name saved = "Odhiambo" /\
      phone_number saved = "0733123456") /\
  @profile_view Samples.plain_django Samples.env0
    (Samples.request_of "/accounts/profile/" "POST" (Some Samples.amani) []
       [("first_name", "Amani"); ("last_name", "Otieno"); ("phone_number", "0812345678")])
    Samples.world0 =
    Returned (Render "accounts/profile.html" (FormContext true)) Samples.world0.
Proof.
  split.
  - destruct (profile_update_effects Samples.plain_django Samples.env0
                (Samples.request_of "/accounts/profile/" "POST" (Some Samples.amani) []
                   MoreSamples.profile_form)
                Samples.world0 Samples.amani eq_refl
                (or_intror (or_introl eq_refl)) eq_refl) as [Hok _].
    destruct (Hok [("first_name", "Amani"); ("last_name", "Odhiambo");
                   ("phone_number", "0733123456"); ("profile_picture", "")] eq_refl)
      as (_ & Hl & Hp & _ & Hgo & _).
    destruct (Hgo eq_refl) as (_ & Hfind & _).
    eexists. split; [exact Hfind | split; [exact Hl | exact Hp]].
  - destruct (profile_update_effects Samples.plain_django Samples.env0
                (Samples.request_of "/accounts/profile/" "POST" (Some Samples.amani) []
                   [("first_name", "Amani"); ("last_name", "Otieno");
                    ("phone_number", "0812345678")])
                Samples.world0 Samples.amani eq_refl
                (or_intror (or_introl eq_refl)) eq_refl) as [_ Hbad].
    apply Hbad. do 6 right. left.
    intros [p [[<- | [<- | [<- | [<- | []]]]] [rest Hrest]]];
      vm_compute in Hrest; discriminate Hrest.
Defined.
